(** * RP-WHY baseline analysis: a shallow embedding of [rp_why_baseline.py]

    The development follows the Python module function by function.

    Modelling conventions.
    - A Python [str] is a [string]; [None] is the [None] of an [option].
    - A Python [int] is a [Z].
    - A Python [float] is modelled by the rational number it stands for
      ([Q]); arithmetic on floats is exact arithmetic on rationals and
      [round(x, n)] is rounding to [n] decimals, ties to even.  The
      binary floats of the interpreter differ from these values by
      their rounding errors, and [round] may go the other way when its
      argument is within such an error of a tie; the theorems that
      speak of rounded values or of thresholds on computed floats
      therefore state bounds with the room [float_allowance], not
      equalities.
    - Dictionaries whose iteration order is observed are association
      lists in insertion order.
    - What the interpreter and its libraries supply (case folding, the
      word class of the regular expressions, ISO date parsing, the
      clock) is gathered in the class [Runtime]; the development is
      parametric in it, and [reference_runtime] is an instance for 7-bit
      text used to run the code on examples.
    - The SQLite store is modelled by its two tables, the [json] module
      by the codec of the module [Json], the baseline file by its text. *)

From Stdlib Require Import ZArith QArith Qround Qminmax Qabs Lqa Lia.
From Stdlib Require Import List String Ascii Bool.
From Stdlib Require Import Permutation Sorted OrderedTypeEx.
From Stdlib Require Import DecimalString.
From Stdlib Require DecimalZ DecimalPos DecimalFacts.
Import ListNotations.

Local Open Scope string_scope.
Local Open Scope list_scope.
Local Open Scope Z_scope.

(** ** Outcomes of Python calls that may raise *)

Inductive exn : Type := ValueError | TypeError.

Inductive result (A : Type) : Type :=
| Ok (a : A)
| Raise (e : exn).
Arguments Ok {A} a.
Arguments Raise {A} e.

Definition bind {A B : Type} (r : result A) (k : A -> result B) : result B :=
  match r with
  | Ok a => k a
  | Raise e => Raise e
  end.

Declare Scope py_scope.
Delimit Scope py_scope with py.
Notation "x <- c ;; k" := (bind c (fun x => k))
  (at level 61, c at next level, right associativity) : py_scope.

(** ** What the Python runtime supplies *)

Class Runtime : Type := {
  (** values of [datetime.datetime] *)
  datetime : Type;
  (** [str.lower] *)
  str_lower : string -> string;
  (** membership in the class [\w] of the [re] module *)
  is_word : ascii -> bool;
  (** [datetime.fromisoformat]; [None] stands for [ValueError] *)
  fromisoformat : string -> option datetime;
  (** [d.strftime('%Y-W%W')] *)
  strftime_week : datetime -> string;
  (** [(a - b).days]; [None] stands for the [TypeError] raised when an
      aware and a naive datetime are subtracted *)
  sub_days : datetime -> datetime -> option Z;
  (** [datetime.now().isoformat()] *)
  now_isoformat : string
}.

(** ** Regular expressions of the trigger table

    The trigger patterns use three constructs only: the word boundary
    [\b], literal characters (possibly escaped by a backslash) and an
    optional character [c?]. *)

Module Re.

Inductive atom : Type :=
| WordB                 (* \b *)
| Chr (c : ascii)       (* c  *)
| OptChr (c : ascii).   (* c? *)

(** [acc] holds the atoms read so far, most recent first. *)
Fixpoint compile_aux (s : string) (acc : list atom) : list atom :=
  match s with
  | EmptyString => rev acc
  | String c r =>
      if Ascii.eqb c "\" then
        match r with
        | String d r' =>
            compile_aux r' ((if Ascii.eqb d "b" then WordB else Chr d) :: acc)
        | EmptyString => rev acc
        end
      else if Ascii.eqb c "?" then
        match acc with
        | Chr p :: acc' => compile_aux r (OptChr p :: acc')
        | _ => compile_aux r acc
        end
      else compile_aux r (Chr c :: acc)
  end.

Definition compile (s : string) : list atom := compile_aux s [].

Section Matching.
Context {rt : Runtime}.

Definition word_before (prev : option ascii) : bool :=
  match prev with
  | Some c => is_word c
  | None => false
  end.

Definition word_after (s : string) : bool :=
  match s with
  | String c _ => is_word c
  | EmptyString => false
  end.

(** [match_here re prev s]: the text matched by [re] at the start of
    [s], where [prev] is the character just before [s].  An optional
    character is tried first (greedy), then skipped. *)
Fixpoint match_here (re : list atom) (prev : option ascii) (s : string)
  : option string :=
  match re with
  | [] => Some EmptyString
  | WordB :: re' =>
      if xorb (word_before prev) (word_after s)
      then match_here re' prev s
      else None
  | Chr c :: re' =>
      match s with
      | String d s' =>
          if Ascii.eqb c d
          then option_map (String d) (match_here re' (Some d) s')
          else None
      | EmptyString => None
      end
  | OptChr c :: re' =>
      let skipped := match_here re' prev s in
      match s with
      | String d s' =>
          if Ascii.eqb c d then
            match match_here re' (Some d) s' with
            | Some m => Some (String d m)
            | None => skipped
            end
          else skipped
      | EmptyString => skipped
      end
  end.

(** leftmost match, scanning the start positions from left to right *)
Fixpoint search_from (re : list atom) (prev : option ascii) (s : string)
  : option string :=
  match match_here re prev s with
  | Some m => Some m
  | None =>
      match s with
      | String c s' => search_from re (Some c) s'
      | EmptyString => None
      end
  end.

(** [re.search(pattern, text)]; the result is [match.group()] *)
Definition search (pattern : string) (text : string) : option string :=
  search_from (compile pattern) None text.

End Matching.
End Re.

(** ** String helpers *)

Definition is_space (c : ascii) : bool :=
  let n := nat_of_ascii c in
  ((9 <=? n) && (n <=? 13) || (28 <=? n) && (n <=? 32)
   || (n =? 133) || (n =? 160))%nat.

Fixpoint lstrip (s : string) : string :=
  match s with
  | String c r => if is_space c then lstrip r else s
  | EmptyString => EmptyString
  end.

Fixpoint rstrip (s : string) : string :=
  match s with
  | String c r =>
      match rstrip r with
      | EmptyString => if is_space c then EmptyString else String c EmptyString
      | r' => String c r'
      end
  | EmptyString => EmptyString
  end.

(** [str.strip()] *)
Definition strip (s : string) : string := rstrip (lstrip s).

(** [str(n)] for an integer *)
Definition str_of_int (n : Z) : string := NilZero.string_of_int (Z.to_int n).

(** [s.replace('Z', '+00:00')] *)
Fixpoint replace_Z (s : string) : string :=
  match s with
  | String c r =>
      if Ascii.eqb c "Z" then ("+00:00" ++ replace_Z r)%string else String c (replace_Z r)
  | EmptyString => EmptyString
  end.

(** ** Dictionaries with integer keys and integer values *)

Definition int_dict := list (Z * Z).

Fixpoint dict_get (k : Z) (d : int_dict) : Z :=
  match d with
  | [] => 0
  | (k', v) :: d' => if k =? k' then v else dict_get k d'
  end.

(** [d[k] += 1] for a key that is present *)
Fixpoint dict_incr (k : Z) (d : int_dict) : int_dict :=
  match d with
  | [] => []
  | (k', v) :: d' =>
      if k =? k' then (k', v + 1) :: d' else (k', v) :: dict_incr k d'
  end.

Definition dict_values (d : int_dict) : list Z := map snd d.

(** [sum(xs)] on integers *)
Definition sum_Z (xs : list Z) : Z := fold_left Z.add xs 0.

(** [max(xs)]; Python raises [ValueError] on an empty sequence, every
    call below is on a sequence shown to be non-empty. *)
Definition max_Z (xs : list Z) : Z :=
  match xs with
  | [] => 0
  | x :: xs' => fold_left Z.max xs' x
  end.

(** [xs[:n]] and [xs[-n:]] for [n >= 0] *)
Definition take {A : Type} (n : nat) (xs : list A) : list A := firstn n xs.
Definition last_n {A : Type} (n : nat) (xs : list A) : list A :=
  skipn (List.length xs - n) xs.

(** ** The classifier *)

(** [RPWhyBaseline.DOK_PATTERNS] *)
Definition DOK_PATTERNS : list (Z * list string) :=
  [ (1, [ "\bhow do i\b"; "\bwhat is\b"; "\bsyntax\b"; "\bcommand\b";
          "\bwhere\b"; "\bshow me\b"; "\bexample\b"; "\bhelp with\b";
          "\bwhat\'s the\b"; "\bhow to\b"; "\bcan you show\b" ]);
    (2, [ "\bimplement\b"; "\bdebug\b"; "\bfix\b"; "\brefactor\b";
          "\btest\b"; "\badd\b"; "\bupdate\b"; "\bcreate\b";
          "\bbuild\b"; "\bwrite\b"; "\bmodify\b"; "\bchange\b";
          "\bremove\b"; "\bdelete\b"; "\binstall\b"; "\bsetup\b" ]);
    (3, [ "\bdesign\b"; "\barchitect\b"; "\banalyze\b"; "\bcompare\b";
          "\btrade-?off\b"; "\bbest approach\b"; "\bevaluate\b";
          "\bstrategy\b"; "\bwhy\b"; "\bimplications\b"; "\bshould we\b";
          "\breview\b"; "\boptimize\b"; "\bimprove\b"; "\balternative\b";
          "\bpros and cons\b"; "\bdecision\b" ]);
    (4, [ "\bresearch\b"; "\bnovel\b"; "\binnovate\b"; "\btransform\b";
          "\bframework\b"; "\blong-term\b"; "\bevolve\b"; "\bvision\b";
          "\bbreakthrough\b"; "\bsystematic\b"; "\bparadigm\b";
          "\bfundamental\b"; "\bpioneer\b"; "\bgroundbreaking\b" ]) ].

Section Classifier.
Context {rt : Runtime}.

(** the state of the two nested loops: [scores] and [matched] *)
Definition scan_state : Type := int_dict * list string.

(** one iteration of the inner loop *)
Definition scan_pattern (text_lower : string) (level : Z)
  (st : scan_state) (pattern : string) : scan_state :=
  let '(scores, matched) := st in
  match Re.search pattern text_lower with
  | Some m => (dict_incr level scores, matched ++ [strip m])
  | None => (scores, matched)
  end.

(** one iteration of the outer loop *)
Definition scan_level (text_lower : string) (st : scan_state)
  (entry : Z * list string) : scan_state :=
  let '(level, patterns) := entry in
  fold_left (scan_pattern text_lower level) patterns st.

Definition scan (text_lower : string) : scan_state :=
  fold_left (scan_level text_lower) DOK_PATTERNS
    ([(1, 0); (2, 0); (3, 0); (4, 0)], []).

(** [max(k for k, v in scores.items() if v == max_score)] *)
Definition top_level (scores : int_dict) (max_score : Z) : Z :=
  max_Z (map fst (filter (fun kv => snd kv =? max_score) scores)).

(** [not text], for a text that is a string or [None] *)
Definition text_is_empty (text : option string) : bool :=
  match text with
  | None | Some EmptyString => true
  | Some (String _ _) => false
  end.

Definition text_value (text : option string) : string :=
  match text with
  | Some t => t
  | None => EmptyString
  end.

(** [RPWhyBaseline.classify_dok]; an absent text is [None] *)
Definition classify_dok (text : option string) : Z * Q * list string :=
  if text_is_empty text then (2, 3 # 10, [])
  else
    let text_lower := str_lower (text_value text) in
    let '(scores, matched) := scan text_lower in
    let total_matches := sum_Z (dict_values scores) in
    if total_matches =? 0 then (2, 3 # 10, [])
    else
      let max_score := max_Z (dict_values scores) in
      let level := top_level scores max_score in
      let confidence :=
        if 0 <? total_matches
        then (inject_Z max_score / inject_Z total_matches)%Q
        else 3 # 10 in
      (level, Qmin confidence 1, take 5 matched).

End Classifier.

(** ** A runtime for 7-bit text

    [reference_runtime] follows CPython on 7-bit text and on the
    timestamps of the forms listed at [parse_stamp]; it is what the
    examples below run on. *)

Module Reference.

Definition lower_char (c : ascii) : ascii :=
  let n := nat_of_ascii c in
  if ((65 <=? n) && (n <=? 90))%nat then ascii_of_nat (n + 32) else c.

Fixpoint lower (s : string) : string :=
  match s with
  | String c r => String (lower_char c) (lower r)
  | EmptyString => EmptyString
  end.

Definition word_char (c : ascii) : bool :=
  let n := nat_of_ascii c in
  ((48 <=? n) && (n <=? 57) || (65 <=? n) && (n <=? 90)
   || (97 <=? n) && (n <=? 122) || (n =? 95))%nat.

Definition digit (c : ascii) : option Z :=
  let n := Z.of_nat (nat_of_ascii c) in
  if (48 <=? n) && (n <=? 57) then Some (n - 48) else None.

(** the number written by the first [k] characters of [s], and the rest *)
Fixpoint read_digits (k : nat) (acc : Z) (s : string) : option (Z * string) :=
  match k with
  | O => Some (acc, s)
  | S k' =>
      match s with
      | String c r =>
          match digit c with
          | Some d => read_digits k' (10 * acc + d) r
          | None => None
          end
      | EmptyString => None
      end
  end.

Definition expect (c : ascii) (s : string) : option string :=
  match s with
  | String d r => if Ascii.eqb c d then Some r else None
  | EmptyString => None
  end.

Definition is_leap (y : Z) : bool :=
  (y mod 4 =? 0) && (negb (y mod 100 =? 0) || (y mod 400 =? 0)).

Definition days_in_month (y m : Z) : Z :=
  if m =? 2 then (if is_leap y then 29 else 28)
  else if (m =? 4) || (m =? 6) || (m =? 9) || (m =? 11) then 30
  else 31.

(** a calendar date: year, month, day *)
Definition date : Type := Z * Z * Z.

(** a timestamp: date, seconds since midnight, and whether it carries
    a UTC offset *)
Record stamp : Type := {
  stamp_date : date;
  stamp_seconds : Z;
  stamp_aware : bool
}.

Definition read_date (s : string) : option (date * string) :=
  match read_digits 4 0 s with
  | Some (y, s1) =>
      match expect "-" s1 with
      | Some s2 =>
          match read_digits 2 0 s2 with
          | Some (m, s3) =>
              match expect "-" s3 with
              | Some s4 =>
                  match read_digits 2 0 s4 with
                  | Some (d, rest) =>
                      if (1 <=? y) && (1 <=? m) && (m <=? 12) && (1 <=? d)
                         && (d <=? days_in_month y m)
                      then Some ((y, m, d), rest) else None
                  | None => None
                  end
              | None => None
              end
          | None => None
          end
      | None => None
      end
  | None => None
  end.

(** [HH:MM:SS] *)
Definition read_time (s : string) : option (Z * string) :=
  match read_digits 2 0 s with
  | Some (hh, s1) =>
      match expect ":" s1 with
      | Some s2 =>
          match read_digits 2 0 s2 with
          | Some (mm, s3) =>
              match expect ":" s3 with
              | Some s4 =>
                  match read_digits 2 0 s4 with
                  | Some (ss, rest) =>
                      if (hh <? 24) && (mm <? 60) && (ss <? 60)
                      then Some (3600 * hh + 60 * mm + ss, rest) else None
                  | None => None
                  end
              | None => None
              end
          | None => None
          end
      | None => None
      end
  | None => None
  end.

(** the forms read: [YYYY-MM-DD], [YYYY-MM-DD HH:MM:SS] and
    [YYYY-MM-DDTHH:MM:SS], the last two also with the offset [+00:00] *)
Definition parse_stamp (s : string) : option stamp :=
  match read_date s with
  | Some (d, EmptyString) =>
      Some {| stamp_date := d; stamp_seconds := 0; stamp_aware := false |}
  | Some (d, String sep r) =>
      if Ascii.eqb sep "T" || Ascii.eqb sep " " then
        match read_time r with
        | Some (secs, rest) =>
            if String.eqb rest "" then
              Some {| stamp_date := d; stamp_seconds := secs; stamp_aware := false |}
            else if String.eqb rest "+00:00" then
              Some {| stamp_date := d; stamp_seconds := secs; stamp_aware := true |}
            else None
        | None => None
        end
      else None
  | None => None
  end.

(** days since 1970-01-01 *)
Definition day_number (dt : date) : Z :=
  let '(y, m, d) := dt in
  let y' := if m <=? 2 then y - 1 else y in
  let era := y' / 400 in
  let yoe := y' - era * 400 in
  let mp := if 2 <? m then m - 3 else m + 9 in
  let doy := (153 * mp + 2) / 5 + d - 1 in
  let doe := yoe * 365 + yoe / 4 - yoe / 100 + doy in
  era * 146097 + doe - 719468.

(** Monday is 0 *)
Definition weekday (dt : date) : Z := (day_number dt + 3) mod 7.

Definition year_day (dt : date) : Z :=
  let '(y, _, _) := dt in day_number dt - day_number (y, 1, 1).

(** [%W]: week of the year, weeks starting on Monday *)
Definition week_of_year (dt : date) : Z :=
  (year_day dt + 7 - weekday dt) / 7.

Definition digit_char (n : Z) : ascii := ascii_of_nat (48 + Z.to_nat (n mod 10)).

(** the last [k] decimal digits of [n], most significant first *)
Fixpoint pad_digits (k : nat) (n : Z) (acc : string) : string :=
  match k with
  | O => acc
  | S k' => pad_digits k' (n / 10) (String (digit_char n) acc)
  end.

Definition week_key (t : stamp) : string :=
  let '(y, _, _) := stamp_date t in
  (pad_digits 4 y "" ++ "-W" ++ pad_digits 2 (week_of_year (stamp_date t)) "")%string.

Definition seconds (t : stamp) : Z := 86400 * day_number (stamp_date t) + stamp_seconds t.

(** the [days] of the difference of two timestamps *)
Definition days_between (a b : stamp) : option Z :=
  if Bool.eqb (stamp_aware a) (stamp_aware b)
  then Some ((seconds a - seconds b) / 86400)
  else None.

End Reference.

#[export] Instance reference_runtime : Runtime := {|
  datetime := Reference.stamp;
  str_lower := Reference.lower;
  is_word := Reference.word_char;
  fromisoformat := Reference.parse_stamp;
  strftime_week := Reference.week_key;
  sub_days := Reference.days_between;
  now_isoformat := "2025-01-01T00:00:00"
|}.

(** ** Numbers *)

Definition Qltb (x y : Q) : bool := negb (Qle_bool y x).

(** [sum(xs)] on floats *)
Definition sum_Q (xs : list Q) : Q := fold_left Qplus xs 0%Q.

Definition len {A : Type} (xs : list A) : Z := Z.of_nat (List.length xs).

(** nearest integer, ties to the even one *)
Definition round_half_even (x : Q) : Z :=
  let f := Qfloor x in
  match (x - inject_Z f ?= 1 # 2)%Q with
  | Lt => f
  | Gt => f + 1
  | Eq => if Z.even f then f else f + 1
  end.

(** [round(x, ndigits)] *)
Definition py_round (x : Q) (ndigits : nat) : Q :=
  let scale := inject_Z (10 ^ Z.of_nat ndigits) in
  (inject_Z (round_half_even (x * scale)) / scale)%Q.

(** ** Records of the data model *)

(** a prompt as [get_all_user_prompts] builds it *)
Record Prompt : Type := {
  session_id : string;
  session_name : string;
  session_date : option string;
  working_dir : string;
  text : string;
  timestamp : Z
}.

(** an entry of the list [get_weekly_breakdown] returns *)
Record WeeklyRollup : Type := {
  week : string;
  avg_dok : Q;
  prompt_count : Z
}.

(** a value of the dictionary [get_sessions_by_directory] returns *)
Record DomainEntry : Type := {
  count : Z;
  tokens : Z
}.

(** the dictionary [get_data_summary] returns *)
Record DataSummary : Type := {
  sessions : Z;
  earliest : option string;
  latest : option string;
  days : Z
}.

Record Period : Type := {
  period_start : option string;
  period_end : option string;
  period_days : Z
}.

(** the dictionary [generate_baseline] builds *)
Record Baseline : Type := {
  generated_at : string;
  period : Period;
  sessions_analyzed : Z;
  prompts_classified : Z;
  dok_distribution : list (string * Q);
  dok_distribution_counts : list (string * Z);
  average_dok_score : Q;
  estimated_stage : Z;
  domain_count : Z;
  domains : list (string * DomainEntry);
  trajectory : string;
  weekly_scores : list WeeklyRollup
}.

(** ** Sorting strings: [sorted(keys)] *)

Fixpoint insert_sorted (k : string) (ks : list string) : list string :=
  match ks with
  | [] => [k]
  | k' :: ks' =>
      if String.leb k k' then k :: ks else k' :: insert_sorted k ks'
  end.

Definition sorted (ks : list string) : list string :=
  fold_right insert_sorted [] ks.

(** ** Weekly rollups *)

(** [defaultdict(list)] keyed by week, in insertion order *)
Definition week_dict : Type := list (string * list Z).

(** [weekly[week].append(level)] *)
Fixpoint week_append (wk : string) (level : Z) (weekly : week_dict) : week_dict :=
  match weekly with
  | [] => [(wk, [level])]
  | (w, scores) :: rest =>
      if String.eqb wk w then (w, scores ++ [level]) :: rest
      else (w, scores) :: week_append wk level rest
  end.

(** [weekly[week]] *)
Fixpoint week_get (wk : string) (weekly : week_dict) : list Z :=
  match weekly with
  | [] => []
  | (w, scores) :: rest => if String.eqb wk w then scores else week_get wk rest
  end.

Definition week_keys (weekly : week_dict) : list string := map fst weekly.

(** [prompt.get('session_date')] is true *)
Definition has_date (p : Prompt) : option string :=
  match session_date p with
  | Some EmptyString | None => None
  | Some d => Some d
  end.

Section Aggregator.
Context {rt : Runtime}.

(** the week key of a session date; [None] when the date is absent or
    [fromisoformat] raises *)
Definition week_of (p : Prompt) : option string :=
  match has_date p with
  | Some d =>
      match fromisoformat (replace_Z d) with
      | Some date => Some (strftime_week date)
      | None => None
      end
  | None => None
  end.

(** the body of the first loop of [get_weekly_breakdown] *)
Definition weekly_step (weekly : week_dict) (prompt : Prompt) : week_dict :=
  match week_of prompt with
  | Some wk =>
      let '(dok_level, _, _) := classify_dok (Some (text prompt)) in
      week_append wk dok_level weekly
  | None => weekly
  end.

(** the body of the second loop *)
Definition rollup (weekly : week_dict) (wk : string) : WeeklyRollup :=
  let scores := week_get wk weekly in
  let avg :=
    match scores with
    | [] => 0%Q
    | _ => (inject_Z (sum_Z scores) / inject_Z (len scores))%Q
    end in
  {| week := wk; avg_dok := py_round avg 2; prompt_count := len scores |}.

(** [RPWhyBaseline.get_weekly_breakdown] *)
Definition get_weekly_breakdown (prompts : list Prompt) : list WeeklyRollup :=
  let weekly := fold_left weekly_step prompts [] in
  map (rollup weekly) (sorted (week_keys weekly)).

End Aggregator.

(** ** Stage estimator *)

(** [RPWhyBaseline.STAGE_THRESHOLDS] *)
Definition STAGE_THRESHOLDS : list (Q * Z * Z) :=
  [ (3.5%Q, 5, 7);
    (3.2%Q, 4, 6);
    (2.8%Q, 3, 6);
    (2.5%Q, 2, 5);
    (2.0%Q, 1, 5);
    (0.0%Q, 0, 5) ].

Fixpoint first_rule (rules : list (Q * Z * Z)) (avg_dok : Q) (domain_count : Z) : Z :=
  match rules with
  | [] => 5
  | (dok_threshold, domain_threshold, stage) :: rules' =>
      if Qle_bool dok_threshold avg_dok && (domain_threshold <=? domain_count)
      then stage
      else first_rule rules' avg_dok domain_count
  end.

(** [RPWhyBaseline.estimate_stage] *)
Definition estimate_stage (avg_dok : Q) (domain_count : Z) : Z :=
  first_rule STAGE_THRESHOLDS avg_dok domain_count.

(** ** Trend *)

Definition average (xs : list Q) : Q :=
  match xs with
  | [] => 0%Q
  | _ => (sum_Q xs / inject_Z (len xs))%Q
  end.

(** [RPWhyBaseline.calculate_trajectory] *)
Definition calculate_trajectory (weekly_scores : list WeeklyRollup) : string :=
  if len weekly_scores <? 2 then "insufficient_data"
  else
    let mid := Z.to_nat (len weekly_scores / 2) in
    let first_half := map avg_dok (firstn mid weekly_scores) in
    let second_half := map avg_dok (skipn mid weekly_scores) in
    let first_avg := average first_half in
    let second_avg := average second_half in
    let diff := (second_avg - first_avg)%Q in
    if Qltb 0.2%Q diff then "improving"
    else if Qltb diff (- 0.2)%Q then "declining"
    else "stable".

(** ** The session store

    The SQLite database is modelled by its two tables.  The three
    queries of the module are list functions over them; where SQL
    leaves the order of rows open (equal sort keys), the model keeps
    the order of the table. *)

Inductive content_item : Type :=
| TextItem (item_text : option string)  (* a dict with type 'text'; its 'text' entry, if any *)
| OtherItem.                            (* any other item *)

Record SessionRow : Type := {
  id : string;
  name : string;
  created_at : option string;
  session_working_dir : string;
  session_type : string;
  total_tokens : option Z
}.

Record MessageRow : Type := {
  message_session_id : string;
  role : string;
  (** [json.loads(content_json)] seen as a sequence of items; [None]
      when decoding or iterating raises *)
  content_json : option (list content_item);
  created_timestamp : Z
}.

Record Store : Type := {
  db_exists : bool;       (* SESSIONS_DB.exists() *)
  db_opens : bool;        (* sqlite3.connect does not raise *)
  sessions_table : list SessionRow;
  messages_table : list MessageRow
}.

Definition truthy (s : option string) : bool :=
  match s with
  | Some (String _ _) => true
  | _ => false
  end.

(** [WHERE session_type = 'user'] *)
Definition user_sessions (st : Store) : list SessionRow :=
  filter (fun s => String.eqb (session_type s) "user") (sessions_table st).

Fixpoint non_null {A : Type} (xs : list (option A)) : list A :=
  match xs with
  | [] => []
  | Some x :: xs' => x :: non_null xs'
  | None :: xs' => non_null xs'
  end.

(** SQL [MIN] and [MAX] over text values, [None] for NULL *)
Definition sql_min (xs : list string) : option string :=
  match xs with
  | [] => None
  | x :: xs' => Some (fold_left (fun a b => if String.ltb b a then b else a) xs' x)
  end.

Definition sql_max (xs : list string) : option string :=
  match xs with
  | [] => None
  | x :: xs' => Some (fold_left (fun a b => if String.ltb a b then b else a) xs' x)
  end.

(** [RPWhyBaseline.connect] *)
Definition connect (st : Store) : bool := db_exists st && db_opens st.

Section Repository.
Context {rt : Runtime}.

(** [RPWhyBaseline.get_data_summary] *)
Definition get_data_summary (st : Store) : result DataSummary :=
  let us := user_sessions st in
  let row_earliest := sql_min (non_null (map created_at us)) in
  let row_latest := sql_max (non_null (map created_at us)) in
  let row_total_sessions := len us in
  if negb (truthy row_earliest) then
    Ok {| sessions := 0; earliest := None; latest := None; days := 0 |}
  else
    (e <- match row_earliest with
          | Some s =>
              match fromisoformat (replace_Z s) with
              | Some d => Ok (Some d)
              | None => Raise ValueError
              end
          | None => Ok None
          end ;;
     l <- (if truthy row_latest then
             match fromisoformat (replace_Z (text_value row_latest)) with
             | Some d => Ok (Some d)
             | None => Raise ValueError
             end
           else Ok None) ;;
     d <- match e, l with
          | Some e', Some l' =>
              match sub_days l' e' with
              | Some n => Ok n
              | None => Raise TypeError
              end
          | _, _ => Ok 0
          end ;;
     Ok {| sessions := row_total_sessions;
           earliest := row_earliest;
           latest := row_latest;
           days := d |})%py.

End Repository.

(** the first item tagged as text decides: [text = item.get('text', '')] *)
Fixpoint first_text (content : list content_item) : option string :=
  match content with
  | [] => None
  | TextItem (Some t) :: _ => Some t
  | TextItem None :: _ => Some EmptyString
  | OtherItem :: rest => first_text rest
  end.

(** rows of the join of messages and sessions for one message *)
Definition join_rows (ss : list SessionRow) (m : MessageRow)
  : list (MessageRow * SessionRow) :=
  map (fun s => (m, s))
      (filter (fun s => String.eqb (id s) (message_session_id m)
                        && String.eqb (session_type s) "user") ss).

Fixpoint insert_by_time (r : MessageRow * SessionRow)
  (rs : list (MessageRow * SessionRow)) : list (MessageRow * SessionRow) :=
  match rs with
  | [] => [r]
  | r' :: rs' =>
      if created_timestamp (fst r) <=? created_timestamp (fst r')
      then r :: rs
      else r' :: insert_by_time r rs'
  end.

(** [ORDER BY m.created_timestamp] *)
Definition order_by_time (rs : list (MessageRow * SessionRow))
  : list (MessageRow * SessionRow) :=
  fold_right insert_by_time [] rs.

(** the body of the loop of [get_all_user_prompts] *)
Definition prompt_of_row (r : MessageRow * SessionRow) : list Prompt :=
  let '(m, s) := r in
  match content_json m with
  | Some content =>
      if truthy (first_text content) then
        [ {| session_id := message_session_id m;
             session_name := name s;
             session_date := created_at s;
             working_dir := session_working_dir s;
             text := text_value (first_text content);
             timestamp := created_timestamp m |} ]
      else []
  | None => []
  end.

(** [RPWhyBaseline.get_all_user_prompts] *)
Definition get_all_user_prompts (st : Store) : list Prompt :=
  let rows :=
    order_by_time
      (flat_map (join_rows (sessions_table st))
                (filter (fun m => String.eqb (role m) "user") (messages_table st))) in
  flat_map prompt_of_row rows.

(** [GROUP BY working_dir] with the count of rows and the sum of [total_tokens] *)
Fixpoint add_to_group (s : SessionRow) (groups : list (string * DomainEntry))
  : list (string * DomainEntry) :=
  let t := match total_tokens s with Some n => n | None => 0 end in
  match groups with
  | [] => [(session_working_dir s, {| count := 1; tokens := t |})]
  | (dir, e) :: rest =>
      if String.eqb (session_working_dir s) dir
      then (dir, {| count := count e + 1; tokens := tokens e + t |}) :: rest
      else (dir, e) :: add_to_group s rest
  end.

Fixpoint insert_by_count (g : string * DomainEntry)
  (gs : list (string * DomainEntry)) : list (string * DomainEntry) :=
  match gs with
  | [] => [g]
  | g' :: gs' =>
      if count (snd g') <=? count (snd g)
      then g :: gs
      else g' :: insert_by_count g gs'
  end.

(** [RPWhyBaseline.get_sessions_by_directory] *)
Definition get_sessions_by_directory (st : Store) : list (string * DomainEntry) :=
  fold_right insert_by_count []
    (fold_left (fun groups s => add_to_group s groups) (user_sessions st) []).

(** ** Baseline generation *)

(** what [generate_baseline] returns when it does not return [None] *)
Inductive Generated : Type :=
| NoData (error : string) (message : string)
| Snapshot (b : Baseline).

(** [f'dok{k}'] and [f'dok{k}_count'] for the four levels *)
Definition dok_key (k : Z) : string := ("dok" ++ str_of_int k)%string.
Definition dok_count_key (k : Z) : string := (dok_key k ++ "_count")%string.

(** one percentage of [dok_distribution] *)
Definition percentage (v total_prompts : Z) : Q :=
  if 0 <? total_prompts
  then py_round (inject_Z v / inject_Z total_prompts * 100) 1
  else 0%Q.

Section Generation.
Context {rt : Runtime}.

(** the classification loop: [dok_counts] and [dok_scores] *)
Definition classify_step (acc : int_dict * list Z) (prompt : Prompt)
  : int_dict * list Z :=
  let '(dok_counts, dok_scores) := acc in
  let '(dok_level, _, _) := classify_dok (Some (text prompt)) in
  (dict_incr dok_level dok_counts, dok_scores ++ [dok_level]).

Definition classify_all (prompts : list Prompt) : int_dict * list Z :=
  fold_left classify_step prompts ([(1, 0); (2, 0); (3, 0); (4, 0)], []).

(** the part of [generate_baseline] that follows the two early returns *)
Definition build_baseline (summary : DataSummary) (prompts : list Prompt)
  (directories : list (string * DomainEntry)) : Baseline :=
  let '(dok_counts, dok_scores) := classify_all prompts in
  let total_prompts := sum_Z (dict_values dok_counts) in
  let dok_distribution :=
    map (fun kv => (dok_key (fst kv), percentage (snd kv) total_prompts)) dok_counts in
  let dok_distribution_counts :=
    map (fun kv => (dok_count_key (fst kv), snd kv)) dok_counts in
  let avg_dok :=
    match dok_scores with
    | [] => 2.0%Q
    | _ => (inject_Z (sum_Z dok_scores) / inject_Z (len dok_scores))%Q
    end in
  let domain_count := len directories in
  let weekly_scores := get_weekly_breakdown prompts in
  let trajectory := calculate_trajectory weekly_scores in
  let estimated_stage := estimate_stage avg_dok domain_count in
  {| generated_at := now_isoformat;
     period := {| period_start := earliest summary;
                  period_end := latest summary;
                  period_days := days summary |};
     sessions_analyzed := sessions summary;
     prompts_classified := total_prompts;
     dok_distribution := dok_distribution;
     dok_distribution_counts := dok_distribution_counts;
     average_dok_score := py_round avg_dok 2;
     estimated_stage := estimated_stage;
     domain_count := domain_count;
     domains := take 10 directories;
     trajectory := trajectory;
     weekly_scores := last_n 12 weekly_scores |}.

(** [RPWhyBaseline.generate_baseline]; [Ok None] is the return of [None] *)
Definition generate_baseline (st : Store) : result (option Generated) :=
  if negb (connect st) then Ok None
  else
    (summary <- get_data_summary st ;;
     if sessions summary =? 0 then
       Ok (Some (NoData "no_data" "No sessions found in database"))
     else
       let prompts := get_all_user_prompts st in
       let directories := get_sessions_by_directory st in
       Ok (Some (Snapshot (build_baseline summary prompts directories))))%py.

End Generation.

(** ** JSON documents and the codec

    The snapshot is stored as JSON text.  [Json.dumps] models
    [json.dumps(obj, indent=2)] and [Json.loads] models [json.loads],
    for text whose characters have codes below 256.  A float is written
    with the digits its fraction carries (2.50 for 250/100, where
    CPython writes the shortest numeral 2.5 of the same number). *)

Module Json.

#[warnings="-register-all"]
Inductive value : Type :=
| JNull
| JBool (b : bool)
| JInt (n : Z)
| JFloat (q : Q)
| JStr (s : string)
| JList (items : list value)
| JDict (entries : list (string * value)).

Definition quote : ascii := "034"%char.
Definition newline : ascii := "010"%char.

(** *** Encoder *)

Definition hex_digit (n : nat) : ascii :=
  ascii_of_nat (if (n <? 10)%nat then 48 + n else 87 + n).

(** [ensure_ascii] escaping of one character *)
Definition escape_char (c : ascii) : string :=
  let n := nat_of_ascii c in
  if (n =? 34)%nat then String "\" (String quote EmptyString)
  else if (n =? 92)%nat then "\\"
  else if (n =? 10)%nat then "\n"
  else if (n =? 13)%nat then "\r"
  else if (n =? 9)%nat then "\t"
  else if (n =? 8)%nat then "\b"
  else if (n =? 12)%nat then "\f"
  else if ((n <? 32) || (126 <? n))%nat then
    String "\" (String "u" (String "0" (String "0"
      (String (hex_digit (n / 16)) (String (hex_digit (n mod 16)) EmptyString)))))
  else String c EmptyString.

Fixpoint escape (s : string) : string :=
  match s with
  | String c r => (escape_char c ++ escape r)%string
  | EmptyString => EmptyString
  end.

Definition encode_string (s : string) : string :=
  String quote (escape s ++ String quote EmptyString)%string.

(** decimal digits of the absolute value *)
Definition digits_of (n : Z) : string :=
  match n with
  | Z0 => "0"
  | Zpos p | Zneg p => NilEmpty.string_of_uint (Pos.to_uint p)
  end.

Definition sign_of (n : Z) : string := if n <? 0 then "-" else "".

Definition encode_int (n : Z) : string := (sign_of n ++ digits_of n)%string.

Fixpoint zeros (n : nat) : string :=
  match n with
  | O => EmptyString
  | S n' => String "0" (zeros n')
  end.

Fixpoint split_at (n : nat) (s : string) : string * string :=
  match n, s with
  | S n', String c r => let '(a, b) := split_at n' r in (String c a, b)
  | _, _ => (EmptyString, s)
  end.

(** the decimal numeral of [m / 10^k], with [k] digits after the point *)
Definition encode_decimal (m : Z) (k : nat) : string :=
  let ds := digits_of m in
  let padded := (zeros (k + 1 - String.length ds) ++ ds)%string in
  let '(ip, fp) := split_at (String.length padded - k) padded in
  (sign_of m ++ ip ++ "." ++ fp)%string.

(** [Some k] when [d] is [10^k] *)
Fixpoint decimal_places (fuel : nat) (d : positive) : option nat :=
  match fuel with
  | O => None
  | S fuel' =>
      if (d =? 1)%positive then Some O
      else if (Z.pos d mod 10 =? 0)
      then option_map S (decimal_places fuel' (Z.to_pos (Z.pos d / 10)))
      else None
  end.

(** a float is written with a decimal point; a value that is not a
    decimal fraction is cut after 17 digits *)
Definition encode_float (q : Q) : string :=
  match decimal_places (Pos.size_nat (Qden q)) (Qden q) with
  | Some O => encode_decimal (Qnum q * 10) 1
  | Some k => encode_decimal (Qnum q) k
  | None => encode_decimal (Qnum q * 10 ^ 17 / Z.pos (Qden q)) 17
  end.

Fixpoint spaces (n : nat) : string :=
  match n with
  | O => EmptyString
  | S n' => String " " (spaces n')
  end.

(** a line break followed by the indentation of a nesting level *)
Definition break (level : nat) : string := String newline (spaces (2 * level)).

Fixpoint join {A : Type} (f : A -> string) (sep : string) (xs : list A) : string :=
  match xs with
  | [] => EmptyString
  | [x] => f x
  | x :: rest => (f x ++ sep ++ join f sep rest)%string
  end.

Fixpoint encode (level : nat) (v : value) : string :=
  match v with
  | JNull => "null"
  | JBool true => "true"
  | JBool false => "false"
  | JInt n => encode_int n
  | JFloat q => encode_float q
  | JStr s => encode_string s
  | JList [] => "[]"
  | JList items =>
      ("[" ++ break (S level)
           ++ join (encode (S level)) ("," ++ break (S level)) items
           ++ break level ++ "]")%string
  | JDict [] => "{}"
  | JDict entries =>
      ("{" ++ break (S level)
           ++ join (fun kv => let '(k, x) := kv in
                              encode_string k ++ ": " ++ encode (S level) x)
                   ("," ++ break (S level)) entries
           ++ break level ++ "}")%string
  end.

(** [json.dumps(obj, indent=2)] *)
Definition dumps (v : value) : string := encode O v.

(** *** Decoder *)

Definition is_ws (c : ascii) : bool :=
  let n := nat_of_ascii c in
  ((n =? 32) || (n =? 9) || (n =? 10) || (n =? 13))%nat.

Fixpoint skip_ws (s : string) : string :=
  match s with
  | String c r => if is_ws c then skip_ws r else s
  | EmptyString => EmptyString
  end.

Definition is_digit (c : ascii) : bool :=
  let n := nat_of_ascii c in ((48 <=? n) && (n <=? 57))%nat.

Definition hex_value (c : ascii) : option nat :=
  let n := nat_of_ascii c in
  if ((48 <=? n) && (n <=? 57))%nat then Some (n - 48)%nat
  else if ((97 <=? n) && (n <=? 102))%nat then Some (n - 87)%nat
  else if ((65 <=? n) && (n <=? 70))%nat then Some (n - 55)%nat
  else None.

(** the character of a [\uXXXX] escape, when its code is below 256 *)
Definition unicode_escape (a b c d : ascii) : option ascii :=
  match hex_value a, hex_value b, hex_value c, hex_value d with
  | Some x, Some y, Some z, Some w =>
      let code := (4096 * x + 256 * y + 16 * z + w)%nat in
      if (code <? 256)%nat then Some (ascii_of_nat code) else None
  | _, _, _, _ => None
  end.

Definition simple_escape (e : ascii) : option ascii :=
  let n := nat_of_ascii e in
  if (n =? 34)%nat then Some quote
  else if (n =? 92)%nat then Some "\"%char
  else if (n =? 47)%nat then Some "/"%char
  else if (n =? 98)%nat then Some "008"%char
  else if (n =? 102)%nat then Some "012"%char
  else if (n =? 110)%nat then Some "010"%char
  else if (n =? 114)%nat then Some "013"%char
  else if (n =? 116)%nat then Some "009"%char
  else None.

Definition prepend (c : ascii) (r : option (string * string)) : option (string * string) :=
  match r with
  | Some (s, rest) => Some (String c s, rest)
  | None => None
  end.

(** the characters of a string literal after its opening quote, and
    the text after its closing quote *)
Fixpoint decode_chars (s : string) : option (string * string) :=
  match s with
  | EmptyString => None
  | String c r =>
      if Ascii.eqb c quote then Some (EmptyString, r)
      else if Ascii.eqb c "\" then
        match r with
        | String e r' =>
            if Ascii.eqb e "u" then
              match r' with
              | String h1 (String h2 (String h3 (String h4 r''))) =>
                  match unicode_escape h1 h2 h3 h4 with
                  | Some ch => prepend ch (decode_chars r'')
                  | None => None
                  end
              | _ => None
              end
            else
              match simple_escape e with
              | Some ch => prepend ch (decode_chars r')
              | None => None
              end
        | EmptyString => None
        end
      else if (nat_of_ascii c <? 32)%nat then None
      else prepend c (decode_chars r)
  end.

Fixpoint take_digits (s : string) : string * string :=
  match s with
  | String c r =>
      if is_digit c then let '(d, rest) := take_digits r in (String c d, rest)
      else (EmptyString, s)
  | EmptyString => (EmptyString, EmptyString)
  end.

Definition digits_value (ds : string) : Z :=
  match NilEmpty.uint_of_string ds with
  | Some d => Z.of_uint d
  | None => 0
  end.

(** the float [mantissa * 10^exponent] *)
Definition make_float (mantissa exponent : Z) : Q :=
  if 0 <=? exponent then inject_Z (mantissa * 10 ^ exponent)
  else Qmake mantissa (Z.to_pos (10 ^ (- exponent))).

(** the rest of [s] when [s] starts with the character [c] *)
Definition starts_with (c : ascii) (s : string) : option string :=
  match s with
  | String d r => if Ascii.eqb c d then Some r else None
  | EmptyString => None
  end.

(** a non-empty run of digits *)
Definition some_digits (s : string) : option (string * string) :=
  match take_digits s with
  | (EmptyString, _) => None
  | (ds, rest) => Some (ds, rest)
  end.

(** the integer part: a single 0, or digits that start with another digit *)
Definition int_part (s : string) : option (string * string) :=
  match starts_with "0" s with
  | Some r => Some ("0", r)
  | None => some_digits s
  end.

(** the optional fraction: a point and digits *)
Definition frac_part (s : string) : string * string :=
  match starts_with "." s with
  | Some r =>
      match some_digits r with
      | Some (fd, r') => (fd, r')
      | None => (EmptyString, s)
      end
  | None => (EmptyString, s)
  end.

(** the optional exponent: e or E, an optional sign, digits *)
Definition exp_part (s : string) : option Z * string :=
  let after_e :=
    match starts_with "e" s with
    | Some r => Some r
    | None => starts_with "E" s
    end in
  match after_e with
  | Some r =>
      let '(eneg, r1) :=
        match starts_with "-" r with
        | Some r0 => (true, r0)
        | None =>
            match starts_with "+" r with
            | Some r0 => (false, r0)
            | None => (false, r)
            end
        end in
      match some_digits r1 with
      | Some (ed, r2) =>
          (Some (if eneg then - digits_value ed else digits_value ed), r2)
      | None => (None, s)
      end
  | None => (None, s)
  end.

(** a number token: sign, integer part, optional fraction, optional
    exponent; an integer when it has neither fraction nor exponent *)
Definition decode_number (s : string) : option (value * string) :=
  let '(negative, s1) :=
    match starts_with "-" s with
    | Some r => (true, r)
    | None => (false, s)
    end in
  match int_part s1 with
  | None => None
  | Some (ip, s2) =>
      let '(fp, s3) := frac_part s2 in
      let '(ex, s4) := exp_part s3 in
      let sign := if negative then -1 else 1 in
      match fp, ex with
      | EmptyString, None => Some (JInt (sign * digits_value ip), s4)
      | _, _ =>
          let e := match ex with Some e => e | None => 0 end in
          Some (JFloat (make_float (sign * digits_value (ip ++ fp))
                                   (e - Z.of_nat (String.length fp))), s4)
      end
  end.

(** [s] starts with [word]: the rest of [s] *)
Fixpoint expect (word s : string) : option string :=
  match word with
  | EmptyString => Some s
  | String c w =>
      match s with
      | String d r => if Ascii.eqb c d then expect w r else None
      | EmptyString => None
      end
  end.

(** [d[k] = v]: a repeated key keeps its place and takes the new value *)
Fixpoint dict_set (k : string) (v : value) (d : list (string * value))
  : list (string * value) :=
  match d with
  | [] => [(k, v)]
  | (k', v') :: rest =>
      if String.eqb k k' then (k', v) :: rest else (k', v') :: dict_set k v rest
  end.

(** [decode_value] reads a value after optional white space,
    [decode_items] the items of an array after its first bracket and
    [decode_members] the members of an object after its first brace. *)
Fixpoint decode_value (fuel : nat) (s : string) : option (value * string) :=
  match fuel with
  | O => None
  | S fuel' =>
      match skip_ws s with
      | EmptyString => None
      | String c r =>
          if Ascii.eqb c "n" then option_map (pair JNull) (expect "ull" r)
          else if Ascii.eqb c "t" then option_map (pair (JBool true)) (expect "rue" r)
          else if Ascii.eqb c "f" then option_map (pair (JBool false)) (expect "alse" r)
          else if Ascii.eqb c quote then
            match decode_chars r with
            | Some (str, rest) => Some (JStr str, rest)
            | None => None
            end
          else if Ascii.eqb c "[" then
            match starts_with "]" (skip_ws r) with
            | Some rest => Some (JList [], rest)
            | None =>
                match decode_items fuel' r with
                | Some (items, rest) => Some (JList items, rest)
                | None => None
                end
            end
          else if Ascii.eqb c "{" then
            match starts_with "}" (skip_ws r) with
            | Some rest => Some (JDict [], rest)
            | None =>
                match decode_members fuel' [] r with
                | Some (entries, rest) => Some (JDict entries, rest)
                | None => None
                end
            end
          else decode_number (String c r)
      end
  end
with decode_items (fuel : nat) (s : string) : option (list value * string) :=
  match fuel with
  | O => None
  | S fuel' =>
      match decode_value fuel' s with
      | Some (v, rest) =>
          match starts_with "," (skip_ws rest) with
          | Some rest' =>
              match decode_items fuel' rest' with
              | Some (vs, rest'') => Some (v :: vs, rest'')
              | None => None
              end
          | None =>
              match starts_with "]" (skip_ws rest) with
              | Some rest' => Some ([v], rest')
              | None => None
              end
          end
      | None => None
      end
  end
with decode_members (fuel : nat) (acc : list (string * value)) (s : string)
  : option (list (string * value) * string) :=
  match fuel with
  | O => None
  | S fuel' =>
      match starts_with quote (skip_ws s) with
      | Some r =>
          match decode_chars r with
          | Some (k, rest) =>
              match starts_with ":" (skip_ws rest) with
              | Some rest' =>
                  match decode_value fuel' rest' with
                  | Some (v, rest'') =>
                      let acc' := dict_set k v acc in
                      match starts_with "," (skip_ws rest'') with
                      | Some r3 => decode_members fuel' acc' r3
                      | None =>
                          match starts_with "}" (skip_ws rest'') with
                          | Some r3 => Some (acc', r3)
                          | None => None
                          end
                      end
                  | None => None
                  end
              | None => None
              end
          | None => None
          end
      | None => None
      end
  end.

(** [json.loads(s)]; [None] stands for [JSONDecodeError] *)
Definition loads (s : string) : option value :=
  match decode_value (S (String.length s)) s with
  | Some (v, rest) =>
      match skip_ws rest with
      | EmptyString => Some v
      | _ => None
      end
  | None => None
  end.

(** *** Documents that the text represents without loss

    A float keeps its value when it is a decimal fraction written with
    at least one digit after the point; the keys of a dictionary are
    distinct, as they are in a Python [dict]. *)

Definition is_decimal (q : Q) : bool :=
  match decimal_places (Pos.size_nat (Qden q)) (Qden q) with
  | Some (S _) => true
  | _ => false
  end.

Fixpoint distinct (keys : list string) : bool :=
  match keys with
  | [] => true
  | k :: rest => negb (existsb (String.eqb k) rest) && distinct rest
  end.

Fixpoint serializable (v : value) : bool :=
  match v with
  | JFloat q => is_decimal q
  | JList items => forallb serializable items
  | JDict entries =>
      distinct (map fst entries)
      && forallb (fun kv => let '(_, x) := kv in serializable x) entries
  | _ => true
  end.

End Json.

(** ** The snapshot as a JSON document *)

Definition json_opt_str (s : option string) : Json.value :=
  match s with
  | Some s => Json.JStr s
  | None => Json.JNull
  end.

Definition rollup_json (w : WeeklyRollup) : Json.value :=
  Json.JDict [ ("week", Json.JStr (week w));
               ("avg_dok", Json.JFloat (avg_dok w));
               ("prompt_count", Json.JInt (prompt_count w)) ].

Definition domain_json (e : DomainEntry) : Json.value :=
  Json.JDict [ ("count", Json.JInt (count e)); ("tokens", Json.JInt (tokens e)) ].

(** the dictionary literal at the end of [generate_baseline]; the
    percentages are the integer 0 when no prompt was classified *)
Definition baseline_json (b : Baseline) : Json.value :=
  Json.JDict
    [ ("generated_at", Json.JStr (generated_at b));
      ("period",
       Json.JDict [ ("start", json_opt_str (period_start (period b)));
                    ("end", json_opt_str (period_end (period b)));
                    ("days", Json.JInt (period_days (period b))) ]);
      ("sessions_analyzed", Json.JInt (sessions_analyzed b));
      ("prompts_classified", Json.JInt (prompts_classified b));
      ("dok_distribution",
       Json.JDict
         (map (fun kv =>
                 (fst kv, if 0 <? prompts_classified b
                          then Json.JFloat (snd kv) else Json.JInt 0))
              (dok_distribution b)));
      ("dok_distribution_counts",
       Json.JDict (map (fun kv => (fst kv, Json.JInt (snd kv)))
                       (dok_distribution_counts b)));
      ("average_dok_score", Json.JFloat (average_dok_score b));
      ("estimated_stage", Json.JInt (estimated_stage b));
      ("domain_count", Json.JInt (domain_count b));
      ("domains",
       Json.JDict (map (fun kv => (fst kv, domain_json (snd kv))) (domains b)));
      ("trajectory", Json.JStr (trajectory b));
      ("weekly_scores", Json.JList (map rollup_json (weekly_scores b))) ].

(** ** The baseline store *)

Record FileSystem : Type := {
  (** the text of [BASELINE_FILE]; [None] when the file does not exist *)
  baseline_file : option string;
  (** creating the parent directory and opening the file for writing
      succeed *)
  baseline_writable : bool
}.

(** what the commands print *)
Inductive output : Type :=
| Analyzing                      (* "Analyzing your Goose session history..." *)
| SaveError                      (* "Error saving baseline: ..." *)
| LoadError                      (* "Error loading baseline: ..." *)
| Message (text : string)        (* the message of an error result *)
| Failed                         (* "Failed to generate baseline" *)
| Report (doc : Json.value).     (* the text of print_baseline_report *)

(** [RPWhyBaseline.save_baseline] *)
Definition save_baseline (baseline : Json.value) (fs : FileSystem)
  : bool * FileSystem * list output :=
  if baseline_writable fs then
    (true,
     {| baseline_file := Some (Json.dumps baseline);
        baseline_writable := baseline_writable fs |},
     [])
  else (false, fs, [SaveError]).

(** [RPWhyBaseline.load_baseline] *)
Definition load_baseline (fs : FileSystem) : option Json.value * list output :=
  match baseline_file fs with
  | None => (None, [])
  | Some contents =>
      match Json.loads contents with
      | Some doc => (Some doc, [])
      | None => (None, [LoadError])
      end
  end.

Section Commands.
Context {rt : Runtime}.

(** the [init] branch of [main] *)
Definition main_init (st : Store) (fs : FileSystem)
  : result (FileSystem * list output) :=
  (baseline <- generate_baseline st ;;
   match baseline with
   | Some (Snapshot b) =>
       let doc := baseline_json b in
       let '(_, fs', printed) := save_baseline doc fs in
       Ok (fs', [Analyzing] ++ printed ++ [Report doc])
   | Some (NoData _ message) => Ok (fs, [Analyzing; Message message])
   | None => Ok (fs, [Analyzing; Failed])
   end)%py.

End Commands.

(** ** The report

    [print_baseline_report] prints text; what is modelled of it are the
    values it computes on the way: the bars, the dominant level and the
    rows it selects.  A bar is the list of its cells. *)

(** [int(x)] on a float: the integer part, towards zero *)
Definition py_int (x : Q) : Z := Z.quot (Qnum x) (Z.pos (Qden x)).

(** the two characters of a bar *)
Inductive cell : Type :=
| Full      (* U+2588 *)
| Light.    (* U+2591 *)

(** [c * n] for a one-character string: empty for [n <= 0] *)
Definition times (c : cell) (n : Z) : list cell := repeat c (Z.to_nat n).

(** [RPWhyBaseline.format_bar] *)
Definition format_bar (percentage : Q) (width : Z) : list cell :=
  let filled := py_int (percentage / 100 * inject_Z width) in
  times Full filled ++ times Light (width - filled).

(** [dist[key]]; [None] stands for [KeyError] *)
Fixpoint dist_get (key : string) (dist : list (string * Q)) : option Q :=
  match dist with
  | [] => None
  | (k, v) :: rest => if String.eqb key k then Some v else dist_get key rest
  end.

(** the bars of the section on the distribution: [format_bar(pct)] for
    the levels 1 to 4, with the default width 10 *)
Fixpoint distribution_bars_of (levels : list Z) (dist : list (string * Q))
  : option (list (list cell)) :=
  match levels with
  | [] => Some []
  | i :: levels' =>
      match dist_get (dok_key i) dist with
      | Some pct =>
          match distribution_bars_of levels' dist with
          | Some bars => Some (format_bar pct 10 :: bars)
          | None => None
          end
      | None => None
      end
  end.

Definition distribution_bars (b : Baseline) : option (list (list cell)) :=
  distribution_bars_of [1; 2; 3; 4] (dok_distribution b).

(** the bars of the section on the trend: shown when there are two
    weeks or more, for the last six *)
Definition trend_bars (b : Baseline) : list (list cell) :=
  if 2 <=? len (weekly_scores b)
  then map (fun week_data => format_bar (avg_dok week_data / 4 * 100) 10)
           (last_n 6 (weekly_scores b))
  else [].

(** [max(range(1, 5), key=...)]: the running maximum is replaced only
    by a strictly larger key, so the first of the largest wins *)
Fixpoint first_max (best : Z) (best_key : Q) (rest : list (Z * Q)) : Z :=
  match rest with
  | [] => best
  | (x, k) :: rest' =>
      if Qltb best_key k then first_max x k rest' else first_max best best_key rest'
  end.

(** the dominant level of the insights *)
Definition max_dok (dist : list (string * Q)) : option Z :=
  match dist_get (dok_key 1) dist, dist_get (dok_key 2) dist,
        dist_get (dok_key 3) dist, dist_get (dok_key 4) dist with
  | Some k1, Some k2, Some k3, Some k4 =>
      Some (first_max 1 k1 [(2, k2); (3, k3); (4, k4)])
  | _, _, _, _ => None
  end.

(** ** The command [export] *)

(** the truth value of a decoded document in [if baseline:] *)
Definition json_truthy (v : Json.value) : bool :=
  match v with
  | Json.JNull => false
  | Json.JBool b => b
  | Json.JInt n => negb (n =? 0)
  | Json.JFloat q => negb (Qeq_bool q 0)
  | Json.JStr s => negb (String.eqb s EmptyString)
  | Json.JList items => match items with [] => false | _ => true end
  | Json.JDict entries => match entries with [] => false | _ => true end
  end.

(** what [export] prints *)
Inductive export_line : Type :=
| Loading (o : output)       (* a line printed by [load_baseline] *)
| Dumped (text : string)     (* [json.dumps(baseline, indent=2)] *)
| NoBaselineFound.           (* "No baseline found. Run ... init first." *)

(** the [export] branch of [main] *)
Definition main_export (fs : FileSystem) : list export_line :=
  let '(baseline, printed) := load_baseline fs in
  map Loading printed ++
  match baseline with
  | Some doc => if json_truthy doc then [Dumped (Json.dumps doc)] else [NoBaselineFound]
  | None => [NoBaselineFound]
  end.

(** * Vocabulary of the properties *)

(** the trigger patterns of one tier *)
Definition patterns_of (level : Z) : list string :=
  match find (fun e => fst e =? level) DOK_PATTERNS with
  | Some (_, patterns) => patterns
  | None => []
  end.

(** [d[k] += n] *)
Fixpoint dict_add (k n : Z) (d : int_dict) : int_dict :=
  match d with
  | [] => []
  | (k', v) :: d' =>
      if k =? k' then (k', v + n) :: d' else (k', v) :: dict_add k n d'
  end.

(** the rule list as the specification words it: the first rule whose
    two thresholds are met decides, the default is stage 5 *)
Definition stage_by_rules (tier : Q) (domains : Z) : Z :=
  if Qle_bool 3.5 tier && (5 <=? domains) then 7
  else if Qle_bool 3.2 tier && (4 <=? domains) then 6
  else if Qle_bool 2.8 tier && (3 <=? domains) then 6
  else if Qle_bool 2.5 tier && (2 <=? domains) then 5
  else if Qle_bool 2.0 tier && (0 <=? domains) then 5
  else 5.

(** the later rules and the default never give more than the earlier ones *)
Fixpoint descending (rules : list (Q * Z * Z)) : Prop :=
  match rules with
  | [] => True
  | (_, _, stage) :: rules' =>
      5 <= stage /\ Forall (fun r => snd r <= stage) rules' /\ descending rules'
  end.


(** The code computes in binary floats, the model in the rationals
    they stand for.  The two give the same value up to the rounding
    errors of a few float operations, far below one millionth on the
    values met here (percentages up to 100, tiers between 1 and 4).  A
    statement that compares a computed float with a bound leaves this
    much room at the bound. *)
Definition float_allowance : Q := 1 # 1000000.


(** the default of [generate_baseline] for an empty history, the mean
    of the tiers otherwise *)
Definition mean_tier (tiers : list Z) : Q :=
  match tiers with
  | [] => 2.0
  | _ => inject_Z (sum_Z tiers) / inject_Z (len tiers)
  end.

(** the state of the loop: four non-negative counters that add up to
    the number of tiers recorded so far *)
Definition counts_ok (acc : int_dict * list Z) : Prop :=
  exists n1 n2 n3 n4,
    fst acc = [(1, n1); (2, n2); (3, n3); (4, n4)]
    /\ 0 <= n1 /\ 0 <= n2 /\ 0 <= n3 /\ 0 <= n4
    /\ n1 + n2 + n3 + n4 = len (snd acc)
    /\ Forall (fun l => 1 <= l <= 4) (snd acc).

(** the order of [str] on week keys *)
Definition str_lt (a b : string) : Prop := String.ltb a b = true.

(** the number of tiers held by a week dictionary *)
Definition total_len (weekly : week_dict) : Z :=
  sum_Z (map (fun e => len (snd e)) weekly).

(** the rollups come strictly ascending by week key *)
Definition ascending_weeks (ws : list WeeklyRollup) : Prop :=
  StronglySorted (fun a b => str_lt (week a) (week b)) ws.

Section Vocabulary.
Context {rt : Runtime}.

(** [re.search(pattern, text_lower)] finds a match *)
Definition matches (text_lower pattern : string) : bool :=
  match Re.search pattern text_lower with
  | Some _ => true
  | None => false
  end.

(** how many patterns of a list match: a pattern counts once however
    often it occurs in the text *)
Definition count_matches (text_lower : string) (patterns : list string) : Z :=
  len (filter (matches text_lower) patterns).

(** the pattern-match count of a tier *)
Definition match_count (text_lower : string) (level : Z) : Z :=
  count_matches text_lower (patterns_of level).

(** the four entries of [scores] after the loop *)
Definition final_scores (tl : string) : int_dict :=
  [ (1, match_count tl 1); (2, match_count tl 2);
    (3, match_count tl 3); (4, match_count tl 4) ].

(** the matches of all four tiers *)
Definition total_count (tl : string) : Z :=
  match_count tl 1 + match_count tl 2 + match_count tl 3 + match_count tl 4.

(** the session date is there and [fromisoformat] accepts it *)
Definition date_present_and_parsable (p : Prompt) : Prop :=
  exists d, session_date p = Some d /\ d <> EmptyString
            /\ fromisoformat (replace_Z d) <> None.

(** the prompt gets a week key *)
Definition dated (p : Prompt) : bool :=
  match week_of p with
  | Some _ => true
  | None => false
  end.

(** the tier of one prompt *)
Definition tier_of (p : Prompt) : Z := fst (fst (classify_dok (Some (text p)))).

End Vocabulary.

(** ** Sample data *)

(** a prompt with a given session date and text *)
Definition sample_prompt (date : option string) (t : string) : Prompt :=
  {| session_id := "s1"; session_name := "session"; session_date := date;
     working_dir := "/work/app"; text := t; timestamp := 0 |}.

(** a summary of one session *)
Definition sample_summary : DataSummary :=
  {| sessions := 1; earliest := Some "2024-01-15T10:00:00Z";
     latest := Some "2024-01-15T10:00:00Z"; days := 0 |}.

(** sixteen prompts: one of each of the tiers 1, 2, 3 and thirteen of tier 4 *)
Definition sixteen_prompts : list Prompt :=
  [ sample_prompt (Some "2024-01-15") "what is a monad";
    sample_prompt (Some "2024-01-15") "fix the parser";
    sample_prompt (Some "2024-01-15") "why is it slow" ]
  ++ repeat (sample_prompt (Some "2024-01-22") "research caching") 13.

(** a store with two user sessions in two directories and four prompts *)
Definition sample_store : Store :=
  {| db_exists := true;
     db_opens := true;
     sessions_table :=
       [ {| id := "s1"; name := "parser work"; created_at := Some "2024-01-15 10:00:00";
            session_working_dir := "/work/app"; session_type := "user";
            total_tokens := Some 1200 |};
         {| id := "s2"; name := "planning"; created_at := Some "2024-01-23 08:30:00";
            session_working_dir := "/work/docs"; session_type := "user";
            total_tokens := None |};
         {| id := "s3"; name := "scheduled"; created_at := Some "2024-01-24 08:30:00";
            session_working_dir := "/work/jobs"; session_type := "scheduled";
            total_tokens := Some 10 |} ];
     messages_table :=
       [ {| message_session_id := "s1"; role := "user";
            content_json := Some [TextItem (Some "how do i use git")];
            created_timestamp := 100 |};
         {| message_session_id := "s1"; role := "assistant";
            content_json := Some [TextItem (Some "use git status")];
            created_timestamp := 101 |};
         {| message_session_id := "s1"; role := "user";
            content_json := Some [OtherItem; TextItem (Some "implement a login form")];
            created_timestamp := 102 |};
         {| message_session_id := "s2"; role := "user";
            content_json := Some [TextItem (Some "what's our long-term architecture strategy")];
            created_timestamp := 200 |};
         {| message_session_id := "s2"; role := "user";
            content_json := None;
            created_timestamp := 201 |};
         {| message_session_id := "s3"; role := "user";
            content_json := Some [TextItem (Some "research the scheduler")];
            created_timestamp := 300 |} ] |}.

(** the same store without any session of type 'user' *)
Definition empty_store : Store :=
  {| db_exists := true; db_opens := true;
     sessions_table :=
       [ {| id := "s3"; name := "scheduled"; created_at := Some "2024-01-24 08:30:00";
            session_working_dir := "/work/jobs"; session_type := "scheduled";
            total_tokens := Some 10 |} ];
     messages_table := [] |}.

Definition sample_files : FileSystem :=
  {| baseline_file := Some "{}"; baseline_writable := true |}.

Definition sample_baseline : Baseline :=
  {| generated_at := "2025-01-01T00:00:00";
     period := {| period_start := Some "2024-01-15 10:00:00";
                  period_end := Some "2024-01-23 08:30:00";
                  period_days := 7 |};
     sessions_analyzed := 2;
     prompts_classified := 3;
     dok_distribution :=
       [("dok1", 33.3%Q); ("dok2", 33.3%Q); ("dok3", 0.0%Q); ("dok4", 33.3%Q)];
     dok_distribution_counts :=
       [("dok1_count", 1); ("dok2_count", 1); ("dok3_count", 0); ("dok4_count", 1)];
     average_dok_score := 2.33%Q;
     estimated_stage := 5;
     domain_count := 2;
     domains := [ ("/work/app", {| count := 1; tokens := 1200 |});
                  ("/work/docs", {| count := 1; tokens := 0 |}) ];
     trajectory := "improving";
     weekly_scores :=
       [ {| week := "2024-W03"; avg_dok := 1.50%Q; prompt_count := 2 |};
         {| week := "2024-W04"; avg_dok := 4.00%Q; prompt_count := 1 |} ] |}.

(** ** Words for the round trip of the codec *)

Module JsonSpec.
Import Json.

(** every character is a decimal digit *)
Definition all_digits (s : string) : Prop :=
  forall c, In c (list_ascii_of_string s) -> is_digit c = true.

(** the text after a number token does not continue the token *)
Definition ends_number (rest : string) : Prop :=
  match rest with
  | EmptyString => True
  | String c _ =>
      is_digit c = false /\ c <> "."%char /\ c <> "e"%char /\ c <> "E"%char
  end.

(** the text does not start with a digit *)
Definition no_digit_ahead (rest : string) : Prop :=
  match rest with
  | EmptyString => True
  | String c _ => is_digit c = false
  end.

(** the first character of a value, as the decoder needs it *)
Definition value_head (c : ascii) : Prop :=
  is_ws c = false /\ c <> "]"%char /\ c <> "}"%char.

(** the decoder, given enough fuel, reads [v] back from its text and
    stops right after it *)
Definition reads_back (v : value) : Prop :=
  forall level rest fuel,
    (String.length (encode level v) <= fuel)%nat ->
    ends_number rest ->
    decode_value fuel (encode level v ++ rest) = Some (v, rest).

(** the text of one member: key, colon, value *)
Definition member (lvl : nat) (kv : string * value) : string :=
  let '(k, x) := kv in (encode_string k ++ ": " ++ encode lvl x)%string.

End JsonSpec.

(** ** Vocabulary of the further properties *)




Section VocabularyMore.
Context {rt : Runtime}.

(** the prompt is filed under the week [wk] *)
Definition in_week (wk : string) (p : Prompt) : bool :=
  match week_of p with
  | Some w => String.eqb wk w
  | None => false
  end.

(** how many prompts are classified as tier [k] *)
Definition tier_count (k : Z) (prompts : list Prompt) : Z :=
  len (filter (fun p => tier_of p =? k) prompts).



End VocabularyMore.

(** the rows come in ascending order of their timestamps *)
Definition chronological (ps : list Prompt) : Prop :=
  StronglySorted (fun a b => timestamp a <= timestamp b) ps.

(** the prompt [get_all_user_prompts] builds from a message, its
    session and the text found in the message *)
Definition prompt_from (m : MessageRow) (s : SessionRow) (t : string) : Prompt :=
  {| session_id := message_session_id m;
     session_name := name s;
     session_date := created_at s;
     working_dir := session_working_dir s;
     text := t;
     timestamp := created_timestamp m |}.

(** [total_tokens], NULL counting as nothing *)
Definition tokens_of (s : SessionRow) : Z :=
  match total_tokens s with Some n => n | None => 0 end.

(** the user sessions of a working directory *)
Definition sessions_in (dir : string) (st : Store) : list SessionRow :=
  filter (fun s => String.eqb (session_working_dir s) dir) (user_sessions st).

(** the entry of a directory, if it has one *)
Fixpoint group_get (dir : string) (groups : list (string * DomainEntry))
  : option DomainEntry :=
  match groups with
  | [] => None
  | (d, e) :: rest => if String.eqb dir d then Some e else group_get dir rest
  end.

(** one more session for an entry *)
Definition bump (o : option DomainEntry) (s : SessionRow) : option DomainEntry :=
  match o with
  | Some e => Some {| count := count e + 1; tokens := tokens e + tokens_of s |}
  | None => Some {| count := 1; tokens := tokens_of s |}
  end.

(** the entries come with the larger counts first *)
Definition by_count_descending (gs : list (string * DomainEntry)) : Prop :=
  StronglySorted (fun a b => count (snd b) <= count (snd a)) gs.

(** the creation dates of the user sessions, NULLs left out *)
Definition session_dates (st : Store) : list string :=
  non_null (map created_at (user_sessions st)).

(** what [get_data_summary] answers when it finds nothing to report *)
Definition no_sessions : DataSummary :=
  {| sessions := 0; earliest := None; latest := None; days := 0 |}.

(** the order of [str], not strict *)
Definition str_le (a b : string) : Prop := ~ str_lt b a.

(** * Properties *)

(** ** The classifier counts each pattern once *)

Lemma dict_add_0 k d : dict_add k 0 d = d.
Proof.
  induction d as [|[k' v] d IH]; simpl; [reflexivity|].
  destruct (k =? k'); [now rewrite Z.add_0_r | now rewrite IH].
Qed.

Lemma dict_incr_add k n d : dict_incr k (dict_add k n d) = dict_add k (n + 1) d.
Proof.
  induction d as [|[k' v] d IH]; simpl; [reflexivity|].
  destruct (k =? k') eqn:E; simpl; rewrite E.
  - now rewrite Z.add_assoc.
  - now rewrite IH.
Qed.

Lemma len_cons {A : Type} (x : A) xs : len (x :: xs) = len xs + 1.
Proof. unfold len. simpl List.length. lia. Qed.

Lemma len_nonneg {A : Type} (xs : list A) : 0 <= len xs.
Proof. unfold len. lia. Qed.

Lemma len_app {A : Type} (xs ys : list A) : len (xs ++ ys) = len xs + len ys.
Proof. unfold len. rewrite length_app. lia. Qed.

Section ClassifierFacts.
Context {rt : Runtime}.

Lemma scan_patterns_scores tl level patterns : forall scores matched n,
  fst (fold_left (scan_pattern tl level) patterns (dict_add level n scores, matched))
  = dict_add level (n + count_matches tl patterns) scores.
Proof.
  induction patterns as [|p ps IH]; intros scores matched n.
  - simpl. now rewrite Z.add_0_r.
  - cbn [fold_left]. unfold count_matches. cbn [filter].
    unfold scan_pattern at 2. unfold matches at 1.
    destruct (Re.search p tl) as [m|].
    + rewrite dict_incr_add, IH, len_cons. unfold count_matches. f_equal. lia.
    + apply IH.
Qed.

Lemma scan_level_scores tl level patterns scores matched :
  fst (scan_level tl (scores, matched) (level, patterns))
  = dict_add level (count_matches tl patterns) scores.
Proof.
  unfold scan_level.
  rewrite <- (dict_add_0 level scores) at 1.
  now rewrite scan_patterns_scores.
Qed.

Lemma scan_levels_scores tl entries : forall scores matched,
  fst (fold_left (scan_level tl) entries (scores, matched))
  = fold_left (fun d e => dict_add (fst e) (count_matches tl (snd e)) d)
      entries scores.
Proof.
  induction entries as [|[level patterns] es IH]; intros scores matched.
  - reflexivity.
  - cbn [fold_left fst snd].
    rewrite <- scan_level_scores with (matched := matched).
    destruct (scan_level tl (scores, matched) (level, patterns)) as [s m].
    apply IH.
Qed.

(** the loop leaves in [scores] the pattern-match count of every tier *)
Lemma scan_scores tl :
  fst (scan tl) = [ (1, match_count tl 1); (2, match_count tl 2);
                    (3, match_count tl 3); (4, match_count tl 4) ].
Proof.
  unfold scan. rewrite scan_levels_scores. unfold DOK_PATTERNS.
  cbn [fold_left fst snd dict_add Z.eqb Pos.eqb Z.add].
  reflexivity.
Qed.

Lemma count_matches_nonneg tl ps : 0 <= count_matches tl ps.
Proof. apply len_nonneg. Qed.

Lemma count_matches_pos tl ps p :
  In p ps -> Re.search p tl <> None -> 0 < count_matches tl ps.
Proof.
  intros Hin Hs. unfold count_matches.
  assert (Hf : In p (filter (matches tl) ps)).
  { apply filter_In. split; [exact Hin|]. unfold matches.
    destruct (Re.search p tl); [reflexivity | congruence]. }
  destruct (filter (matches tl) ps); [contradiction|].
  rewrite len_cons. pose proof (len_nonneg l). lia.
Qed.

Lemma count_matches_zero tl ps :
  (forall p, In p ps -> Re.search p tl = None) -> count_matches tl ps = 0.
Proof.
  intros H. unfold count_matches.
  induction ps as [|p ps IH]; [reflexivity|].
  cbn [filter]. unfold matches at 1. rewrite (H p (or_introl eq_refl)).
  apply IH. intros q Hq. apply H. now right.
Qed.

End ClassifierFacts.

Section ClassifierTheorems.
Context {rt : Runtime}.

Lemma sum_final_scores tl : sum_Z (dict_values (final_scores tl)) = total_count tl.
Proof. unfold sum_Z, dict_values, final_scores, total_count. cbn [map snd fold_left]. lia. Qed.

Lemma classify_dok_unfold (a : ascii) (t : string) :
  let tl := str_lower (String a t) in
  classify_dok (Some (String a t)) =
    if total_count tl =? 0 then (2, 3 # 10, [])
    else
      let max_score := max_Z (dict_values (final_scores tl)) in
      (top_level (final_scores tl) max_score,
       Qmin (if 0 <? total_count tl
             then inject_Z max_score / inject_Z (total_count tl)
             else 3 # 10)%Q 1,
       take 5 (snd (scan tl))).
Proof.
  intros tl. unfold classify_dok. cbn [text_is_empty text_value]. fold tl.
  pose proof (scan_scores tl) as Hs. fold (final_scores tl) in Hs.
  destruct (scan tl) as [scores matched]. cbn [fst snd] in *. subst scores.
  rewrite sum_final_scores. reflexivity.
Qed.

Lemma some_pattern_matches tl :
  (exists level p, In level [1; 2; 3; 4] /\ In p (patterns_of level)
                   /\ Re.search p tl <> None) ->
  0 < total_count tl.
Proof.
  intros (level & p & Hl & Hp & Hs).
  pose proof (count_matches_nonneg tl (patterns_of 1)).
  pose proof (count_matches_nonneg tl (patterns_of 2)).
  pose proof (count_matches_nonneg tl (patterns_of 3)).
  pose proof (count_matches_nonneg tl (patterns_of 4)).
  pose proof (count_matches_pos tl (patterns_of level) p Hp Hs) as Hpos.
  unfold total_count, match_count.
  cbn [In] in Hl. destruct Hl as [<-|[<-|[<-|[<-|[]]]]]; lia.
Qed.

Lemma no_pattern_matches tl :
  (forall level p, In level [1; 2; 3; 4] -> In p (patterns_of level) ->
                   Re.search p tl = None) ->
  total_count tl = 0.
Proof.
  intros H. unfold total_count, match_count.
  rewrite !count_matches_zero; [reflexivity| | | |];
    intros p Hp; eapply H; try exact Hp; cbn [In]; tauto.
Qed.

(** the winner among four counts: a maximal one, the highest key first *)
Lemma top_level_spec (c1 c2 c3 c4 : Z) :
  let d := [(1, c1); (2, c2); (3, c3); (4, c4)] in
  let M := max_Z (dict_values d) in
  let L := top_level d M in
  In L [1; 2; 3; 4]
  /\ dict_get L d = M
  /\ (forall k, In k [1; 2; 3; 4] -> dict_get k d <= M)
  /\ (forall k, In k [1; 2; 3; 4] -> dict_get k d = M -> k <= L).
Proof.
  intros d M L. subst L M d.
  unfold top_level, dict_values, max_Z. cbn [map snd fst fold_left filter].
  set (M := Z.max (Z.max (Z.max c1 c2) c3) c4).
  assert (HM : c1 <= M /\ c2 <= M /\ c3 <= M /\ c4 <= M
               /\ (M = c1 \/ M = c2 \/ M = c3 \/ M = c4)) by (subst M; lia).
  clearbody M.
  destruct (Z.eqb_spec c1 M), (Z.eqb_spec c2 M), (Z.eqb_spec c3 M), (Z.eqb_spec c4 M);
    cbn [map fst fold_left Z.max Z.compare Pos.compare Pos.compare_cont];
    (repeat split;
     [ cbn [In]; lia
     | cbn [dict_get Z.eqb Pos.eqb]; lia
     | intros k Hk; cbn [In] in Hk;
       destruct Hk as [<-|[<-|[<-|[<-|[]]]]]; cbn [dict_get Z.eqb Pos.eqb]; lia
     | intros k Hk; cbn [In] in Hk;
       destruct Hk as [<-|[<-|[<-|[<-|[]]]]]; cbn [dict_get Z.eqb Pos.eqb]; lia ]).
Qed.

Lemma dict_get_final_scores tl k :
  In k [1; 2; 3; 4] -> dict_get k (final_scores tl) = match_count tl k.
Proof.
  cbn [In]. intros [<-|[<-|[<-|[<-|[]]]]]; reflexivity.
Qed.

(** C1. For a text in which some trigger pattern matches,
    [classify_dok] returns as tier a tier whose pattern-match count is
    maximal among the four tiers (a pattern counts once per tier), the
    numerically highest such tier when several tiers share the maximum,
    and as confidence the winner's count divided by the total count
    over the four tiers, capped at 1. *)
Theorem classify_dok_winning_tier (t : string) :
  t <> EmptyString ->
  (exists level p, In level [1; 2; 3; 4] /\ In p (patterns_of level)
                   /\ Re.search p (str_lower t) <> None) ->
  let n := match_count (str_lower t) in
  let tier := fst (fst (classify_dok (Some t))) in
  let confidence := snd (fst (classify_dok (Some t))) in
  In tier [1; 2; 3; 4]
  /\ (forall k, In k [1; 2; 3; 4] -> n k <= n tier)
  /\ (forall k, In k [1; 2; 3; 4] -> n k = n tier -> k <= tier)
  /\ (confidence ==
      Qmin (inject_Z (n tier) / inject_Z (n 1 + n 2 + n 3 + n 4)%Z) 1)%Q.
Proof.
  intros Hne Hex. destruct t as [|a t]; [congruence|].
  intros n tier confidence. subst tier confidence.
  rewrite classify_dok_unfold. cbv zeta.
  pose proof (some_pattern_matches _ Hex) as Hpos.
  fold (total_count (str_lower (String a t))) in *.
  destruct (Z.eqb_spec (total_count (str_lower (String a t))) 0) as [E|_]; [lia|].
  destruct (Z.ltb_spec 0 (total_count (str_lower (String a t)))) as [_|E]; [|lia].
  cbn [fst snd].
  set (tl := str_lower (String a t)) in *.
  destruct (top_level_spec (match_count tl 1) (match_count tl 2)
              (match_count tl 3) (match_count tl 4)) as (HL & HM & Hmax & Htie).
  fold (final_scores tl) in *.
  set (M := max_Z (dict_values (final_scores tl))) in *.
  set (L := top_level (final_scores tl) M) in *.
  rewrite (dict_get_final_scores tl L HL) in HM.
  subst n. cbv beta. fold tl.
  repeat split.
  - exact HL.
  - intros k Hk. rewrite HM, <- (dict_get_final_scores tl k Hk). now apply Hmax.
  - intros k Hk Hc. apply Htie; [exact Hk|].
    rewrite (dict_get_final_scores tl k Hk). congruence.
  - rewrite HM. reflexivity.
Qed.

(** C2. For a text that is absent or empty, and for a text in which no
    trigger pattern of any tier matches, [classify_dok] returns tier 2,
    confidence 0.3 and no evidence. *)
Theorem classify_dok_default (text : option string) :
  text = None \/ text = Some EmptyString
  \/ (forall level p, In level [1; 2; 3; 4] -> In p (patterns_of level) ->
        Re.search p (str_lower (text_value text)) = None) ->
  classify_dok text = (2, 3 # 10, []).
Proof.
  intros [->|[->|H]]; [reflexivity|reflexivity|].
  destruct text as [[|a t]|]; [reflexivity| |reflexivity].
  rewrite classify_dok_unfold. cbv zeta.
  cbn [text_value] in H. rewrite (no_pattern_matches _ H). reflexivity.
Qed.

End ClassifierTheorems.

(** ** Stage estimator *)

(** C4. [estimate_stage] returns the stage of the first rule, in the
    order (3.5, 5) -> 7, (3.2, 4) -> 6, (2.8, 3) -> 6, (2.5, 2) -> 5,
    (2.0, 0) -> 5, default 5, whose two thresholds are met, and its
    result is 5, 6 or 7.  This holds for every average and every domain
    count, the non-negative ones in particular. *)
Theorem estimate_stage_first_rule (avg_dok : Q) (domain_count : Z) :
  estimate_stage avg_dok domain_count = stage_by_rules avg_dok domain_count
  /\ In (estimate_stage avg_dok domain_count) [5; 6; 7].
Proof.
  unfold estimate_stage, stage_by_rules, STAGE_THRESHOLDS. cbn [first_rule].
  destruct (Qle_bool 3.5 avg_dok && (5 <=? domain_count));
    [cbn [In]; split; [reflexivity | lia]|].
  destruct (Qle_bool 3.2 avg_dok && (4 <=? domain_count));
    [cbn [In]; split; [reflexivity | lia]|].
  destruct (Qle_bool 2.8 avg_dok && (3 <=? domain_count));
    [cbn [In]; split; [reflexivity | lia]|].
  destruct (Qle_bool 2.5 avg_dok && (2 <=? domain_count));
    [cbn [In]; split; [reflexivity | lia]|].
  destruct (Qle_bool 2.0 avg_dok && (1 <=? domain_count)),
           (Qle_bool 2.0 avg_dok && (0 <=? domain_count)),
           (Qle_bool 0.0 avg_dok && (0 <=? domain_count));
    cbn [In]; split; solve [reflexivity | lia].
Qed.

Lemma first_rule_upper rules avg d s :
  5 <= s -> Forall (fun r => snd r <= s) rules -> first_rule rules avg d <= s.
Proof.
  intros Hs. induction 1 as [|[[t dt] s'] rules Hr _ IH]; cbn [first_rule].
  - exact Hs.
  - destruct (Qle_bool t avg && (dt <=? d)); [exact Hr | exact IH].
Qed.

Lemma first_rule_monotone rules d (a b : Q) :
  descending rules -> (a <= b)%Q ->
  first_rule rules a d <= first_rule rules b d.
Proof.
  intros Hd Hab. induction rules as [|[[t dt] s] rules IH]; cbn [first_rule].
  - lia.
  - destruct Hd as (Hs & Hall & Hd).
    destruct (dt <=? d); rewrite ?andb_true_r, ?andb_false_r.
    + destruct (Qle_bool t a) eqn:Ea.
      * assert (Eb : Qle_bool t b = true).
        { apply Qle_bool_iff. apply Qle_bool_iff in Ea.
          eapply Qle_trans; eassumption. }
        rewrite Eb. lia.
      * destruct (Qle_bool t b); [|now apply IH].
        now apply first_rule_upper.
    + now apply IH.
Qed.

Lemma STAGE_THRESHOLDS_descending : descending STAGE_THRESHOLDS.
Proof.
  unfold STAGE_THRESHOLDS; cbn [descending].
  repeat split; repeat constructor; cbn [snd]; lia.
Qed.

(** C5. With the domain count fixed, a higher average tier never gives
    a lower stage. *)
Theorem estimate_stage_monotone (d : Z) (a b : Q) :
  (a <= b)%Q -> estimate_stage a d <= estimate_stage b d.
Proof.
  intros Hab. unfold estimate_stage.
  apply first_rule_monotone; [exact STAGE_THRESHOLDS_descending | exact Hab].
Qed.

(** ** Trend *)



Lemma Qltb_lt x y : Qltb x y = true <-> (x < y)%Q.
Proof.
  unfold Qltb. rewrite negb_true_iff.
  destruct (Qle_bool y x) eqn:E.
  - apply Qle_bool_iff in E. split; [discriminate|]. intros H.
    exfalso. apply (Qlt_irrefl x). eapply Qlt_le_trans; eassumption.
  - split; [|reflexivity]. intros _.
    apply Qnot_le_lt. intros H. apply Qle_bool_iff in H. congruence.
Qed.

Lemma Qltb_ge x y : Qltb x y = false <-> (y <= x)%Q.
Proof.
  unfold Qltb. rewrite negb_false_iff. apply Qle_bool_iff.
Qed.


(** ** Rounding *)

Lemma round_half_even_error (y : Q) :
  (y - (1 # 2) <= inject_Z (round_half_even y)
   /\ inject_Z (round_half_even y) <= y + (1 # 2))%Q.
Proof.
  unfold round_half_even.
  pose proof (Qfloor_le y) as Hlo. pose proof (Qlt_floor y) as Hhi.
  rewrite inject_Z_plus in Hhi. change (inject_Z 1) with 1%Q in Hhi.
  destruct (y - inject_Z (Qfloor y) ?= 1 # 2)%Q eqn:E.
  - apply Qeq_alt in E.
    destruct (Z.even (Qfloor y)); [|rewrite inject_Z_plus; change (inject_Z 1) with 1%Q];
      split; lra.
  - apply Qlt_alt in E. split; lra.
  - apply Qgt_alt in E. rewrite inject_Z_plus. change (inject_Z 1) with 1%Q.
    split; lra.
Qed.

(** an integer bound on [y] is a bound on its rounding *)
Lemma round_half_even_between (y : Q) (lo hi : Z) :
  (inject_Z lo <= y)%Q -> (y <= inject_Z hi)%Q ->
  lo <= round_half_even y <= hi.
Proof.
  intros Hlo Hhi.
  assert (Hf1 : lo <= Qfloor y).
  { rewrite <- (Qfloor_Z lo). now apply Qfloor_resp_le. }
  assert (Hf2 : Qfloor y <= hi).
  { rewrite <- (Qfloor_Z hi). now apply Qfloor_resp_le. }
  unfold round_half_even.
  destruct (y - inject_Z (Qfloor y) ?= 1 # 2)%Q eqn:E.
  - destruct (Z.even (Qfloor y)); [lia|].
    apply Qeq_alt in E.
    destruct (Z.eq_dec (Qfloor y) hi) as [Eh|Eh]; [|lia].
    rewrite Eh in E. lra.
  - lia.
  - apply Qgt_alt in E.
    destruct (Z.eq_dec (Qfloor y) hi) as [Eh|Eh]; [|lia].
    rewrite Eh in E. lra.
Qed.

Lemma py_round_1_error (x : Q) :
  (x - (1 # 20) <= py_round x 1 /\ py_round x 1 <= x + (1 # 20))%Q.
Proof.
  unfold py_round. change (inject_Z (10 ^ Z.of_nat 1)) with 10%Q.
  destruct (round_half_even_error (x * 10)) as [Hlo Hhi].
  set (z := inject_Z (round_half_even (x * 10))) in *.
  assert (E : (z / 10 == z * (1 # 10))%Q) by (unfold Qdiv; reflexivity).
  rewrite E. split; lra.
Qed.

Lemma py_round_2_error (x : Q) :
  (x - (1 # 200) <= py_round x 2 /\ py_round x 2 <= x + (1 # 200))%Q.
Proof.
  unfold py_round. change (inject_Z (10 ^ Z.of_nat 2)) with 100%Q.
  destruct (round_half_even_error (x * 100)) as [Hlo Hhi].
  set (z := inject_Z (round_half_even (x * 100))) in *.
  assert (E : (z / 100 == z * (1 # 100))%Q) by (unfold Qdiv; reflexivity).
  rewrite E. split; lra.
Qed.

(** a value rounded to two decimals is within 0.005 of the value *)
Lemma py_round_2_near (x : Q) :
  (Qabs (py_round x 2 - x) <= 0.005 + float_allowance)%Q.
Proof.
  destruct (py_round_2_error x) as [Hlo Hhi].
  apply Qabs_Qle_condition. unfold float_allowance. split; lra.
Qed.

Lemma py_round_2_between (x : Q) (lo hi : Z) :
  (inject_Z lo <= x)%Q -> (x <= inject_Z hi)%Q ->
  (inject_Z lo <= py_round x 2 /\ py_round x 2 <= inject_Z hi)%Q.
Proof.
  intros Hlo Hhi. unfold py_round. change (inject_Z (10 ^ Z.of_nat 2)) with 100%Q.
  destruct (round_half_even_between (x * 100) (lo * 100) (hi * 100)) as [H1 H2].
  - rewrite inject_Z_mult. change (inject_Z 100) with 100%Q. lra.
  - rewrite inject_Z_mult. change (inject_Z 100) with 100%Q. lra.
  - set (z := round_half_even (x * 100)) in *.
    assert (E : (inject_Z z / 100 == inject_Z z * (1 # 100))%Q) by (unfold Qdiv; reflexivity).
    rewrite E.
    assert (H1' : (inject_Z (lo * 100) <= inject_Z z)%Q) by (rewrite <- Zle_Qle; exact H1).
    assert (H2' : (inject_Z z <= inject_Z (hi * 100))%Q) by (rewrite <- Zle_Qle; exact H2).
    rewrite inject_Z_mult in H1', H2'. change (inject_Z 100) with 100%Q in *.
    split; lra.
Qed.

(** ** The classification loop of [generate_baseline] *)

Lemma fold_left_add xs : forall a, fold_left Z.add xs a = a + sum_Z xs.
Proof.
  unfold sum_Z. induction xs as [|x xs IH]; intros a; cbn [fold_left].
  - lia.
  - rewrite IH, (IH (0 + x)). lia.
Qed.

Lemma sum_Z_app xs ys : sum_Z (xs ++ ys) = sum_Z xs + sum_Z ys.
Proof. unfold sum_Z at 1. rewrite fold_left_app, fold_left_add. fold (sum_Z xs). lia. Qed.

Lemma sum_Z_cons x xs : sum_Z (x :: xs) = x + sum_Z xs.
Proof. unfold sum_Z at 1. cbn [fold_left]. rewrite fold_left_add. lia. Qed.

Lemma sum_Z_between xs :
  Forall (fun l => 1 <= l <= 4) xs -> len xs <= sum_Z xs <= 4 * len xs.
Proof.
  induction 1 as [|x xs Hx _ IH].
  - unfold len, sum_Z. simpl. lia.
  - rewrite sum_Z_cons, len_cons. lia.
Qed.

Section ClassificationLoop.
Context {rt : Runtime}.

(** the tier [classify_dok] returns is one of the four tiers *)
Lemma classify_dok_tier text : In (fst (fst (classify_dok text))) [1; 2; 3; 4].
Proof.
  destruct text as [[|a t]|]; [cbn; tauto| |cbn; tauto].
  rewrite classify_dok_unfold. cbv zeta.
  destruct (total_count (str_lower (String a t)) =? 0); [cbn; tauto|].
  cbn [fst]. apply top_level_spec.
Qed.

Lemma classify_step_ok acc prompt :
  counts_ok acc ->
  counts_ok (classify_step acc prompt)
  /\ len (snd (classify_step acc prompt)) = len (snd acc) + 1.
Proof.
  intros (n1 & n2 & n3 & n4 & E & H1 & H2 & H3 & H4 & Hsum & Hall).
  destruct acc as [dok_counts dok_scores]. cbn [fst snd] in *. subst dok_counts.
  unfold classify_step.
  pose proof (classify_dok_tier (Some (text prompt))) as Hl.
  destruct (classify_dok (Some (text prompt))) as [[dok_level c] m].
  cbn [fst snd] in *. rewrite len_app. change (len [dok_level]) with 1.
  split; [|reflexivity].
  assert (Hr : 1 <= dok_level <= 4) by (destruct Hl as [<-|[<-|[<-|[<-|[]]]]]; lia).
  destruct Hl as [<-|[<-|[<-|[<-|[]]]]];
    cbn [dict_incr Z.eqb Pos.eqb];
    [ exists (n1 + 1), n2, n3, n4 | exists n1, (n2 + 1), n3, n4
    | exists n1, n2, (n3 + 1), n4 | exists n1, n2, n3, (n4 + 1) ];
    cbn [fst snd]; rewrite len_app; change (len [_]) with 1;
    (repeat split; try lia; try reflexivity;
     apply Forall_app; split; [exact Hall | repeat constructor; lia]).
Qed.

Lemma classify_loop_ok prompts : forall acc,
  counts_ok acc ->
  counts_ok (fold_left classify_step prompts acc)
  /\ len (snd (fold_left classify_step prompts acc)) = len (snd acc) + len prompts.
Proof.
  induction prompts as [|p ps IH]; intros acc Hacc; cbn [fold_left].
  - split; [exact Hacc | unfold len; simpl; lia].
  - destruct (classify_step_ok acc p Hacc) as [Hok Hlen].
    destruct (IH _ Hok) as [Hok' Hlen']. split; [exact Hok'|].
    rewrite Hlen', Hlen, len_cons. lia.
Qed.

(** after the loop: one counter per tier, and as many recorded tiers as
    there are prompts *)
Lemma classify_all_ok prompts :
  counts_ok (classify_all prompts)
  /\ len (snd (classify_all prompts)) = len prompts.
Proof.
  unfold classify_all.
  destruct (classify_loop_ok prompts ([(1, 0); (2, 0); (3, 0); (4, 0)], [])) as [H1 H2].
  - exists 0, 0, 0, 0. cbn. repeat split; try lia. constructor.
  - split; [exact H1 | rewrite H2; reflexivity].
Qed.

(** every prompt is counted once in the distribution *)
Lemma prompts_classified_len summary prompts directories :
  prompts_classified (build_baseline summary prompts directories) = len prompts.
Proof.
  unfold build_baseline.
  destruct (classify_all_ok prompts) as [(n1 & n2 & n3 & n4 & E & _ & _ & _ & _ & Hs & _) Hl].
  destruct (classify_all prompts) as [dok_counts dok_scores].
  cbn [fst snd prompts_classified] in *. subst dok_counts.
  unfold sum_Z, dict_values. cbn [map snd fold_left]. lia.
Qed.

Lemma percentage_error v total :
  0 < total ->
  (inject_Z v / inject_Z total * 100 - (1 # 20) <= percentage v total
   /\ percentage v total <= inject_Z v / inject_Z total * 100 + (1 # 20))%Q.
Proof.
  intros H. unfold percentage.
  destruct (Z.ltb_spec 0 total) as [_|H']; [|lia].
  apply py_round_1_error.
Qed.

(** the four percentages of the model add up to 100 within 0.2 *)
Lemma distribution_sum_error summary prompts directories :
  let b := build_baseline summary prompts directories in
  0 < prompts_classified b ->
  (Qabs (sum_Q (map snd (dok_distribution b)) - 100) <= 0.2)%Q.
Proof.
  intros b. subst b. rewrite prompts_classified_len. intros Hpos.
  unfold build_baseline.
  destruct (classify_all_ok prompts) as [(n1 & n2 & n3 & n4 & E & _ & _ & _ & _ & Hs & _) Hl].
  destruct (classify_all prompts) as [dok_counts dok_scores].
  cbn [fst snd dok_distribution] in *. subst dok_counts.
  unfold dict_values, sum_Z. cbn [map snd fst fold_left]. unfold sum_Q. cbn [fold_left].
  replace (0 + n1 + n2 + n3 + n4) with (len prompts) by lia.
  set (N := len prompts) in *.
  destruct (percentage_error n1 N Hpos) as [L1 U1].
  destruct (percentage_error n2 N Hpos) as [L2 U2].
  destruct (percentage_error n3 N Hpos) as [L3 U3].
  destruct (percentage_error n4 N Hpos) as [L4 U4].
  assert (HN : (0 < inject_Z N)%Q) by (rewrite (Zlt_Qlt 0 N) in Hpos; exact Hpos).
  assert (Hsum : (inject_Z n1 / inject_Z N * 100 + inject_Z n2 / inject_Z N * 100
                  + inject_Z n3 / inject_Z N * 100 + inject_Z n4 / inject_Z N * 100
                  == 100)%Q).
  { assert (E : (inject_Z N == inject_Z n1 + inject_Z n2 + inject_Z n3 + inject_Z n4)%Q).
    { rewrite <- !inject_Z_plus. rewrite <- Hl, <- Hs. reflexivity. }
    field_simplify_eq; [|lra]. rewrite E. ring. }
  apply Qabs_Qle_condition. split; lra.
Qed.

(** C3 (amended). For a positive number of classified prompts, the four
    percentages of the tier distribution, each rounded to one decimal,
    add up to 100 within 0.2, up to the rounding errors of the float
    sum (the room [float_allowance]). *)
Theorem distribution_sum_within_two_tenths summary prompts directories :
  let b := build_baseline summary prompts directories in
  0 < prompts_classified b ->
  (Qabs (sum_Q (map snd (dok_distribution b)) - 100) <= 0.2 + float_allowance)%Q.
Proof.
  intros b H. pose proof (distribution_sum_error summary prompts directories H) as E.
  fold b in E. unfold float_allowance. lra.
Qed.

End ClassificationLoop.

(** ** Order on week keys *)

Lemma str_lt_compare a b : str_lt a b <-> String.compare a b = Lt.
Proof.
  unfold str_lt, String.ltb. destruct (String.compare a b); split; congruence.
Qed.

Lemma str_lt_trans a b c : str_lt a b -> str_lt b c -> str_lt a c.
Proof.
  rewrite !str_lt_compare. intros H1 H2.
  apply String_as_OT.cmp_lt in H1, H2. apply String_as_OT.cmp_lt.
  eapply String_as_OT.lt_trans; eassumption.
Qed.

Lemma str_lt_irrefl a : ~ str_lt a a.
Proof.
  rewrite str_lt_compare. intros H. apply String_as_OT.cmp_lt in H.
  apply String_as_OT.lt_not_eq in H. apply H. reflexivity.
Qed.

Lemma leb_neq_lt a b : String.leb a b = true -> a <> b -> str_lt a b.
Proof.
  unfold String.leb. intros H Hne. apply str_lt_compare.
  destruct (String.compare a b) eqn:E; [|reflexivity|discriminate].
  apply String.compare_eq_iff in E. contradiction.
Qed.

Lemma not_leb_lt a b : String.leb a b = false -> str_lt b a.
Proof.
  unfold String.leb. intros H. apply str_lt_compare.
  rewrite String.compare_antisym.
  destruct (String.compare a b); [discriminate|discriminate|reflexivity].
Qed.

(** ** [sorted] *)

Lemma insert_sorted_perm k ks : Permutation (k :: ks) (insert_sorted k ks).
Proof.
  induction ks as [|k' ks IH]; cbn [insert_sorted]; [reflexivity|].
  destruct (String.leb k k'); [reflexivity|].
  rewrite perm_swap. now apply perm_skip.
Qed.

Lemma sorted_perm ks : Permutation ks (sorted ks).
Proof.
  induction ks as [|k ks IH]; cbn; [constructor|].
  rewrite <- insert_sorted_perm. now apply perm_skip.
Qed.

Lemma insert_sorted_strict k ks :
  ~ In k ks -> Sorted str_lt ks -> Sorted str_lt (insert_sorted k ks).
Proof.
  intros Hin Hs. induction Hs as [|k' ks Hs IH Hhd]; cbn [insert_sorted].
  - repeat constructor.
  - destruct (String.leb k k') eqn:E.
    + constructor; [now constructor|]. constructor.
      apply leb_neq_lt; [exact E|]. intros ->. apply Hin. now left.
    + constructor.
      * apply IH. intros H. apply Hin. now right.
      * destruct Hhd as [|k'' ks' Hlt]; cbn [insert_sorted].
        -- constructor. now apply not_leb_lt.
        -- destruct (String.leb k k''); constructor;
             [now apply not_leb_lt | exact Hlt].
Qed.

(** sorting distinct keys gives a strictly ascending sequence *)
Lemma sorted_strict ks : NoDup ks -> StronglySorted str_lt (sorted ks).
Proof.
  intros Hnd. apply Sorted_StronglySorted; [exact str_lt_trans|].
  induction Hnd as [|k ks Hin Hnd IH]; cbn; [constructor|].
  apply insert_sorted_strict; [|exact IH].
  intros H. apply Hin. eapply Permutation_in; [|exact H].
  symmetry. apply sorted_perm.
Qed.

Lemma StronglySorted_skipn {A : Type} (R : A -> A -> Prop) n xs :
  StronglySorted R xs -> StronglySorted R (skipn n xs).
Proof.
  revert xs. induction n as [|n IH]; intros xs H; [exact H|].
  destruct xs as [|x xs]; [constructor|]. cbn [skipn].
  apply IH. now inversion H.
Qed.

Lemma StronglySorted_map {A B : Type} (R : B -> B -> Prop) (f : A -> B) xs :
  StronglySorted R (map f xs) ->
  StronglySorted (fun a b => R (f a) (f b)) xs.
Proof.
  induction xs as [|x xs IH]; intros H; [constructor|].
  cbn [map] in H. inversion H as [|? ? Hs Hall]; subst.
  constructor; [now apply IH|].
  rewrite Forall_map in Hall. exact Hall.
Qed.

(** ** The week dictionary *)

Lemma week_append_keys wk level weekly :
  In wk (week_keys weekly) /\ week_keys (week_append wk level weekly) = week_keys weekly
  \/ ~ In wk (week_keys weekly)
     /\ week_keys (week_append wk level weekly) = week_keys weekly ++ [wk].
Proof.
  unfold week_keys.
  induction weekly as [|[w scores] rest IH]; cbn [week_append map fst].
  - right. split; [cbn; tauto | reflexivity].
  - destruct (String.eqb_spec wk w) as [->|Hne]; cbn [map fst].
    + left. split; [now left | reflexivity].
    + destruct IH as [[Hin E]|[Hin E]].
      * left. split; [now right | now rewrite E].
      * right. split; [|now rewrite E]. cbn [In]. intros [H|H]; [congruence | contradiction].
Qed.

Lemma week_append_nodup wk level weekly :
  NoDup (week_keys weekly) -> NoDup (week_keys (week_append wk level weekly)).
Proof.
  intros H. destruct (week_append_keys wk level weekly) as [[_ E]|[Hin E]]; rewrite E.
  - exact H.
  - apply NoDup_app; [exact H | repeat constructor; cbn; tauto |].
    intros x Hx [<-|[]]. contradiction.
Qed.

Lemma week_append_total wk level weekly :
  total_len (week_append wk level weekly) = total_len weekly + 1.
Proof.
  unfold total_len.
  induction weekly as [|[w scores] rest IH]; cbn [week_append map snd].
  - rewrite !sum_Z_cons. unfold sum_Z, len. simpl. lia.
  - destruct (String.eqb wk w); cbn [map snd]; rewrite !sum_Z_cons.
    + rewrite len_app. change (len [level]) with 1. lia.
    + rewrite IH. lia.
Qed.

Lemma week_get_sum weekly :
  NoDup (week_keys weekly) ->
  sum_Z (map (fun k => len (week_get k weekly)) (week_keys weekly)) = total_len weekly.
Proof.
  unfold total_len.
  unfold week_keys.
  induction weekly as [|[w scores] rest IH]; intros Hnd; [reflexivity|].
  cbn [map fst snd] in *. rewrite !sum_Z_cons.
  inversion Hnd as [|? ? Hin Hnd']; subst.
  cbn [week_get]. rewrite String.eqb_refl. f_equal.
  rewrite <- (IH Hnd'). f_equal. apply map_ext_in.
  intros k Hk. destruct (String.eqb_spec k w) as [->|_]; [contradiction | reflexivity].
Qed.

Lemma sum_Z_perm xs ys : Permutation xs ys -> sum_Z xs = sum_Z ys.
Proof.
  induction 1; rewrite ?sum_Z_cons in *; lia.
Qed.

(** ** Weekly rollups *)

Lemma len_filter_le {A : Type} (f : A -> bool) xs : len (filter f xs) <= len xs.
Proof.
  induction xs as [|x xs IH]; cbn [filter]; [lia|].
  destruct (f x); rewrite ?len_cons; lia.
Qed.

Lemma len_filter_all {A : Type} (f : A -> bool) xs :
  len (filter f xs) = len xs <-> Forall (fun x => f x = true) xs.
Proof.
  induction xs as [|x xs IH]; cbn [filter].
  - split; [constructor | reflexivity].
  - pose proof (len_filter_le f xs) as Hle.
    destruct (f x) eqn:E; rewrite ?len_cons; split.
    + intros H. constructor; [exact E | apply IH; lia].
    + intros H. inversion H; subst. apply IH in H3. lia.
    + lia.
    + intros H. inversion H; congruence.
Qed.

Section WeeklyFacts.
Context {rt : Runtime}.

Lemma dated_iff p : dated p = true <-> date_present_and_parsable p.
Proof.
  unfold dated, week_of, has_date, date_present_and_parsable.
  destruct (session_date p) as [[|a d]|].
  - split; [discriminate|]. intros (d & E & Hne & _). congruence.
  - destruct (fromisoformat (replace_Z (String a d))) eqn:E; split.
    + intros _. exists (String a d). rewrite E. repeat split; congruence.
    + reflexivity.
    + discriminate.
    + intros (d' & E' & _ & H). inversion E'; subst. congruence.
  - split; [discriminate|]. intros (d & E & _). congruence.
Qed.

Lemma weekly_step_inv weekly p :
  NoDup (week_keys weekly) ->
  NoDup (week_keys (weekly_step weekly p))
  /\ total_len (weekly_step weekly p)
     = total_len weekly + (if dated p then 1 else 0).
Proof.
  intros Hnd. unfold weekly_step, dated.
  destruct (week_of p) as [wk|]; [|split; [exact Hnd | lia]].
  destruct (classify_dok (Some (text p))) as [[dok_level c] m].
  split; [now apply week_append_nodup | apply week_append_total].
Qed.

Lemma weekly_loop_inv prompts : forall weekly,
  NoDup (week_keys weekly) ->
  NoDup (week_keys (fold_left weekly_step prompts weekly))
  /\ total_len (fold_left weekly_step prompts weekly)
     = total_len weekly + len (filter dated prompts).
Proof.
  induction prompts as [|p ps IH]; intros weekly Hnd; cbn [fold_left filter].
  - split; [exact Hnd | unfold len; simpl; lia].
  - destruct (weekly_step_inv weekly p Hnd) as [Hnd' Ht].
    destruct (IH _ Hnd') as [Hnd'' Ht']. split; [exact Hnd''|].
    rewrite Ht', Ht. destruct (dated p); rewrite ?len_cons; lia.
Qed.

Lemma breakdown_weeks prompts :
  map week (get_weekly_breakdown prompts)
  = sorted (week_keys (fold_left weekly_step prompts [])).
Proof.
  unfold get_weekly_breakdown. rewrite map_map. cbn [rollup week]. apply map_id.
Qed.

(** the rollups count exactly the prompts that have a week *)
Lemma breakdown_total prompts :
  sum_Z (map prompt_count (get_weekly_breakdown prompts))
  = len (filter dated prompts).
Proof.
  unfold get_weekly_breakdown. rewrite map_map. cbn [rollup prompt_count].
  destruct (weekly_loop_inv prompts []) as [Hnd Ht]; [constructor|].
  set (weekly := fold_left weekly_step prompts []) in *.
  rewrite <- (sum_Z_perm _ _
    (Permutation_map (fun k => len (week_get k weekly)) (sorted_perm (week_keys weekly)))).
  rewrite (week_get_sum weekly Hnd), Ht. reflexivity.
Qed.

Lemma breakdown_ascending prompts : ascending_weeks (get_weekly_breakdown prompts).
Proof.
  apply StronglySorted_map. rewrite breakdown_weeks.
  apply sorted_strict. apply (weekly_loop_inv prompts []). constructor.
Qed.

(** C10. The prompt counts of the weekly rollups add up to at most the
    number of prompts classified into the distribution, with equality
    exactly when every prompt has a session date that is present and
    parsable: the distribution counts every prompt, the rollups count
    the prompts with such a date and no other. *)
Theorem weekly_counts_cover_dated_prompts summary prompts directories :
  let b := build_baseline summary prompts directories in
  let weekly_total := sum_Z (map prompt_count (get_weekly_breakdown prompts)) in
  weekly_total <= prompts_classified b
  /\ (weekly_total = prompts_classified b
      <-> Forall date_present_and_parsable prompts)
  /\ prompts_classified b = len prompts
  /\ weekly_total = len (filter dated prompts).
Proof.
  intros b weekly_total. subst b weekly_total.
  rewrite prompts_classified_len, breakdown_total.
  split; [apply len_filter_le|]. split; [|split; reflexivity].
  rewrite len_filter_all. split; intros H; eapply Forall_impl; try exact H;
    intros p; apply dated_iff.
Qed.

End WeeklyFacts.

(** ** The snapshot *)

Lemma estimate_stage_range avg_dok domain_count :
  In (estimate_stage avg_dok domain_count) [5; 6; 7].
Proof.
  unfold estimate_stage, STAGE_THRESHOLDS. cbn [first_rule].
  repeat match goal with
  | |- context [if ?c then _ else _] => destruct c
  end; cbn [In]; lia.
Qed.

Lemma last_n_suffix {A : Type} (n : nat) (xs : list A) :
  xs = firstn (List.length xs - n) xs ++ last_n n xs.
Proof. unfold last_n. symmetry. apply firstn_skipn. Qed.

Lemma last_n_length {A : Type} (n : nat) (xs : list A) :
  List.length (last_n n xs) = Nat.min n (List.length xs).
Proof. unfold last_n. rewrite length_skipn. lia. Qed.

Section SnapshotFacts.
Context {rt : Runtime}.

Lemma classify_loop_scores prompts : forall acc,
  snd (fold_left classify_step prompts acc) = snd acc ++ map tier_of prompts.
Proof.
  induction prompts as [|p ps IH]; intros [dok_counts dok_scores]; cbn [fold_left map].
  - cbn [snd]. now rewrite app_nil_r.
  - rewrite IH. unfold classify_step, tier_of.
    destruct (classify_dok (Some (text p))) as [[dok_level c] m].
    cbn [fst snd]. now rewrite <- app_assoc.
Qed.

Lemma classify_all_scores prompts : snd (classify_all prompts) = map tier_of prompts.
Proof. unfold classify_all. now rewrite classify_loop_scores. Qed.

Lemma tiers_in_range prompts : Forall (fun t => In t [1; 2; 3; 4]) (map tier_of prompts).
Proof.
  apply Forall_map, Forall_forall. intros p _. apply classify_dok_tier.
Qed.

Lemma build_baseline_average summary prompts directories :
  average_dok_score (build_baseline summary prompts directories)
  = py_round (mean_tier (map tier_of prompts)) 2.
Proof.
  unfold build_baseline. rewrite <- classify_all_scores.
  destruct (classify_all prompts) as [dok_counts dok_scores]. reflexivity.
Qed.

Lemma build_baseline_stage summary prompts directories :
  estimated_stage (build_baseline summary prompts directories)
  = estimate_stage (mean_tier (map tier_of prompts)) (len directories).
Proof.
  unfold build_baseline. rewrite <- classify_all_scores.
  destruct (classify_all prompts) as [dok_counts dok_scores]. reflexivity.
Qed.

Lemma build_baseline_weekly summary prompts directories :
  weekly_scores (build_baseline summary prompts directories)
  = last_n 12 (get_weekly_breakdown prompts).
Proof.
  unfold build_baseline.
  destruct (classify_all prompts) as [dok_counts dok_scores]. reflexivity.
Qed.

Lemma mean_tier_between tiers :
  Forall (fun t => In t [1; 2; 3; 4]) tiers ->
  (1 <= mean_tier tiers /\ mean_tier tiers <= 4)%Q.
Proof.
  intros H.
  assert (Hr : Forall (fun l => 1 <= l <= 4) tiers).
  { eapply Forall_impl; [|exact H]. cbn [In]. intros t Ht. lia. }
  apply sum_Z_between in Hr.
  destruct tiers as [|t ts]; [unfold mean_tier; split; lra|].
  unfold mean_tier. set (xs := t :: ts) in *.
  assert (Hpos : 0 < len xs) by (subst xs; rewrite len_cons; pose proof (len_nonneg ts); lia).
  assert (HposQ : (0 < inject_Z (len xs))%Q) by (rewrite (Zlt_Qlt 0) in Hpos; exact Hpos).
  split.
  - apply Qle_shift_div_l; [exact HposQ|]. rewrite Qmult_1_l.
    rewrite <- Zle_Qle. lia.
  - apply Qle_shift_div_r; [exact HposQ|].
    change 4%Q with (inject_Z 4). rewrite <- inject_Z_mult, <- Zle_Qle. lia.
Qed.

(** what a run that returns a snapshot has computed *)
Lemma generate_baseline_snapshot st b :
  generate_baseline st = Ok (Some (Snapshot b)) ->
  exists summary,
    get_data_summary st = Ok summary
    /\ sessions summary <> 0
    /\ b = build_baseline summary (get_all_user_prompts st)
             (get_sessions_by_directory st).
Proof.
  unfold generate_baseline.
  destruct (connect st); cbn [negb]; [|discriminate].
  destruct (get_data_summary st) as [summary|e]; cbn [bind]; [|discriminate].
  destruct (Z.eqb_spec (sessions summary) 0) as [E|E]; [discriminate|].
  intros H. inversion H. exists summary. repeat split. exact E.
Qed.

(** C7. A snapshot returned by [generate_baseline] has an average tier
    score between 1 and 4, which is the mean of the tiers of the
    prompts, each one of 1, 2, 3, 4, rounded to two decimals, and so
    within 0.005 of that mean (up to [float_allowance]; the default 2.0
    stands for the mean when there is no prompt); its estimated stage
    is 5, 6 or 7; its weekly rollups are strictly ascending by week key,
    at most 12, and are the last entries of the full ascending list of
    rollups, so that every week left out is before every week kept. *)
Theorem snapshot_invariants st b :
  generate_baseline st = Ok (Some (Snapshot b)) ->
  let prompts := get_all_user_prompts st in
  let tiers := map tier_of prompts in
  Forall (fun t => In t [1; 2; 3; 4]) tiers
  /\ (Qabs (average_dok_score b - mean_tier tiers) <= 0.005 + float_allowance)%Q
  /\ (1 <= average_dok_score b)%Q /\ (average_dok_score b <= 4)%Q
  /\ In (estimated_stage b) [5; 6; 7]
  /\ ascending_weeks (weekly_scores b)
  /\ (List.length (weekly_scores b) <= 12)%nat
  /\ exists older,
       get_weekly_breakdown prompts = older ++ weekly_scores b
       /\ ascending_weeks (older ++ weekly_scores b)
       /\ (older <> [] -> List.length (weekly_scores b) = 12%nat).
Proof.
  intros H prompts tiers.
  destruct (generate_baseline_snapshot st b H) as (summary & _ & _ & ->).
  fold prompts.
  pose proof (tiers_in_range prompts) as Ht. fold tiers in Ht.
  rewrite build_baseline_average, build_baseline_stage, build_baseline_weekly.
  fold tiers.
  destruct (mean_tier_between tiers Ht) as [Hlo Hhi].
  destruct (py_round_2_between (mean_tier tiers) 1 4 Hlo Hhi) as [Rlo Rhi].
  split; [exact Ht|]. split; [apply py_round_2_near|].
  split; [exact Rlo|]. split; [exact Rhi|].
  split; [apply estimate_stage_range|].
  split; [apply StronglySorted_skipn, breakdown_ascending|].
  split; [rewrite last_n_length; lia|].
  exists (firstn (List.length (get_weekly_breakdown prompts) - 12)
                 (get_weekly_breakdown prompts)).
  rewrite <- last_n_suffix.
  split; [reflexivity|]. split; [apply breakdown_ascending|].
  intros Hne. rewrite last_n_length.
  destruct (Nat.le_gt_cases (List.length (get_weekly_breakdown prompts)) 12) as [Hle|Hgt];
    [|lia].
  exfalso. apply Hne.
  replace (List.length (get_weekly_breakdown prompts) - 12)%nat with 0%nat by lia.
  reflexivity.
Qed.

(** ** When there is nothing to analyse *)

Lemma sql_min_nil : sql_min [] = None.
Proof. reflexivity. Qed.

(** C9. When [generate_baseline] returns [None], which it does when the
    store cannot be opened, or when the store has no session of type
    'user', no snapshot is produced; in the second case the result is
    the error dictionary tagged "no_data" (or [None] again if the store
    cannot be opened); and the [init] command, which then does not call
    [save_baseline], finishes with the baseline file as it found it. *)
Theorem init_without_data_keeps_snapshot st fs :
  generate_baseline st = Ok None \/ user_sessions st = [] ->
  (forall b, generate_baseline st <> Ok (Some (Snapshot b)))
  /\ (connect st = false -> generate_baseline st = Ok None)
  /\ (user_sessions st = [] ->
      generate_baseline st
      = if connect st
        then Ok (Some (NoData "no_data" "No sessions found in database"))
        else Ok None)
  /\ exists printed, main_init st fs = Ok (fs, printed).
Proof.
  intros H.
  assert (Hzero : user_sessions st = [] ->
            generate_baseline st
            = if connect st
              then Ok (Some (NoData "no_data" "No sessions found in database"))
              else Ok None).
  { intros E. unfold generate_baseline, get_data_summary. rewrite E.
    destruct (connect st); reflexivity. }
  assert (Hcases : generate_baseline st = Ok None
                   \/ generate_baseline st
                      = Ok (Some (NoData "no_data" "No sessions found in database"))).
  { destruct H as [H|H]; [now left|].
    rewrite (Hzero H). destruct (connect st); [now right | now left]. }
  split; [|split; [|split; [exact Hzero|]]].
  - intros b. destruct Hcases as [E|E]; rewrite E; discriminate.
  - intros E. unfold generate_baseline. now rewrite E.
  - unfold main_init. destruct Hcases as [E|E]; rewrite E; cbn [bind]; eauto.
Qed.

End SnapshotFacts.

(** * Round trip of the codec *)

Module JsonFacts.
Import Json JsonSpec.

(** ** Strings *)

Lemma append_assoc (a b c : string) : ((a ++ b) ++ c = a ++ (b ++ c))%string.
Proof. induction a as [|x a IH]; cbn; [reflexivity | now rewrite IH]. Qed.

Lemma append_nil_r (a : string) : (a ++ "" = a)%string.
Proof. induction a as [|x a IH]; cbn; [reflexivity | now rewrite IH]. Qed.

Lemma length_append (a b : string) :
  String.length (a ++ b) = (String.length a + String.length b)%nat.
Proof. induction a as [|x a IH]; cbn; [reflexivity | now rewrite IH]. Qed.

(** ** Digits *)

Lemma all_digits_nil : all_digits "".
Proof. intros c []. Qed.

Lemma all_digits_cons c s : is_digit c = true -> all_digits s -> all_digits (String c s).
Proof. intros Hc Hs x [<-|Hx]; [exact Hc | now apply Hs]. Qed.

Lemma all_digits_inv c s : all_digits (String c s) -> is_digit c = true /\ all_digits s.
Proof.
  intros H. split; [apply H; now left|]. intros x Hx. apply H. now right.
Qed.

Lemma all_digits_app a b : all_digits a -> all_digits b -> all_digits (a ++ b).
Proof.
  induction a as [|c a IH]; intros Ha Hb; cbn; [exact Hb|].
  apply all_digits_inv in Ha. destruct Ha as [Hc Ha].
  apply all_digits_cons; [exact Hc | now apply IH].
Qed.

Lemma string_of_uint_digits d : all_digits (NilEmpty.string_of_uint d).
Proof.
  induction d; cbn [NilEmpty.string_of_uint];
    [apply all_digits_nil | apply all_digits_cons; [reflexivity | assumption] ..].
Qed.

Lemma zeros_digits n : all_digits (zeros n).
Proof.
  induction n; cbn; [apply all_digits_nil | apply all_digits_cons; [reflexivity | assumption]].
Qed.

Lemma digits_of_digits n : all_digits (digits_of n).
Proof.
  destruct n; cbn [digits_of]; try apply string_of_uint_digits.
  apply all_digits_cons; [reflexivity | apply all_digits_nil].
Qed.

Lemma ends_number_no_digit rest : ends_number rest -> no_digit_ahead rest.
Proof. destruct rest; [trivial | now intros [H _]]. Qed.

Lemma take_digits_app ds rest :
  all_digits ds -> no_digit_ahead rest -> take_digits (ds ++ rest) = (ds, rest).
Proof.
  intros Hd Hr. induction ds as [|c ds IH]; cbn.
  - destruct rest as [|c r]; [reflexivity|]. cbn in *. now rewrite Hr.
  - apply all_digits_inv in Hd. destruct Hd as [Hc Hd].
    rewrite Hc, (IH Hd). reflexivity.
Qed.

(** ** The digits of a positive number *)

Lemma unorm_leading_zero d d' : Decimal.unorm d = Decimal.D0 d' -> d' = Decimal.Nil.
Proof.
  induction d; cbn; intros H; try discriminate; try (now inversion H).
  now apply IHd.
Qed.

Lemma to_uint_normal p : Decimal.unorm (Pos.to_uint p) = Pos.to_uint p.
Proof.
  rewrite <- (DecimalPos.Unsigned.to_of (Pos.to_uint p)).
  rewrite DecimalPos.Unsigned.of_to. reflexivity.
Qed.

(** the numeral of a positive number starts with a digit other than 0 *)
Lemma digits_of_pos_head p :
  exists c r, NilEmpty.string_of_uint (Pos.to_uint p) = String c r
              /\ is_digit c = true /\ c <> "0"%char.
Proof.
  pose proof (to_uint_normal p) as Hn.
  pose proof (DecimalPos.Unsigned.to_uint_nonzero p) as Hz.
  destruct (Pos.to_uint p) as [|d|d|d|d|d|d|d|d|d|d] eqn:E; cbn [NilEmpty.string_of_uint].
  - exfalso. now apply (DecimalPos.Unsigned.to_uint_nonnil p).
  - exfalso. apply Hz. rewrite (unorm_leading_zero _ _ Hn). reflexivity.
  - eexists _, _. split; [reflexivity|]. split; [reflexivity | discriminate].
  - eexists _, _. split; [reflexivity|]. split; [reflexivity | discriminate].
  - eexists _, _. split; [reflexivity|]. split; [reflexivity | discriminate].
  - eexists _, _. split; [reflexivity|]. split; [reflexivity | discriminate].
  - eexists _, _. split; [reflexivity|]. split; [reflexivity | discriminate].
  - eexists _, _. split; [reflexivity|]. split; [reflexivity | discriminate].
  - eexists _, _. split; [reflexivity|]. split; [reflexivity | discriminate].
  - eexists _, _. split; [reflexivity|]. split; [reflexivity | discriminate].
  - eexists _, _. split; [reflexivity|]. split; [reflexivity | discriminate].
Qed.

Lemma digits_value_of_pos p :
  digits_value (NilEmpty.string_of_uint (Pos.to_uint p)) = Z.pos p.
Proof.
  unfold digits_value. rewrite NilEmpty.usu. unfold Z.of_uint.
  rewrite DecimalPos.Unsigned.of_to. reflexivity.
Qed.

Lemma digits_value_digits_of n : digits_value (digits_of n) = Z.abs n.
Proof.
  destruct n; cbn [digits_of Z.abs]; [reflexivity | apply digits_value_of_pos ..].
Qed.

Lemma uint_of_string_zeros n s :
  NilEmpty.uint_of_string (zeros n ++ s)
  = option_map (Nat.iter n Decimal.D0) (NilEmpty.uint_of_string s).
Proof.
  induction n as [|n IH]; cbn [zeros append NilEmpty.uint_of_string Nat.iter].
  - now destruct (NilEmpty.uint_of_string s).
  - rewrite IH. destruct (NilEmpty.uint_of_string s); reflexivity.
Qed.

Lemma of_uint_zeros n d : Z.of_uint (Nat.iter n Decimal.D0 d) = Z.of_uint d.
Proof.
  induction n as [|n IH]; [reflexivity|]. cbn [Nat.iter]. exact IH.
Qed.

Lemma digits_value_zeros n s : digits_value (zeros n ++ s) = digits_value s.
Proof.
  unfold digits_value. rewrite uint_of_string_zeros.
  destruct (NilEmpty.uint_of_string s); cbn [option_map]; [apply of_uint_zeros | reflexivity].
Qed.

(** ** Number tokens *)

Lemma starts_with_same c r : starts_with c (String c r) = Some r.
Proof. cbn. now rewrite Ascii.eqb_refl. Qed.

Lemma starts_with_other c d r : c <> d -> starts_with c (String d r) = None.
Proof. intros H. cbn. apply Ascii.eqb_neq in H. now rewrite H. Qed.

Lemma digit_not_minus c : is_digit c = true -> c <> "-"%char.
Proof. intros H ->. discriminate. Qed.

Lemma some_digits_app c ds rest :
  all_digits (String c ds) -> no_digit_ahead rest ->
  some_digits (String c ds ++ rest) = Some (String c ds, rest).
Proof.
  intros Hd Hr. unfold some_digits. now rewrite (take_digits_app _ _ Hd Hr).
Qed.

Lemma frac_part_none rest : ends_number rest -> frac_part rest = (EmptyString, rest).
Proof.
  destruct rest as [|c r]; [reflexivity|]. intros (_ & H & _).
  unfold frac_part. rewrite starts_with_other; [reflexivity | congruence].
Qed.

Lemma exp_part_none rest : ends_number rest -> exp_part rest = (None, rest).
Proof.
  destruct rest as [|c r]; [reflexivity|]. intros (_ & _ & H1 & H2).
  unfold exp_part. rewrite !starts_with_other; [reflexivity | congruence | congruence].
Qed.

Lemma int_part_digits c ds rest :
  all_digits (String c ds) -> c <> "0"%char -> no_digit_ahead rest ->
  int_part (String c ds ++ rest) = Some (String c ds, rest).
Proof.
  intros Hd Hc Hr. unfold int_part. cbn [append].
  rewrite starts_with_other by congruence.
  apply (some_digits_app c ds rest Hd Hr).
Qed.

Lemma decode_number_unsigned c ds rest :
  all_digits (String c ds) -> c <> "0"%char -> ends_number rest ->
  decode_number (String c ds ++ rest)
  = Some (JInt (1 * digits_value (String c ds)), rest).
Proof.
  intros Hd Hc Hr. unfold decode_number. cbn [append].
  rewrite starts_with_other
    by (apply not_eq_sym, digit_not_minus; apply Hd; now left).
  change (String c (ds ++ rest)) with (String c ds ++ rest)%string.
  rewrite (int_part_digits c ds rest Hd Hc (ends_number_no_digit _ Hr)).
  rewrite (frac_part_none _ Hr), (exp_part_none _ Hr). reflexivity.
Qed.

(** an integer is read back *)
Lemma decode_number_int n rest :
  ends_number rest -> decode_number (encode_int n ++ rest) = Some (JInt n, rest).
Proof.
  intros Hr. destruct n as [|p|p]; unfold encode_int; cbn [sign_of Z.ltb Z.compare digits_of append].
  - unfold decode_number. cbn [starts_with Ascii.eqb Bool.eqb].
    unfold int_part. cbn [starts_with Ascii.eqb Bool.eqb].
    rewrite (frac_part_none _ Hr), (exp_part_none _ Hr). reflexivity.
  - destruct (digits_of_pos_head p) as (c & r & E & Hc & Hz).
    pose proof (string_of_uint_digits (Pos.to_uint p)) as Hd.
    pose proof (digits_value_of_pos p) as Hv.
    rewrite E in *. rewrite (decode_number_unsigned c r rest Hd Hz Hr), Hv.
    reflexivity.
  - destruct (digits_of_pos_head p) as (c & r & E & Hc & Hz).
    pose proof (string_of_uint_digits (Pos.to_uint p)) as Hd.
    pose proof (digits_value_of_pos p) as Hv.
    rewrite E in *. unfold decode_number. cbn [append]. rewrite starts_with_same.
    change (String c (r ++ rest)) with (String c r ++ rest)%string.
    rewrite (int_part_digits c r rest Hd Hz (ends_number_no_digit _ Hr)).
    rewrite (frac_part_none _ Hr), (exp_part_none _ Hr), Hv. reflexivity.
Qed.

Lemma split_at_spec n s :
  (n <= String.length s)%nat ->
  (fst (split_at n s) ++ snd (split_at n s))%string = s
  /\ String.length (fst (split_at n s)) = n.
Proof.
  revert s. induction n as [|n IH]; intros s H.
  - destruct s; cbn; auto.
  - destruct s as [|c s]; cbn in H; [lia|].
    cbn [split_at]. destruct (IH s ltac:(lia)) as [E L].
    destruct (split_at n s) as [a b]. cbn in *. split; congruence.
Qed.

Lemma zeros_length n : String.length (zeros n) = n.
Proof. induction n; cbn; congruence. Qed.

Lemma all_digits_app_inv a b : all_digits (a ++ b) -> all_digits a /\ all_digits b.
Proof.
  induction a as [|c a IH]; cbn; intros H.
  - split; [apply all_digits_nil | exact H].
  - apply all_digits_inv in H. destruct H as [Hc H]. destruct (IH H) as [Ha Hb].
    split; [now apply all_digits_cons | exact Hb].
Qed.

(** the shape of a decimal numeral: sign, integer part, point, the
    fraction digits *)
Lemma encode_decimal_shape m k :
  exists ip fp,
    encode_decimal m (S k) = (sign_of m ++ ip ++ "." ++ fp)%string
    /\ all_digits fp /\ String.length fp = S k
    /\ digits_value (ip ++ fp) = Z.abs m
    /\ (ip = "0" \/ exists c r, ip = String c r /\ all_digits ip /\ c <> "0"%char).
Proof.
  unfold encode_decimal.
  set (ds := digits_of m).
  set (padded := (zeros (S k + 1 - String.length ds) ++ ds)%string).
  assert (Hlen : (S k + 1 <= String.length padded)%nat).
  { subst padded. rewrite length_append, zeros_length. lia. }
  assert (Hdig : all_digits padded).
  { subst padded. apply all_digits_app; [apply zeros_digits | apply digits_of_digits]. }
  destruct (split_at_spec (String.length padded - S k) padded ltac:(lia)) as [E L].
  destruct (split_at (String.length padded - S k) padded) as [ip fp]. cbn [fst snd] in *.
  exists ip, fp. split; [reflexivity|].
  assert (Hparts : all_digits ip /\ all_digits fp) by (apply all_digits_app_inv; now rewrite E).
  destruct Hparts as [Hip Hfp].
  assert (Lfp : String.length fp = S k).
  { pose proof (f_equal String.length E) as HL. rewrite length_append in HL. lia. }
  split; [exact Hfp|]. split; [exact Lfp|]. split.
  - rewrite E. subst padded. rewrite digits_value_zeros. apply digits_value_digits_of.
  - destruct (Nat.le_gt_cases (String.length ds) (S k)) as [Hle|Hgt].
    + left.
      assert (H1 : (1 <= String.length ds)%nat).
      { subst ds. destruct m; cbn [digits_of]; [cbn; lia| |];
          destruct (digits_of_pos_head p) as (c & r & Ep & _); rewrite Ep; cbn; lia. }
      assert (Hpl : String.length padded = (S k + 1)%nat).
      { subst padded. rewrite length_append, zeros_length. lia. }
      assert (Hz : exists t, padded = String "0" t).
      { subst padded.
        replace (S k + 1 - String.length ds)%nat
          with (S (S k - String.length ds)) by lia.
        cbn [zeros append]. eauto. }
      destruct Hz as [t Ht]. rewrite Hpl in L. rewrite Ht in E.
      destruct ip as [|c ip]; [cbn in L; lia|].
      destruct ip as [|c' ip']; [|cbn in L; lia].
      cbn in E. inversion E. reflexivity.
    + right. subst padded.
      replace (S k + 1 - String.length ds)%nat with 0%nat in * by lia.
      cbn [zeros append] in *.
      assert (Hm : exists p, ds = NilEmpty.string_of_uint (Pos.to_uint p)).
      { subst ds. destruct m; cbn [digits_of]; eauto. cbn in Hgt. lia. }
      destruct Hm as [p Hp]. destruct (digits_of_pos_head p) as (c & r & Ep & _ & Hz).
      rewrite Hp, Ep in E.
      destruct ip as [|c0 ip0]; [cbn in L; lia|].
      cbn in E. inversion E; subst c0.
      exists c, ip0. repeat split; assumption.
Qed.

Lemma abs_sign m : (if m <? 0 then -1 else 1) * Z.abs m = m.
Proof. destruct (Z.ltb_spec m 0); lia. Qed.

(** a decimal numeral is read back as the fraction it writes *)
Lemma decode_number_decimal m k rest :
  ends_number rest ->
  decode_number (encode_decimal m (S k) ++ rest)
  = Some (JFloat (Qmake m (Z.to_pos (10 ^ Z.of_nat (S k)))), rest).
Proof.
  intros Hr.
  destruct (encode_decimal_shape m k) as (ip & fp & E & Hfp & Lfp & Hv & Hip).
  rewrite E.
  assert (Hfp' : exists c r, fp = String c r).
  { destruct fp; [cbn in Lfp; lia | eauto]. }
  destruct Hfp' as (fc & fr & Efp).
  assert (Hfrac : frac_part ("." ++ fp ++ rest) = (fp, rest)).
  { unfold frac_part. cbn [append]. rewrite starts_with_same.
    rewrite Efp in *. rewrite (some_digits_app fc fr rest Hfp (ends_number_no_digit _ Hr)).
    reflexivity. }
  assert (Hint : int_part (ip ++ "." ++ fp ++ rest) = Some (ip, ("." ++ fp ++ rest)%string)).
  { destruct Hip as [->|(c & r & -> & Hd & Hc)].
    - reflexivity.
    - apply (int_part_digits c r); [exact Hd | exact Hc | reflexivity]. }
  assert (Hhead : forall s, starts_with "-" (ip ++ s) = None).
  { intros s. destruct Hip as [->|(c & r & -> & Hd & Hc)]; [reflexivity|].
    cbn [append]. apply starts_with_other, not_eq_sym, digit_not_minus.
    apply Hd. now left. }
  assert (Hres : forall negative : bool,
            (if negative then -1 else 1) = (if m <? 0 then -1 else 1) ->
            match int_part (ip ++ "." ++ fp ++ rest) with
            | None => None
            | Some (ip0, s2) =>
                let '(fp0, s3) := frac_part s2 in
                let '(ex, s4) := exp_part s3 in
                let sign := if negative then -1 else 1 in
                match fp0, ex with
                | EmptyString, None => Some (JInt (sign * digits_value ip0), s4)
                | _, _ =>
                    let e := match ex with Some e => e | None => 0 end in
                    Some (JFloat (make_float (sign * digits_value (ip0 ++ fp0))
                                    (e - Z.of_nat (String.length fp0))), s4)
                end
            end = Some (JFloat (Qmake m (Z.to_pos (10 ^ Z.of_nat (S k)))), rest)).
  { intros negative Hs. rewrite Hint, Hfrac, (exp_part_none _ Hr).
    assert (Hm : forall A (a b : A),
              match fp with EmptyString => a | String _ _ => b end = b)
      by (intros; rewrite Efp; reflexivity).
    rewrite Hm, Hs, Hv, abs_sign, Lfp.
    unfold make_float.
    destruct (Z.leb_spec 0 (0 - Z.of_nat (S k))) as [H|H]; [lia|].
    replace (- (0 - Z.of_nat (S k))) with (Z.of_nat (S k)) by lia.
    reflexivity. }
  rewrite !append_assoc. unfold decode_number, sign_of.
  destruct (Z.ltb_spec m 0) as [Hneg|Hpos].
  - cbn [append]. rewrite starts_with_same. exact (Hres true eq_refl).
  - cbn [append]. rewrite Hhead. exact (Hres false eq_refl).
Qed.

(** ** String literals *)

Lemma decode_escape_char c tail :
  decode_chars (escape_char c ++ tail) = prepend c (decode_chars tail).
Proof.
  destruct c as [[] [] [] [] [] [] [] []]; reflexivity.
Qed.

Lemma decode_escape s rest :
  decode_chars (escape s ++ String quote rest) = Some (s, rest).
Proof.
  induction s as [|c s IH]; [reflexivity|].
  cbn [escape]. rewrite JsonFacts.append_assoc, decode_escape_char, IH. reflexivity.
Qed.

(** ** White space and first characters *)

Lemma skip_ws_spaces n s : skip_ws (spaces n ++ s) = skip_ws s.
Proof. induction n as [|n IH]; [reflexivity | exact IH]. Qed.

Lemma skip_ws_break level s : skip_ws (break level ++ s) = skip_ws s.
Proof. unfold break. cbn [append skip_ws]. apply skip_ws_spaces. Qed.

Lemma skip_ws_head c s : is_ws c = false -> skip_ws (String c s) = String c s.
Proof. intros H. cbn. now rewrite H. Qed.

Lemma break_length level : (1 <= String.length (break level))%nat.
Proof. unfold break. cbn. lia. Qed.

Lemma digit_head c : is_digit c = true -> value_head c.
Proof.
  destruct c as [[] [] [] [] [] [] [] []]; intros H; try discriminate H;
    repeat split; discriminate.
Qed.

Lemma minus_head : value_head "-".
Proof. repeat split; discriminate. Qed.

Lemma signed_digits_head n ds :
  (exists c r, ds = String c r /\ is_digit c = true) ->
  exists c r, (sign_of n ++ ds)%string = String c r
              /\ value_head c /\ (is_digit c = true \/ c = "-"%char).
Proof.
  intros (c & r & -> & Hc). unfold sign_of. destruct (n <? 0); cbn [append].
  - eexists _, _. split; [reflexivity|]. split; [apply minus_head | now right].
  - eexists _, _. split; [reflexivity|]. split; [now apply digit_head | now left].
Qed.

Lemma digits_of_head n : exists c r, digits_of n = String c r /\ is_digit c = true.
Proof.
  destruct n; cbn [digits_of].
  - eexists _, _. split; reflexivity.
  - destruct (digits_of_pos_head p) as (c & r & E & Hc & _). eauto.
  - destruct (digits_of_pos_head p) as (c & r & E & Hc & _). eauto.
Qed.

Lemma encode_int_head n :
  exists c r, encode_int n = String c r
              /\ value_head c /\ (is_digit c = true \/ c = "-"%char).
Proof. apply signed_digits_head, digits_of_head. Qed.

Lemma encode_decimal_head m k :
  exists c r, encode_decimal m (S k) = String c r
              /\ value_head c /\ (is_digit c = true \/ c = "-"%char).
Proof.
  destruct (encode_decimal_shape m k) as (ip & fp & E & _ & _ & _ & Hip).
  rewrite E. apply signed_digits_head.
  destruct Hip as [->|(c & r & -> & Hd & _)].
  - eexists _, _. split; reflexivity.
  - eexists _, _. split; [reflexivity|]. apply Hd. now left.
Qed.

(** ** Floats that are decimal fractions *)

Lemma decimal_places_sound fuel : forall d k,
  decimal_places fuel d = Some k -> d = Z.to_pos (10 ^ Z.of_nat k).
Proof.
  induction fuel as [|fuel IH]; intros d k; cbn [decimal_places]; [discriminate|].
  destruct (Pos.eqb_spec d 1) as [->|Hd].
  - intros [= <-]. reflexivity.
  - destruct (Z.eqb_spec (Z.pos d mod 10) 0) as [Hm|Hm]; [|discriminate].
    destruct (decimal_places fuel (Z.to_pos (Z.pos d / 10))) as [k'|] eqn:E; [|discriminate].
    intros [= <-]. apply IH in E.
    assert (Hdiv : Z.pos d = 10 * (Z.pos d / 10)).
    { pose proof (Z.div_mod (Z.pos d) 10 ltac:(lia)). lia. }
    assert (Hpos : 0 < Z.pos d / 10) by lia.
    assert (Hq : Z.pos d / 10 = 10 ^ Z.of_nat k').
    { rewrite <- (Z2Pos.id (Z.pos d / 10) Hpos), E.
      rewrite Z2Pos.id; [reflexivity | apply Z.pow_pos_nonneg; lia]. }
    rewrite Nat2Z.inj_succ, Z.pow_succ_r by lia. rewrite <- Hq, <- Hdiv. reflexivity.
Qed.

Lemma encode_float_decimal q :
  is_decimal q = true ->
  exists k, encode_float q = encode_decimal (Qnum q) (S k)
            /\ q = Qmake (Qnum q) (Z.to_pos (10 ^ Z.of_nat (S k))).
Proof.
  unfold is_decimal, encode_float.
  destruct (decimal_places (Pos.size_nat (Qden q)) (Qden q)) as [[|k]|] eqn:E;
    try discriminate.
  intros _. exists k. split; [reflexivity|].
  apply decimal_places_sound in E. destruct q as [m d]. cbn [Qnum Qden] in *.
  now rewrite E.
Qed.

(** ** Dictionaries *)

Lemma distinct_app_inv acc k rest :
  distinct (acc ++ k :: rest) = true ->
  ~ In k acc /\ distinct ((acc ++ [k]) ++ rest) = true.
Proof.
  intros H. split.
  - induction acc as [|a acc IH]; [tauto|].
    cbn [app distinct] in H. apply andb_true_iff in H. destruct H as [Ha H].
    intros [->|Hin]; [|now apply IH].
    apply negb_true_iff in Ha.
    assert (Hex : existsb (String.eqb k) (acc ++ k :: rest) = true).
    { apply existsb_exists. exists k. split; [apply in_elt | apply String.eqb_refl]. }
    congruence.
  - now rewrite <- app_assoc.
Qed.

Lemma dict_set_fresh k v acc :
  ~ In k (map fst acc) -> dict_set k v acc = acc ++ [(k, v)].
Proof.
  induction acc as [|[k' v'] acc IH]; cbn [map fst In dict_set app]; intros H.
  - reflexivity.
  - destruct (String.eqb_spec k k') as [->|_]; [tauto|].
    rewrite IH; [reflexivity | tauto].
Qed.

(** ** Dispatch on the first character *)

Lemma decode_value_number fuel c r :
  is_digit c = true \/ c = "-"%char ->
  decode_value (S fuel) (String c r) = decode_number (String c r).
Proof.
  destruct c as [[] [] [] [] [] [] [] []]; intros [H|H]; try discriminate H; reflexivity.
Qed.

Lemma decode_value_break fuel level s :
  decode_value fuel (break level ++ s) = decode_value fuel s.
Proof.
  destruct fuel; [reflexivity|]. cbn [decode_value]. now rewrite skip_ws_break.
Qed.

Lemma decode_value_space fuel s :
  decode_value fuel (String " " s) = decode_value fuel s.
Proof. destruct fuel; reflexivity. Qed.

(** ** Unfolding the decoder *)

Lemma decode_items_eq fuel s :
  decode_items (S fuel) s =
    match decode_value fuel s with
    | Some (v, rest) =>
        match starts_with "," (skip_ws rest) with
        | Some rest' =>
            match decode_items fuel rest' with
            | Some (vs, rest'') => Some (v :: vs, rest'')
            | None => None
            end
        | None =>
            match starts_with "]" (skip_ws rest) with
            | Some rest' => Some ([v], rest')
            | None => None
            end
        end
    | None => None
    end.
Proof. reflexivity. Qed.

Lemma decode_members_eq fuel acc s :
  decode_members (S fuel) acc s =
    match starts_with quote (skip_ws s) with
    | Some r =>
        match decode_chars r with
        | Some (k, rest) =>
            match starts_with ":" (skip_ws rest) with
            | Some rest' =>
                match decode_value fuel rest' with
                | Some (v, rest'') =>
                    match starts_with "," (skip_ws rest'') with
                    | Some r3 => decode_members fuel (dict_set k v acc) r3
                    | None =>
                        match starts_with "}" (skip_ws rest'') with
                        | Some r3 => Some (dict_set k v acc, r3)
                        | None => None
                        end
                    end
                | None => None
                end
            | None => None
            end
        | None => None
        end
    | None => None
    end.
Proof. reflexivity. Qed.

Lemma decode_value_list fuel r :
  decode_value (S fuel) (String "[" r) =
    match starts_with "]" (skip_ws r) with
    | Some rest => Some (JList [], rest)
    | None =>
        match decode_items fuel r with
        | Some (items, rest) => Some (JList items, rest)
        | None => None
        end
    end.
Proof. reflexivity. Qed.

Lemma decode_value_dict fuel r :
  decode_value (S fuel) (String "{" r) =
    match starts_with "}" (skip_ws r) with
    | Some rest => Some (JDict [], rest)
    | None =>
        match decode_members fuel [] r with
        | Some (entries, rest) => Some (JDict entries, rest)
        | None => None
        end
    end.
Proof. reflexivity. Qed.

Lemma decode_value_string fuel r :
  decode_value (S fuel) (String quote r) =
    match decode_chars r with
    | Some (str, rest) => Some (JStr str, rest)
    | None => None
    end.
Proof. reflexivity. Qed.

(** ** Induction on documents *)

Lemma value_induction (P : value -> Prop) :
  P JNull -> (forall b, P (JBool b)) -> (forall n, P (JInt n)) ->
  (forall q, P (JFloat q)) -> (forall s, P (JStr s)) ->
  (forall items, Forall P items -> P (JList items)) ->
  (forall entries, Forall (fun kv => P (snd kv)) entries -> P (JDict entries)) ->
  forall v, P v.
Proof.
  intros Hn Hb Hi Hf Hs Hl Hd. fix IH 1. intros [|b|n|q|s|items|entries].
  - exact Hn.
  - apply Hb.
  - apply Hi.
  - apply Hf.
  - apply Hs.
  - apply Hl. revert items. fix IHl 1. intros [|x r]; constructor; [apply IH | apply IHl].
  - apply Hd. revert entries. fix IHl 1. intros [|[k x] r]; constructor; [apply IH | apply IHl].
Qed.

(** ** The first character of an encoded document *)

Lemma encode_head level v :
  serializable v = true ->
  exists c r, encode level v = String c r /\ value_head c.
Proof.
  intros Hs. destruct v as [|[]|n|q|s|[|x items]|[|kv entries]].
  4: { destruct (encode_int_head n) as (c & r & E & H & _). cbn [encode]. eauto. }
  4: { cbn [serializable] in Hs. destruct (encode_float_decimal q Hs) as (k & E & _).
       destruct (encode_decimal_head (Qnum q) k) as (c & r & E' & H & _).
       cbn [encode]. rewrite E. eauto. }
  all: eexists _, _; split; [reflexivity | repeat split; discriminate].
Qed.

(** ** Reading back *)

Lemma ends_number_break level s : ends_number (break level ++ s).
Proof. cbn. repeat split; discriminate. Qed.

Lemma ends_number_comma s : ends_number (String "," s).
Proof. cbn. repeat split; discriminate. Qed.

Lemma close_after_break level c rest :
  is_ws c = false ->
  skip_ws (break level ++ String c rest) = String c rest.
Proof. intros H. rewrite skip_ws_break. now apply skip_ws_head. Qed.

Lemma decode_items_join lvl l0 rest : forall items,
  items <> [] ->
  Forall reads_back items ->
  forall fuel,
    (String.length (join (encode lvl) (String "," (break lvl)) items) + 1 <= fuel)%nat ->
    decode_items fuel
      (break lvl ++ join (encode lvl) (String "," (break lvl)) items
                 ++ break l0 ++ String "]" rest)
    = Some (items, rest).
Proof.
  induction items as [|x tl IH]; [congruence|]. intros _ Hall fuel Hfuel.
  inversion Hall as [|? ? Hx Htl]; subst.
  destruct fuel as [|fuel]; [lia|]. rewrite decode_items_eq, decode_value_break.
  destruct tl as [|y tl'].
  - cbn [join] in *.
    rewrite (Hx lvl _ fuel ltac:(lia) (ends_number_break l0 _)).
    rewrite (close_after_break l0 "]" rest eq_refl).
    rewrite (starts_with_other "," "]") by discriminate.
    rewrite starts_with_same. reflexivity.
  - change (join (encode lvl) (String "," (break lvl)) (x :: y :: tl'))
      with (encode lvl x ++ String "," (break lvl)
              ++ join (encode lvl) (String "," (break lvl)) (y :: tl'))%string in *.
    rewrite !length_append in Hfuel. cbn [String.length] in Hfuel.
    rewrite !append_assoc. cbn [append].
    rewrite (Hx lvl _ fuel ltac:(lia) (ends_number_comma _)).
    rewrite (skip_ws_head "," _ eq_refl), starts_with_same.
    rewrite (IH ltac:(discriminate) Htl fuel ltac:(lia)). reflexivity.
Qed.

Lemma decode_members_join lvl l0 rest : forall entries acc,
  entries <> [] ->
  Forall (fun kv => reads_back (snd kv)) entries ->
  distinct (map fst (acc ++ entries)) = true ->
  forall fuel,
    (String.length (join (member lvl) (String "," (break lvl)) entries) + 1 <= fuel)%nat ->
    decode_members fuel acc
      (break lvl ++ join (member lvl) (String "," (break lvl)) entries
                 ++ break l0 ++ String "}" rest)
    = Some (acc ++ entries, rest).
Proof.
  induction entries as [|[k x] tl IH]; [congruence|]. intros acc _ Hall Hd fuel Hfuel.
  inversion Hall as [|? ? Hx Htl]; subst. cbn [snd] in Hx.
  rewrite map_app in Hd. cbn [map fst] in Hd.
  destruct (distinct_app_inv _ _ _ Hd) as [Hfresh Hd'].
  destruct fuel as [|fuel]; [lia|]. rewrite decode_members_eq, skip_ws_break.
  assert (Hkey : forall tail,
            starts_with quote (skip_ws (member lvl (k, x) ++ tail))
            = Some (escape k ++ String quote (String ":" (String " " (encode lvl x ++ tail))))%string).
  { intros tail. unfold member, encode_string. cbn [append].
    rewrite skip_ws_head by reflexivity. rewrite starts_with_same.
    rewrite !append_assoc. reflexivity. }
  assert (Hset : dict_set k x acc = acc ++ [(k, x)]) by now apply dict_set_fresh.
  assert (Hlen : (String.length (encode lvl x) <= String.length (member lvl (k, x)))%nat).
  { unfold member. rewrite !length_append. lia. }
  destruct tl as [|y tl'].
  - cbn [join] in *. rewrite Hkey, decode_escape.
    rewrite (skip_ws_head ":" _ eq_refl), starts_with_same.
    rewrite decode_value_space.
    rewrite (Hx lvl _ fuel ltac:(lia) (ends_number_break l0 _)).
    rewrite (close_after_break l0 "}" rest eq_refl).
    rewrite (starts_with_other "," "}") by discriminate.
    rewrite starts_with_same. now rewrite Hset.
  - change (join (member lvl) (String "," (break lvl)) ((k, x) :: y :: tl'))
      with (member lvl (k, x) ++ String "," (break lvl)
              ++ join (member lvl) (String "," (break lvl)) (y :: tl'))%string in *.
    rewrite !length_append in Hfuel. cbn [String.length] in Hfuel.
    rewrite !append_assoc. rewrite Hkey, decode_escape.
    rewrite (skip_ws_head ":" _ eq_refl), starts_with_same.
    rewrite decode_value_space. cbn [append].
    rewrite (Hx lvl _ fuel ltac:(lia) (ends_number_comma _)).
    rewrite (skip_ws_head "," _ eq_refl), starts_with_same.
    rewrite Hset.
    rewrite (IH (acc ++ [(k, x)]) ltac:(discriminate) Htl).
    + now rewrite <- app_assoc.
    + rewrite !map_app. exact Hd'.
    + lia.
Qed.

Lemma encode_list_eq level x tl :
  encode level (JList (x :: tl))
  = ("[" ++ break (S level)
         ++ join (encode (S level)) (String "," (break (S level))) (x :: tl)
         ++ break level ++ "]")%string.
Proof. reflexivity. Qed.

Lemma encode_dict_eq level kv tl :
  encode level (JDict (kv :: tl))
  = ("{" ++ break (S level)
         ++ join (member (S level)) (String "," (break (S level))) (kv :: tl)
         ++ break level ++ "}")%string.
Proof. reflexivity. Qed.

Lemma join_cons {A : Type} (f : A -> string) sep x tl :
  exists t, join f sep (x :: tl) = (f x ++ t)%string.
Proof.
  destruct tl as [|y tl]; cbn [join].
  - exists EmptyString. now rewrite append_nil_r.
  - eauto.
Qed.

(** the text after an opening bracket or brace does not close it *)
Lemma not_closed_after_break (c : ascii) level s t tail :
  value_head c \/ c = quote ->
  starts_with "]" (skip_ws (break level ++ (String c s ++ t) ++ tail)) = None
  /\ starts_with "}" (skip_ws (break level ++ (String c s ++ t) ++ tail)) = None.
Proof.
  intros H. rewrite skip_ws_break. cbn [append].
  assert (Hc : is_ws c = false /\ c <> "]"%char /\ c <> "}"%char).
  { destruct H as [H | ->]; [exact H | repeat split; discriminate]. }
  destruct Hc as (Hw & H1 & H2). rewrite (skip_ws_head c _ Hw).
  split; apply starts_with_other; congruence.
Qed.

Lemma forallb_Forall {A : Type} (f : A -> bool) (P : A -> Prop) xs :
  forallb f xs = true -> Forall (fun x => f x = true -> P x) xs -> Forall P xs.
Proof.
  induction xs as [|x xs IH]; intros Hb Hall; [constructor|].
  cbn [forallb] in Hb. apply andb_true_iff in Hb. destruct Hb as [Hx Hxs].
  inversion Hall; subst. constructor; [auto | now apply IH].
Qed.

(** every serializable document is read back from its text *)
Lemma serializable_reads_back v : serializable v = true -> reads_back v.
Proof.
  induction v as [|b|n|q|s|items IH|entries IH] using value_induction;
    intros Hs level rest fuel Hfuel Hrest.
  - destruct fuel; [cbn in Hfuel; lia | reflexivity].
  - destruct b; (destruct fuel; [cbn in Hfuel; lia | reflexivity]).
  - cbn [encode] in *. destruct (encode_int_head n) as (c & r & E & _ & Hc).
    destruct fuel; [rewrite E in Hfuel; cbn in Hfuel; lia|].
    pose proof (decode_number_int n rest Hrest) as Hn.
    rewrite E in *. cbn [append] in *. now rewrite decode_value_number.
  - cbn [encode serializable] in *.
    destruct (encode_float_decimal q Hs) as (k & E & Eq).
    destruct (encode_decimal_head (Qnum q) k) as (c & r & E' & _ & Hc).
    pose proof (decode_number_decimal (Qnum q) k rest Hrest) as Hn.
    rewrite <- Eq in Hn. rewrite E in *. rewrite E' in *.
    destruct fuel; [cbn in Hfuel; lia|].
    cbn [append] in *. now rewrite decode_value_number.
  - cbn [encode] in *. unfold encode_string in *.
    destruct fuel; [cbn in Hfuel; lia|].
    cbn [append]. rewrite decode_value_string, append_assoc. cbn [append].
    now rewrite decode_escape.
  - cbn [serializable] in Hs.
    pose proof (forallb_Forall _ _ _ Hs IH) as Hall.
    destruct items as [|x tl].
    + destruct fuel; [cbn in Hfuel; lia | reflexivity].
    + rewrite encode_list_eq in *. rewrite !length_append in Hfuel.
      pose proof (break_length (S level)). pose proof (break_length level).
      destruct fuel; [cbn in Hfuel; lia|]. cbn [String.length] in Hfuel.
      rewrite !append_assoc. cbn [append]. rewrite decode_value_list.
      assert (Hx : serializable x = true).
      { cbn [forallb] in Hs. now apply andb_true_iff in Hs. }
      destruct (encode_head (S level) x Hx) as (c & r & E & Hc).
      destruct (join_cons (encode (S level)) (String "," (break (S level))) x tl) as [t Ej].
      rewrite Ej, E.
      destruct (not_closed_after_break c (S level) r t (break level ++ String "]" rest)
                  (or_introl Hc)) as [Hnc _].
      rewrite Hnc. rewrite <- E, <- Ej.
      rewrite (decode_items_join (S level) level rest (x :: tl)
                 ltac:(discriminate) Hall fuel ltac:(lia)).
      reflexivity.
  - cbn [serializable] in Hs. apply andb_true_iff in Hs. destruct Hs as [Hd Hs].
    assert (Hall : Forall (fun kv => reads_back (snd kv)) entries).
    { apply (forallb_Forall (fun kv => let '(_, x) := kv in serializable x)); [exact Hs|].
      eapply Forall_impl; [|exact IH]. intros [k x]. cbn [snd]. auto. }
    destruct entries as [|[k x] tl].
    + destruct fuel; [cbn in Hfuel; lia | reflexivity].
    + rewrite encode_dict_eq in *. rewrite !length_append in Hfuel.
      pose proof (break_length (S level)). pose proof (break_length level).
      destruct fuel; [cbn in Hfuel; lia|]. cbn [String.length] in Hfuel.
      rewrite !append_assoc. cbn [append]. rewrite decode_value_dict.
      destruct (join_cons (member (S level)) (String "," (break (S level))) (k, x) tl) as [t Ej].
      rewrite Ej. unfold member at 1, encode_string. cbn [append].
      destruct (not_closed_after_break quote (S level)
                  (escape k ++ String quote EmptyString ++ ": " ++ encode (S level) x)
                  t (break level ++ String "}" rest) (or_intror eq_refl)) as [_ Hnc].
      cbn [append] in Hnc.
      match goal with
      | |- context [starts_with "}" ?a] =>
          match type of Hnc with
          | starts_with "}" ?b = None => replace a with b
          end
      end.
      * rewrite Hnc.
        match goal with
        | |- context [decode_members fuel [] ?a] =>
            replace a with (break (S level)
                              ++ join (member (S level)) (String "," (break (S level))) ((k, x) :: tl)
                              ++ break level ++ String "}" rest)%string
        end.
        -- rewrite (decode_members_join (S level) level rest ((k, x) :: tl) []
                      ltac:(discriminate) Hall Hd fuel ltac:(lia)).
           reflexivity.
        -- rewrite Ej. unfold member at 1, encode_string. cbn [append]. reflexivity.
      * rewrite !append_assoc. reflexivity.
Qed.

(** the codec reproduces every serializable document *)
Lemma loads_dumps v : serializable v = true -> loads (dumps v) = Some v.
Proof.
  intros Hs. unfold loads, dumps.
  pose proof (serializable_reads_back v Hs O EmptyString
                (S (String.length (encode O v))) ltac:(lia) I) as H.
  rewrite append_nil_r in H. rewrite H. reflexivity.
Qed.

End JsonFacts.

(** ** The documents [generate_baseline] produces are serializable *)

Lemma py_round_1_decimal x : Json.is_decimal (py_round x 1) = true.
Proof. reflexivity. Qed.

Lemma py_round_2_decimal x : Json.is_decimal (py_round x 2) = true.
Proof. reflexivity. Qed.

Lemma distinct_NoDup keys : NoDup keys -> Json.distinct keys = true.
Proof.
  induction 1 as [|k keys Hin _ IH]; [reflexivity|].
  cbn [Json.distinct]. rewrite IH, andb_true_r. apply negb_true_iff.
  destruct (existsb (String.eqb k) keys) eqn:E; [|reflexivity].
  apply existsb_exists in E. destruct E as (k' & Hk' & E).
  apply String.eqb_eq in E. subst. contradiction.
Qed.

Lemma in_firstn {A : Type} n (xs : list A) x : In x (firstn n xs) -> In x xs.
Proof.
  revert xs. induction n as [|n IH]; intros [|y xs]; cbn; try tauto.
  intros [H|H]; [now left | right; now apply IH].
Qed.

Lemma in_skipn {A : Type} n (xs : list A) x : In x (skipn n xs) -> In x xs.
Proof.
  revert xs. induction n as [|n IH]; intros [|y xs]; cbn; try tauto.
  intros H. right. now apply IH.
Qed.

Lemma NoDup_firstn {A : Type} n (xs : list A) : NoDup xs -> NoDup (firstn n xs).
Proof.
  revert xs. induction n as [|n IH]; intros xs H; [constructor|].
  destruct xs as [|x xs]; [constructor|]. cbn [firstn].
  inversion H; subst. constructor; [|now apply IH].
  intros Hin. apply in_firstn in Hin. contradiction.
Qed.

Lemma add_to_group_keys s groups :
  In (session_working_dir s) (map fst groups)
  /\ map fst (add_to_group s groups) = map fst groups
  \/ ~ In (session_working_dir s) (map fst groups)
     /\ map fst (add_to_group s groups) = map fst groups ++ [session_working_dir s].
Proof.
  induction groups as [|[dir e] rest IH]; cbn [add_to_group map fst].
  - right. split; [cbn; tauto | reflexivity].
  - destruct (String.eqb_spec (session_working_dir s) dir) as [E|Hne]; cbn [map fst].
    + left. split; [left; congruence | reflexivity].
    + destruct IH as [[Hin E]|[Hin E]].
      * left. split; [now right | now rewrite E].
      * right. split; [|now rewrite E]. cbn [In].
        intros [H|H]; [congruence | contradiction].
Qed.

Lemma groups_nodup ss : forall groups,
  NoDup (map fst groups) ->
  NoDup (map fst (fold_left (fun groups s => add_to_group s groups) ss groups)).
Proof.
  induction ss as [|s ss IH]; intros groups H; [exact H|]. cbn [fold_left].
  apply IH. destruct (add_to_group_keys s groups) as [[_ E]|[Hin E]]; rewrite E.
  - exact H.
  - apply NoDup_app; [exact H | repeat constructor; cbn; tauto |].
    intros x Hx [<-|[]]. contradiction.
Qed.

Lemma insert_by_count_perm g gs : Permutation (g :: gs) (insert_by_count g gs).
Proof.
  induction gs as [|g' gs IH]; cbn [insert_by_count]; [reflexivity|].
  destruct (count (snd g') <=? count (snd g)); [reflexivity|].
  rewrite perm_swap. now apply perm_skip.
Qed.

Lemma order_by_count_perm gs : Permutation gs (fold_right insert_by_count [] gs).
Proof.
  induction gs as [|g gs IH]; cbn; [constructor|].
  rewrite <- insert_by_count_perm. now apply perm_skip.
Qed.

(** the directories of the domain summary are distinct *)
Lemma directories_distinct st : NoDup (map fst (get_sessions_by_directory st)).
Proof.
  unfold get_sessions_by_directory.
  eapply Permutation_NoDup.
  - apply Permutation_map, order_by_count_perm.
  - apply groups_nodup. constructor.
Qed.

Lemma serializable_dict entries :
  Json.distinct (map fst entries) = true ->
  Forall (fun kv => Json.serializable (snd kv) = true) entries ->
  Json.serializable (Json.JDict entries) = true.
Proof.
  intros Hd Hall. cbn [Json.serializable]. rewrite Hd. cbn [andb].
  apply forallb_forall. intros [k x] Hin.
  rewrite Forall_forall in Hall. exact (Hall (k, x) Hin).
Qed.

Lemma serializable_list items :
  Forall (fun x => Json.serializable x = true) items ->
  Json.serializable (Json.JList items) = true.
Proof.
  intros Hall. cbn [Json.serializable]. apply forallb_forall.
  rewrite Forall_forall in Hall. exact Hall.
Qed.

Section SnapshotDocuments.
Context {rt : Runtime}.

Lemma rollup_json_serializable weekly wk :
  Json.serializable (rollup_json (rollup weekly wk)) = true.
Proof. reflexivity. Qed.

Lemma build_baseline_distribution summary prompts directories :
  let b := build_baseline summary prompts directories in
  exists n1 n2 n3 n4,
    dok_distribution b
    = [ ("dok1", percentage n1 (prompts_classified b));
        ("dok2", percentage n2 (prompts_classified b));
        ("dok3", percentage n3 (prompts_classified b));
        ("dok4", percentage n4 (prompts_classified b)) ]
    /\ dok_distribution_counts b
       = [ ("dok1_count", n1); ("dok2_count", n2); ("dok3_count", n3); ("dok4_count", n4) ].
Proof.
  cbv zeta. unfold build_baseline.
  destruct (classify_all_ok prompts) as [(n1 & n2 & n3 & n4 & E & _) _].
  destruct (classify_all prompts) as [dok_counts dok_scores].
  cbn [fst] in E. subst dok_counts.
  exists n1, n2, n3, n4. split; reflexivity.
Qed.

Lemma percentage_json_serializable v total :
  Json.serializable
    (if 0 <? total then Json.JFloat (percentage v total) else Json.JInt 0) = true.
Proof.
  unfold percentage. destruct (0 <? total); [apply py_round_1_decimal | reflexivity].
Qed.

(** the document of a snapshot is serializable when its domains have
    distinct directories *)
Lemma build_baseline_serializable summary prompts directories :
  NoDup (map fst directories) ->
  Json.serializable (baseline_json (build_baseline summary prompts directories)) = true.
Proof.
  intros Hnd.
  destruct (build_baseline_distribution summary prompts directories)
    as (n1 & n2 & n3 & n4 & Ed & Ec).
  pose proof (build_baseline_average summary prompts directories) as Ea.
  pose proof (build_baseline_weekly summary prompts directories) as Ew.
  assert (Edom : domains (build_baseline summary prompts directories) = take 10 directories).
  { unfold build_baseline. destruct (classify_all prompts). reflexivity. }
  set (b := build_baseline summary prompts directories) in *.
  unfold baseline_json. rewrite Ed, Ec, Ea, Ew, Edom.
  apply serializable_dict; [reflexivity|].
  repeat apply Forall_cons; try apply Forall_nil; cbn [snd].
  - reflexivity.
  - apply serializable_dict; [reflexivity|].
    repeat apply Forall_cons; try apply Forall_nil; cbn [snd];
      try reflexivity; unfold json_opt_str;
      match goal with |- context [match ?o with _ => _ end] => destruct o end; reflexivity.
  - reflexivity.
  - reflexivity.
  - cbn [map fst snd]. apply serializable_dict; [reflexivity|].
    repeat apply Forall_cons; try apply Forall_nil; cbn [snd];
      apply percentage_json_serializable.
  - reflexivity.
  - apply py_round_2_decimal.
  - reflexivity.
  - reflexivity.
  - apply serializable_dict.
    + rewrite map_map. cbn [fst]. apply distinct_NoDup. unfold take.
      rewrite <- firstn_map. now apply NoDup_firstn.
    + apply Forall_map, Forall_forall. intros [dir e] _. reflexivity.
  - reflexivity.
  - apply serializable_list, Forall_map, Forall_forall. intros w Hw.
    unfold last_n in Hw. apply in_skipn in Hw.
    unfold get_weekly_breakdown in Hw. apply in_map_iff in Hw.
    destruct Hw as (wk & <- & _). apply rollup_json_serializable.
Qed.

(** every snapshot [generate_baseline] returns is serializable *)
Lemma snapshot_serializable st b :
  generate_baseline st = Ok (Some (Snapshot b)) ->
  Json.serializable (baseline_json b) = true.
Proof.
  intros H. destruct (generate_baseline_snapshot st b H) as (summary & _ & _ & ->).
  apply build_baseline_serializable, directories_distinct.
Qed.

End SnapshotDocuments.

(** ** Saving and loading *)

(** C8. Saving a serializable document and then loading gives back the
    same document, whatever the baseline file held before, provided the
    file can be written.  Serializable documents have string keys that
    are distinct within a dictionary and floats that are decimal
    fractions; the document of every snapshot is one
    ([snapshot_serializable]). *)
Theorem save_then_load_round_trip (doc : Json.value) (fs : FileSystem) :
  Json.serializable doc = true ->
  baseline_writable fs = true ->
  fst (fst (save_baseline doc fs)) = true
  /\ fst (load_baseline (snd (fst (save_baseline doc fs)))) = Some doc.
Proof.
  intros Hs Hw. unfold save_baseline. rewrite Hw. cbn [fst snd].
  split; [reflexivity|].
  unfold load_baseline. cbn [baseline_file].
  rewrite (JsonFacts.loads_dumps doc Hs). reflexivity.
Qed.

(** * Further properties of the code *)

(** ** The classifier *)

Section ClassifierMore.
Context {rt : Runtime}.

Lemma scan_patterns_matched tl level patterns : forall scores matched,
  len (snd (fold_left (scan_pattern tl level) patterns (scores, matched)))
  = len matched + count_matches tl patterns.
Proof.
  induction patterns as [|p ps IH]; intros scores matched.
  - cbn. unfold count_matches, len. cbn. lia.
  - cbn [fold_left].
    assert (E : count_matches tl (p :: ps)
                = (if matches tl p then 1 else 0) + count_matches tl ps).
    { unfold count_matches. cbn [filter].
      destruct (matches tl p); [rewrite len_cons|]; lia. }
    rewrite E. unfold scan_pattern at 2. unfold matches.
    destruct (Re.search p tl) as [m|]; rewrite IH;
      [rewrite len_app; change (len [strip m]) with 1|]; lia.
Qed.

Lemma scan_levels_matched tl entries : forall scores matched,
  len (snd (fold_left (scan_level tl) entries (scores, matched)))
  = len matched + sum_Z (map (fun e => count_matches tl (snd e)) entries).
Proof.
  induction entries as [|[level patterns] es IH]; intros scores matched.
  - cbn. unfold sum_Z. cbn. lia.
  - cbn [fold_left map snd]. rewrite sum_Z_cons.
    pose proof (scan_patterns_matched tl level patterns scores matched) as H.
    unfold scan_level at 2.
    destruct (fold_left (scan_pattern tl level) patterns (scores, matched)) as [s m].
    cbn [snd] in H. rewrite IH, H. lia.
Qed.

(** every match adds one fragment to [matched] *)
Lemma scan_matched tl : len (snd (scan tl)) = total_count tl.
Proof.
  unfold scan. rewrite scan_levels_matched. unfold DOK_PATTERNS, total_count, match_count.
  cbn [map snd]. rewrite !sum_Z_cons. unfold sum_Z at 1. cbn [fold_left].
  change (len []) with 0.
  change (patterns_of 1) with (snd (nth 0 DOK_PATTERNS (0, []))).
  change (patterns_of 2) with (snd (nth 1 DOK_PATTERNS (0, []))).
  change (patterns_of 3) with (snd (nth 2 DOK_PATTERNS (0, []))).
  change (patterns_of 4) with (snd (nth 3 DOK_PATTERNS (0, []))).
  unfold DOK_PATTERNS. cbn [nth snd]. lia.
Qed.

Lemma match_count_nonneg tl k : 0 <= match_count tl k.
Proof. apply count_matches_nonneg. Qed.

(** X1. Whatever the text, [classify_dok] returns a tier among 1, 2,
    3, 4, a confidence between 0.25 and 1, and at most five fragments
    of evidence. *)
Theorem classify_dok_ranges (text : option string) :
  In (fst (fst (classify_dok text))) [1; 2; 3; 4]
  /\ (1 # 4 <= snd (fst (classify_dok text)))%Q
  /\ (snd (fst (classify_dok text)) <= 1)%Q
  /\ (List.length (snd (classify_dok text)) <= 5)%nat.
Proof.
  split; [apply classify_dok_tier|].
  destruct text as [[|a t]|];
    [cbn; repeat split; try (unfold Qle; cbn; lia); lia
    | | cbn; repeat split; try (unfold Qle; cbn; lia); lia].
  rewrite classify_dok_unfold. cbv zeta.
  set (tl := str_lower (String a t)).
  destruct (Z.eqb_spec (total_count tl) 0) as [E|Hne];
    [cbn; repeat split; try (unfold Qle; cbn; lia); lia|].
  cbn [fst snd].
  destruct (top_level_spec (match_count tl 1) (match_count tl 2)
              (match_count tl 3) (match_count tl 4)) as (_ & _ & Hmax & _).
  fold (final_scores tl) in Hmax.
  set (M := max_Z (dict_values (final_scores tl))) in *.
  pose proof (Hmax 1 ltac:(cbn; tauto)) as H1.
  pose proof (Hmax 2 ltac:(cbn; tauto)) as H2.
  pose proof (Hmax 3 ltac:(cbn; tauto)) as H3.
  pose proof (Hmax 4 ltac:(cbn; tauto)) as H4.
  rewrite dict_get_final_scores in H1, H2, H3, H4 by (cbn; tauto).
  pose proof (match_count_nonneg tl 1). pose proof (match_count_nonneg tl 2).
  pose proof (match_count_nonneg tl 3). pose proof (match_count_nonneg tl 4).
  assert (HM : M <= total_count tl).
  { subst M. unfold final_scores, dict_values, max_Z, total_count.
    cbn [map snd fold_left]. lia. }
  assert (Hpos : 0 < total_count tl) by (unfold total_count in *; lia).
  assert (H4M : total_count tl <= 4 * M) by (unfold total_count; lia).
  destruct (Z.ltb_spec 0 (total_count tl)) as [_|]; [|lia].
  assert (HT : (0 < inject_Z (total_count tl))%Q)
    by (rewrite (Zlt_Qlt 0) in Hpos; exact Hpos).
  assert (Hlo : (1 # 4 <= inject_Z M / inject_Z (total_count tl))%Q).
  { apply Qle_shift_div_l; [exact HT|].
    rewrite Zle_Qle, inject_Z_mult in H4M. change (inject_Z 4) with 4%Q in H4M. lra. }
  assert (Hhi : (inject_Z M / inject_Z (total_count tl) <= 1)%Q).
  { apply Qle_shift_div_r; [exact HT|]. rewrite Qmult_1_l. now rewrite <- Zle_Qle. }
  split; [|split].
  - apply Q.min_glb; [exact Hlo | unfold Qle; cbn; lia].
  - apply Q.le_min_r.
  - unfold take. rewrite length_firstn. lia.
Qed.

(** X2. The evidence holds one fragment for each matching pattern, up
    to five: its length is the smaller of 5 and the number of matching
    patterns, and it is empty for an empty or absent text. *)
Theorem classify_dok_evidence_length (text : option string) :
  List.length (snd (classify_dok text))
  = if text_is_empty text then 0%nat
    else Nat.min 5 (Z.to_nat (total_count (str_lower (text_value text)))).
Proof.
  destruct text as [[|a t]|]; [reflexivity| |reflexivity].
  cbn [text_is_empty text_value]. rewrite classify_dok_unfold. cbv zeta.
  set (tl := str_lower (String a t)).
  pose proof (scan_matched tl) as Hm.
  destruct (Z.eqb_spec (total_count tl) 0) as [E|Hne].
  - rewrite E. reflexivity.
  - cbn [snd]. unfold take. rewrite length_firstn. unfold len in Hm.
    rewrite <- Hm, Nat2Z.id. reflexivity.
Qed.

(** X3. When the patterns that match all belong to one tier, that tier
    is returned with confidence 1. *)
Theorem classify_dok_single_tier (t : string) (k : Z) :
  t <> EmptyString ->
  In k [1; 2; 3; 4] ->
  0 < match_count (str_lower t) k ->
  (forall j, In j [1; 2; 3; 4] -> j <> k -> match_count (str_lower t) j = 0) ->
  fst (fst (classify_dok (Some t))) = k
  /\ (snd (fst (classify_dok (Some t))) == 1)%Q.
Proof.
  intros Hne Hk Hpos Hz. destruct t as [|a t]; [congruence|].
  rewrite classify_dok_unfold. cbv zeta.
  set (tl := str_lower (String a t)) in *.
  assert (HT : total_count tl = match_count tl k).
  { unfold total_count. cbn [In] in Hk.
    destruct Hk as [<-|[<-|[<-|[<-|[]]]]];
      repeat match goal with
      | |- context [match_count tl ?j] =>
          lazymatch j with
          | 1 => fail | 2 => fail | 3 => fail | 4 => fail
          end
      end;
      rewrite ?(Hz 1), ?(Hz 2), ?(Hz 3), ?(Hz 4) by (cbn; lia || tauto || (intros; lia));
      try lia. }
  destruct (Z.eqb_spec (total_count tl) 0) as [E|_]; [lia|].
  destruct (Z.ltb_spec 0 (total_count tl)) as [_|]; [|lia].
  cbn [fst snd].
  destruct (top_level_spec (match_count tl 1) (match_count tl 2)
              (match_count tl 3) (match_count tl 4)) as (HL & HM & Hmax & Htie).
  fold (final_scores tl) in *.
  set (M := max_Z (dict_values (final_scores tl))) in *.
  set (L := top_level (final_scores tl) M) in *.
  rewrite (dict_get_final_scores tl L HL) in HM.
  pose proof (Hmax k Hk) as Hkm. rewrite (dict_get_final_scores tl k Hk) in Hkm.
  assert (HLk : L = k).
  { destruct (Z.eq_dec L k) as [|Hd]; [assumption|].
    rewrite (Hz L HL Hd) in HM. lia. }
  split; [exact HLk|].
  rewrite HT. rewrite <- HM, HLk.
  assert (HQ : (0 < inject_Z (match_count tl k))%Q)
    by (rewrite (Zlt_Qlt 0) in Hpos; exact Hpos).
  assert (E1 : (inject_Z (match_count tl k) / inject_Z (match_count tl k) == 1)%Q)
    by (field; lra).
  rewrite E1. reflexivity.
Qed.

End ClassifierMore.

(** ** Stage and trend *)

Lemma first_rule_monotone_domains rules (avg : Q) (d e : Z) :
  descending rules -> d <= e ->
  first_rule rules avg d <= first_rule rules avg e.
Proof.
  intros Hd Hde. induction rules as [|[[t dt] s] rules IH]; cbn [first_rule].
  - lia.
  - destruct Hd as (Hs & Hall & Hd).
    destruct (Qle_bool t avg); rewrite ?andb_true_l, ?andb_false_l.
    + destruct (Z.leb_spec dt d) as [H1|H1].
      * destruct (Z.leb_spec dt e) as [_|]; lia.
      * destruct (dt <=? e); [|now apply IH].
        now apply first_rule_upper.
    + now apply IH.
Qed.

(** X4. With the average tier fixed, a larger number of domains never
    gives a lower stage. *)
Theorem estimate_stage_monotone_domains (avg : Q) (d e : Z) :
  d <= e -> estimate_stage avg d <= estimate_stage avg e.
Proof.
  intros Hde. unfold estimate_stage.
  apply first_rule_monotone_domains; [exact STAGE_THRESHOLDS_descending | exact Hde].
Qed.

Lemma Qle_bool_spec (x y : Q) :
  BoolSpec (x <= y)%Q (y < x)%Q (Qle_bool x y).
Proof.
  destruct (Qle_bool x y) eqn:E; constructor.
  - now apply Qle_bool_iff.
  - apply Qnot_le_lt. intros H. apply Qle_bool_iff in H. congruence.
Qed.

(** X5. The stages in closed form: stage 7 is an average of at least
    3.5 over at least five domains; otherwise stage 6 is an average of
    at least 2.8 over at least three domains; everything else is stage
    5.  The rule (3.2, 4 domains) never decides. *)
Theorem estimate_stage_thresholds (avg : Q) (d : Z) :
  (estimate_stage avg d = 7 <-> (3.5 <= avg)%Q /\ 5 <= d)
  /\ (estimate_stage avg d = 6 <->
        (2.8 <= avg)%Q /\ 3 <= d /\ ~ ((3.5 <= avg)%Q /\ 5 <= d))
  /\ (estimate_stage avg d = 5 <-> (avg < 2.8)%Q \/ d < 3).
Proof.
  unfold estimate_stage, STAGE_THRESHOLDS. cbn [first_rule].
  destruct (Qle_bool_spec 3.5 avg), (Qle_bool_spec 3.2 avg), (Qle_bool_spec 2.8 avg),
    (Qle_bool_spec 2.5 avg), (Qle_bool_spec 2.0 avg), (Qle_bool_spec 0.0 avg);
    try (exfalso; lra);
    destruct (Z.leb_spec 5 d), (Z.leb_spec 4 d), (Z.leb_spec 3 d),
      (Z.leb_spec 2 d), (Z.leb_spec 1 d), (Z.leb_spec 0 d);
    try (exfalso; lia); cbn [andb];
    (split; [|split]); split; intros; try lia;
    repeat match goal with
    | H : _ /\ _ |- _ => destruct H
    | H : _ \/ _ |- _ => destruct H
    end;
    try (exfalso; lra); try (exfalso; lia);
    try (left; lra); try (right; lia);
    try (repeat split; try lra; try lia; intros [? ?]; try lra; lia).
  all: exfalso; match goal with H : ~ _ |- _ => apply H end; split; assumption.
Qed.






Lemma len_pos {A : Type} (xs : list A) : xs <> [] -> 0 < len xs.
Proof. destruct xs; [congruence|]. intros _. rewrite len_cons. pose proof (len_nonneg xs). lia. Qed.



Lemma Qltb_comp (a b c d : Q) : (a == c)%Q -> (b == d)%Q -> Qltb a b = Qltb c d.
Proof.
  intros Hac Hbd. destruct (Qltb c d) eqn:E.
  - apply Qltb_lt. apply Qltb_lt in E. lra.
  - apply Qltb_ge. apply Qltb_ge in E. lra.
Qed.



(** ** Weekly rollups *)

Lemma week_get_append wk' wk level weekly :
  week_get wk' (week_append wk level weekly)
  = if String.eqb wk' wk then week_get wk' weekly ++ [level] else week_get wk' weekly.
Proof.
  induction weekly as [|[w scores] rest IH]; cbn [week_append week_get].
  - destruct (String.eqb wk' wk); reflexivity.
  - destruct (String.eqb_spec wk w) as [->|Hne]; cbn [week_get].
    + destruct (String.eqb_spec wk' w); reflexivity.
    + destruct (String.eqb_spec wk' w) as [->|Hne'].
      * destruct (String.eqb_spec w wk); [congruence | reflexivity].
      * exact IH.
Qed.

Section AggregatorMore.
Context {rt : Runtime}.

Lemma weekly_step_get wk weekly p :
  week_get wk (weekly_step weekly p)
  = week_get wk weekly ++ (if in_week wk p then [tier_of p] else []).
Proof.
  unfold weekly_step, in_week, tier_of.
  destruct (week_of p) as [w|]; [|now rewrite app_nil_r].
  destruct (classify_dok (Some (text p))) as [[level c] e]. cbn [fst].
  rewrite week_get_append. destruct (String.eqb wk w); [reflexivity | now rewrite app_nil_r].
Qed.

Lemma weekly_loop_get wk prompts : forall weekly,
  week_get wk (fold_left weekly_step prompts weekly)
  = week_get wk weekly ++ map tier_of (filter (in_week wk) prompts).
Proof.
  induction prompts as [|p ps IH]; intros weekly; cbn [fold_left filter].
  - now rewrite app_nil_r.
  - rewrite IH, weekly_step_get.
    destruct (in_week wk p); cbn [map]; rewrite <- app_assoc; reflexivity.
Qed.

Lemma weekly_step_keys wk weekly p :
  In wk (week_keys (weekly_step weekly p))
  <-> In wk (week_keys weekly) \/ week_of p = Some wk.
Proof.
  unfold weekly_step. destruct (week_of p) as [w|].
  - destruct (classify_dok (Some (text p))) as [[level c] e].
    destruct (week_append_keys w level weekly) as [[Hin ->]|[Hout ->]].
    + split; [tauto|]. intros [H|H]; [exact H|]. now injection H as <-.
    + rewrite in_app_iff. cbn [In]. split.
      * intros [H|[H|[]]]; [now left | right; now subst].
      * intros [H|H]; [now left | right; left; now injection H].
  - split; [tauto|]. intros [H|H]; [exact H | discriminate].
Qed.

Lemma weekly_loop_keys wk prompts : forall weekly,
  In wk (week_keys (fold_left weekly_step prompts weekly))
  <-> In wk (week_keys weekly) \/ exists p, In p prompts /\ week_of p = Some wk.
Proof.
  induction prompts as [|p ps IH]; intros weekly; cbn [fold_left].
  - split; [tauto|]. intros [H|(p & [] & _)]. exact H.
  - rewrite IH, weekly_step_keys. split.
    + intros [[H|H]|(q & Hq & Hw)]; [now left | right; exists p; cbn; tauto
                                     | right; exists q; cbn; tauto].
    + intros [H|(q & [<-|Hq] & Hw)]; [tauto | tauto | right; now exists q].
Qed.

Lemma breakdown_in r prompts :
  In r (get_weekly_breakdown prompts) ->
  r = rollup (fold_left weekly_step prompts []) (week r)
  /\ exists p, In p prompts /\ week_of p = Some (week r).
Proof.
  unfold get_weekly_breakdown. intros H. apply in_map_iff in H.
  destruct H as (wk & <- & Hin). cbn [week rollup]. split; [reflexivity|].
  apply (Permutation_in _ (Permutation_sym (sorted_perm _))) in Hin.
  apply weekly_loop_keys in Hin. destruct Hin as [[]|H]. exact H.
Qed.

Lemma filter_in_week_nonempty wk prompts :
  (exists p, In p prompts /\ week_of p = Some wk) ->
  filter (in_week wk) prompts <> [].
Proof.
  intros (p & Hin & Hw) E.
  assert (H : In p (filter (in_week wk) prompts)).
  { apply filter_In. split; [exact Hin|]. unfold in_week. rewrite Hw.
    apply String.eqb_refl. }
  rewrite E in H. exact H.
Qed.

(** what a rollup says, in terms of the prompts of its week *)
Lemma breakdown_rollup r prompts :
  In r (get_weekly_breakdown prompts) ->
  let ps := filter (in_week (week r)) prompts in
  ps <> []
  /\ prompt_count r = len ps
  /\ avg_dok r = py_round (mean_tier (map tier_of ps)) 2.
Proof.
  intros Hin ps. destruct (breakdown_in r prompts Hin) as (Hr & Hex).
  assert (Hne : ps <> []) by now apply filter_in_week_nonempty.
  split; [exact Hne|].
  rewrite Hr. unfold rollup. cbn [prompt_count avg_dok week].
  rewrite weekly_loop_get. cbn [week_get app]. fold ps.
  split; [unfold len; now rewrite length_map|].
  unfold mean_tier. destruct ps; [congruence | reflexivity].
Qed.


(** X9. The weeks listed are exactly the weeks of the prompts that have
    a usable session date, and every weekly average lies between 1 and
    4. *)
Theorem weekly_rollup_weeks_and_bounds (prompts : list Prompt) :
  (forall wk, In wk (map week (get_weekly_breakdown prompts))
              <-> exists p, In p prompts /\ week_of p = Some wk)
  /\ Forall (fun r => 1 <= avg_dok r /\ avg_dok r <= 4)%Q (get_weekly_breakdown prompts).
Proof.
  split.
  - intros wk. rewrite breakdown_weeks. split.
    + intros H. apply (Permutation_in _ (Permutation_sym (sorted_perm _))) in H.
      apply weekly_loop_keys in H. destruct H as [[]|H]. exact H.
    + intros H. apply (Permutation_in _ (sorted_perm _)).
      apply weekly_loop_keys. now right.
  - apply Forall_forall. intros r Hin.
    destruct (breakdown_rollup r prompts Hin) as (_ & _ & ->).
    apply (py_round_2_between _ 1 4); apply mean_tier_between, tiers_in_range.
Qed.

Lemma sorted_unique (l1 : list string) : forall l2,
  StronglySorted str_lt l1 -> StronglySorted str_lt l2 ->
  Permutation l1 l2 -> l1 = l2.
Proof.
  induction l1 as [|a l1 IH]; intros l2 H1 H2 Hp.
  - apply Permutation_nil in Hp. now subst.
  - destruct l2 as [|b l2]; [apply Permutation_sym, Permutation_nil in Hp; discriminate|].
    apply StronglySorted_inv in H1. destruct H1 as [H1 Ha].
    apply StronglySorted_inv in H2. destruct H2 as [H2 Hb].
    rewrite Forall_forall in Ha, Hb.
    assert (E : a = b).
    { assert (Hab : In a (b :: l2)) by (eapply Permutation_in; [exact Hp | now left]).
      assert (Hba : In b (a :: l1))
        by (eapply Permutation_in; [apply Permutation_sym; exact Hp | now left]).
      destruct Hab as [->|Hab]; [reflexivity|].
      destruct Hba as [->|Hba]; [reflexivity|].
      exfalso. apply (str_lt_irrefl a).
      eapply str_lt_trans; [apply Ha; exact Hba | apply Hb; exact Hab]. }
    subst b. f_equal. apply IH; [assumption | assumption |].
    eapply Permutation_cons_inv; exact Hp.
Qed.

Lemma filter_perm {A : Type} (f : A -> bool) (xs ys : list A) :
  Permutation xs ys -> Permutation (filter f xs) (filter f ys).
Proof.
  induction 1 as [|x xs ys _ IH|x y xs|xs ys zs _ IH1 _ IH2]; cbn [filter].
  - constructor.
  - destruct (f x); [now constructor | exact IH].
  - destruct (f x), (f y); try apply Permutation_refl. apply perm_swap.
  - eapply Permutation_trans; eassumption.
Qed.

(** X10. The weekly breakdown does not depend on the order in which the
    prompts are listed. *)
Theorem weekly_breakdown_order_independent (ps qs : list Prompt) :
  Permutation ps qs -> get_weekly_breakdown ps = get_weekly_breakdown qs.
Proof.
  intros Hp. unfold get_weekly_breakdown. cbv zeta.
  set (wp := fold_left weekly_step ps []).
  set (wq := fold_left weekly_step qs []).
  assert (Np : NoDup (week_keys wp)) by (apply weekly_loop_inv; constructor).
  assert (Nq : NoDup (week_keys wq)) by (apply weekly_loop_inv; constructor).
  assert (Hk : sorted (week_keys wp) = sorted (week_keys wq)).
  { apply sorted_unique; [now apply sorted_strict | now apply sorted_strict |].
    eapply Permutation_trans; [apply Permutation_sym, sorted_perm|].
    eapply Permutation_trans; [|apply sorted_perm].
    apply NoDup_Permutation; [assumption | assumption |].
    intros wk. subst wp wq. rewrite !weekly_loop_keys.
    split; (intros [[]|(p & Hin & Hw)]; right; exists p; split; [|exact Hw]).
    - eapply Permutation_in; eassumption.
    - eapply Permutation_in; [apply Permutation_sym|]; eassumption. }
  rewrite Hk. apply map_ext. intros wk. unfold rollup. subst wp wq.
  rewrite !weekly_loop_get. cbn [week_get app].
  assert (Hf : Permutation (map tier_of (filter (in_week wk) ps))
                           (map tier_of (filter (in_week wk) qs)))
    by (apply Permutation_map, filter_perm, Hp).
  set (a := map tier_of (filter (in_week wk) ps)) in *.
  set (b := map tier_of (filter (in_week wk) qs)) in *.
  assert (Hl : len a = len b) by (unfold len; now rewrite (Permutation_length Hf)).
  assert (Hs : sum_Z a = sum_Z b) by now apply sum_Z_perm.
  destruct a as [|x a], b as [|y b];
    [reflexivity | discriminate (Permutation_length Hf)
    | discriminate (Permutation_length Hf) |].
  rewrite Hl, Hs. reflexivity.
Qed.

End AggregatorMore.

(** ** The queries on the session store *)

Lemma insert_by_time_in r rs x :
  In x (insert_by_time r rs) <-> x = r \/ In x rs.
Proof.
  induction rs as [|r' rs IH]; cbn [insert_by_time].
  - cbn. intuition congruence.
  - destruct (created_timestamp (fst r) <=? created_timestamp (fst r')).
    + cbn [In]. intuition congruence.
    + cbn [In]. rewrite IH. intuition congruence.
Qed.

Lemma order_by_time_in rs x : In x (order_by_time rs) <-> In x rs.
Proof.
  unfold order_by_time. induction rs as [|r rs IH]; cbn [fold_right]; [tauto|].
  rewrite insert_by_time_in, IH. cbn [In]. intuition congruence.
Qed.

Lemma insert_by_time_sorted r rs :
  StronglySorted (fun a b => created_timestamp (fst a) <= created_timestamp (fst b)) rs ->
  StronglySorted (fun a b => created_timestamp (fst a) <= created_timestamp (fst b))
    (insert_by_time r rs).
Proof.
  induction rs as [|r' rs IH]; intros Hs; cbn [insert_by_time].
  - repeat constructor.
  - apply StronglySorted_inv in Hs. destruct Hs as [Hs Hall].
    destruct (Z.leb_spec (created_timestamp (fst r)) (created_timestamp (fst r'))) as [H|H].
    + constructor; [constructor; assumption|].
      constructor; [exact H|].
      rewrite Forall_forall in *. intros x Hx. specialize (Hall x Hx). lia.
    + constructor; [now apply IH|].
      apply Forall_forall. intros x Hx. apply insert_by_time_in in Hx.
      destruct Hx as [->|Hx]; [lia|].
      rewrite Forall_forall in Hall. now apply Hall.
Qed.

Lemma order_by_time_sorted rs :
  StronglySorted (fun a b => created_timestamp (fst a) <= created_timestamp (fst b))
    (order_by_time rs).
Proof.
  unfold order_by_time. induction rs as [|r rs IH]; cbn [fold_right].
  - constructor.
  - now apply insert_by_time_sorted.
Qed.

Lemma prompt_of_row_in p m s :
  In p (prompt_of_row (m, s))
  <-> exists content a t,
        content_json m = Some content
        /\ first_text content = Some (String a t)
        /\ p = prompt_from m s (String a t).
Proof.
  unfold prompt_of_row. destruct (content_json m) as [content|].
  - destruct (first_text content) as [[|a t]|] eqn:E; cbn [truthy text_value].
    + split; [intros []|]. intros (c & a & t & Hc & Hf & _).
      injection Hc as <-. congruence.
    + cbn [In]. split.
      * intros [<-|[]]. exists content, a, t. repeat split; [exact E].
      * intros (c & a' & t' & Hc & Hf & ->). injection Hc as <-.
        rewrite E in Hf. injection Hf as <- <-. now left.
    + split; [intros []|]. intros (c & a & t & Hc & Hf & _).
      injection Hc as <-. congruence.
  - split; [intros []|]. intros (c & a & t & Hc & _). discriminate.
Qed.

Lemma prompt_of_row_timestamp p r :
  In p (prompt_of_row r) -> timestamp p = created_timestamp (fst r).
Proof.
  destruct r as [m s]. intros H. apply prompt_of_row_in in H.
  destruct H as (c & a & t & _ & _ & ->). reflexivity.
Qed.

Lemma prompts_of_sorted_rows rows :
  StronglySorted (fun a b => created_timestamp (fst a) <= created_timestamp (fst b)) rows ->
  chronological (flat_map prompt_of_row rows).
Proof.
  unfold chronological. induction 1 as [|r rows Hs IH Hall]; cbn [flat_map].
  - constructor.
  - assert (Hr : forall p q, In p (prompt_of_row r) ->
                   In q (flat_map prompt_of_row rows) -> timestamp p <= timestamp q).
    { intros p q Hp Hq. apply in_flat_map in Hq. destruct Hq as (r' & Hr' & Hq).
      rewrite (prompt_of_row_timestamp p r Hp), (prompt_of_row_timestamp q r' Hq).
      rewrite Forall_forall in Hall. now apply Hall. }
    destruct r as [m s]. unfold prompt_of_row in *.
    destruct (content_json m) as [content|]; [|exact IH].
    destruct (truthy (first_text content)); [|exact IH].
    cbn [app]. constructor; [exact IH|].
    apply Forall_forall. intros q Hq. apply Hr; [now left | exact Hq].
Qed.

(** X11. The prompts returned are exactly those built from a message
    of role 'user' joined to a session of type 'user' with the same id,
    whose content decodes and whose first text item has a non-empty
    text; that text is the prompt's text. *)
Theorem user_prompts_exactly (st : Store) (p : Prompt) :
  In p (get_all_user_prompts st)
  <-> exists m s content a t,
        In m (messages_table st) /\ In s (sessions_table st)
        /\ role m = "user" /\ session_type s = "user"
        /\ id s = message_session_id m
        /\ content_json m = Some content
        /\ first_text content = Some (String a t)
        /\ p = prompt_from m s (String a t).
Proof.
  unfold get_all_user_prompts. cbv zeta. rewrite in_flat_map. split.
  - intros ([m s] & Hrow & Hp).
    apply order_by_time_in, in_flat_map in Hrow. destruct Hrow as (m' & Hm & Hj).
    apply filter_In in Hm. destruct Hm as [Hm Hrole].
    unfold join_rows in Hj. apply in_map_iff in Hj. destruct Hj as (s' & E & Hs).
    injection E as -> ->. apply filter_In in Hs. destruct Hs as [Hs Hc].
    apply andb_true_iff in Hc. destruct Hc as [Hid Hty].
    apply String.eqb_eq in Hrole, Hid, Hty.
    apply prompt_of_row_in in Hp. destruct Hp as (c & a & t & Hc & Hf & ->).
    exists m, s, c, a, t. repeat split; assumption.
  - intros (m & s & c & a & t & Hm & Hs & Hrole & Hty & Hid & Hc & Hf & ->).
    exists (m, s). split.
    + apply order_by_time_in, in_flat_map. exists m. split.
      * apply filter_In. split; [exact Hm|]. now apply String.eqb_eq.
      * unfold join_rows. apply in_map. apply filter_In. split; [exact Hs|].
        apply andb_true_iff. split; now apply String.eqb_eq.
    + apply prompt_of_row_in. exists c, a, t. repeat split; assumption.
Qed.

(** X12. The prompts come in ascending order of their timestamps. *)
Theorem user_prompts_chronological (st : Store) :
  chronological (get_all_user_prompts st).
Proof.
  unfold get_all_user_prompts. cbv zeta.
  apply prompts_of_sorted_rows, order_by_time_sorted.
Qed.

Lemma group_get_add dir s groups :
  group_get dir (add_to_group s groups)
  = if String.eqb (session_working_dir s) dir
    then bump (group_get dir groups) s
    else group_get dir groups.
Proof.
  induction groups as [|[d e] rest IH]; cbn [add_to_group group_get].
  - rewrite (String.eqb_sym dir). destruct (String.eqb (session_working_dir s) dir); reflexivity.
  - destruct (String.eqb_spec (session_working_dir s) d) as [E|E]; cbn [group_get].
    + rewrite E. rewrite (String.eqb_sym d dir).
      destruct (String.eqb dir d); reflexivity.
    + destruct (String.eqb_spec dir d) as [->|Hd].
      * destruct (String.eqb_spec (session_working_dir s) d); [contradiction | reflexivity].
      * exact IH.
Qed.

Lemma bump_all (ss : list SessionRow) : forall e,
  fold_left bump ss (Some e)
  = Some {| count := count e + len ss;
            tokens := tokens e + sum_Z (map tokens_of ss) |}.
Proof.
  induction ss as [|s ss IH]; intros [c t]; cbn [fold_left map].
  - cbn [count tokens]. change (len []) with 0. change (sum_Z []) with 0.
    now rewrite !Z.add_0_r.
  - cbn [bump]. rewrite IH. cbn [count tokens].
    rewrite len_cons, sum_Z_cons. f_equal. f_equal; lia.
Qed.

Lemma bump_none (s : SessionRow) (ss : list SessionRow) :
  fold_left bump (s :: ss) None
  = Some {| count := len (s :: ss);
            tokens := sum_Z (map tokens_of (s :: ss)) |}.
Proof.
  change (fold_left bump (s :: ss) None)
    with (fold_left bump ss (Some {| count := 1; tokens := tokens_of s |})).
  rewrite bump_all. cbv beta iota delta [count tokens].
  change (map tokens_of (s :: ss)) with (tokens_of s :: map tokens_of ss).
  rewrite len_cons, sum_Z_cons. f_equal. f_equal; lia.
Qed.

Lemma groups_get dir ss : forall groups,
  group_get dir (fold_left (fun groups s => add_to_group s groups) ss groups)
  = fold_left bump
      (filter (fun s => String.eqb (session_working_dir s) dir) ss)
      (group_get dir groups).
Proof.
  induction ss as [|s ss IH]; intros groups; cbn [fold_left filter]; [reflexivity|].
  rewrite IH, group_get_add.
  destruct (String.eqb (session_working_dir s) dir); reflexivity.
Qed.

Lemma group_get_in dir e groups :
  NoDup (map fst groups) -> In (dir, e) groups -> group_get dir groups = Some e.
Proof.
  induction groups as [|[d e'] rest IH]; cbn [map fst group_get]; [intros _ []|].
  intros Hnd [E|Hin].
  - injection E as -> ->. now rewrite String.eqb_refl.
  - apply NoDup_cons_iff in Hnd. destruct Hnd as [Hout Hnd].
    destruct (String.eqb_spec dir d) as [->|_]; [|now apply IH].
    exfalso. apply Hout. apply in_map_iff. now exists (d, e).
Qed.

Lemma group_get_some dir e groups :
  group_get dir groups = Some e -> In (dir, e) groups.
Proof.
  induction groups as [|[d e'] rest IH]; cbn [group_get]; [discriminate|].
  destruct (String.eqb_spec dir d) as [->|_].
  - intros H. injection H as ->. now left.
  - intros H. right. now apply IH.
Qed.

Lemma insert_by_count_in g gs x :
  In x (insert_by_count g gs) <-> x = g \/ In x gs.
Proof.
  split.
  - intros H. apply (Permutation_in _ (Permutation_sym (insert_by_count_perm g gs))) in H.
    cbn [In] in H. intuition congruence.
  - intros H. apply (Permutation_in _ (insert_by_count_perm g gs)).
    cbn [In]. intuition congruence.
Qed.

Lemma insert_by_count_sorted g gs :
  by_count_descending gs -> by_count_descending (insert_by_count g gs).
Proof.
  unfold by_count_descending.
  induction gs as [|g' gs IH]; intros Hs; cbn [insert_by_count].
  - repeat constructor.
  - apply StronglySorted_inv in Hs. destruct Hs as [Hs Hall].
    destruct (Z.leb_spec (count (snd g')) (count (snd g))) as [H|H].
    + constructor; [constructor; assumption|].
      constructor; [exact H|].
      rewrite Forall_forall in *. intros x Hx. specialize (Hall x Hx). lia.
    + constructor; [now apply IH|].
      apply Forall_forall. intros x Hx. apply insert_by_count_in in Hx.
      destruct Hx as [->|Hx]; [lia|].
      rewrite Forall_forall in Hall. now apply Hall.
Qed.

Lemma add_to_group_counts s groups :
  sum_Z (map (fun g => count (snd g)) (add_to_group s groups))
  = sum_Z (map (fun g => count (snd g)) groups) + 1.
Proof.
  induction groups as [|[d e] rest IH]; cbn [add_to_group map].
  - reflexivity.
  - destruct (String.eqb (session_working_dir s) d); cbn [map snd count];
      rewrite !sum_Z_cons; [|rewrite IH]; lia.
Qed.

Lemma groups_counts ss : forall groups,
  sum_Z (map (fun g => count (snd g))
           (fold_left (fun groups s => add_to_group s groups) ss groups))
  = sum_Z (map (fun g => count (snd g)) groups) + len ss.
Proof.
  induction ss as [|s ss IH]; intros groups; cbn [fold_left].
  - change (len []) with 0. lia.
  - rewrite IH, add_to_group_counts, len_cons. lia.
Qed.

(** what an entry says, in terms of the sessions of its directory *)
Lemma directory_entry st dir e :
  In (dir, e) (get_sessions_by_directory st) ->
  sessions_in dir st <> []
  /\ e = {| count := len (sessions_in dir st);
            tokens := sum_Z (map tokens_of (sessions_in dir st)) |}.
Proof.
  unfold get_sessions_by_directory. intros H.
  apply (Permutation_in _ (Permutation_sym (order_by_count_perm _))) in H.
  apply group_get_in in H; [|apply groups_nodup; constructor].
  rewrite groups_get in H. cbn [group_get] in H. fold (sessions_in dir st) in H.
  destruct (sessions_in dir st) as [|s ss]; [discriminate|].
  split; [discriminate|].
  rewrite bump_none in H. injection H as <-. reflexivity.
Qed.

(** X13. Each entry of the directory listing describes the user
    sessions of its directory: there is at least one, [count] is their
    number and [tokens] the sum of their token totals, a missing total
    counting as 0. *)
Theorem directory_entry_of_its_sessions (st : Store) (dir : string) (e : DomainEntry) :
  In (dir, e) (get_sessions_by_directory st) ->
  1 <= count e
  /\ count e = len (sessions_in dir st)
  /\ tokens e = sum_Z (map tokens_of (sessions_in dir st)).
Proof.
  intros H. destruct (directory_entry st dir e H) as [Hne ->]. cbn [count tokens].
  pose proof (len_pos _ Hne). repeat split. lia.
Qed.

Lemma directory_keys st dir :
  In dir (map fst (get_sessions_by_directory st))
  <-> exists s, In s (user_sessions st) /\ session_working_dir s = dir.
Proof.
  split.
  - intros H. apply in_map_iff in H. destruct H as ([d e] & <- & H). cbn [fst].
    destruct (directory_entry st d e H) as [Hne _].
    destruct (sessions_in d st) as [|s ss] eqn:E; [congruence|].
    assert (Hs : In s (sessions_in d st)) by (rewrite E; now left).
    apply filter_In in Hs. destruct Hs as [Hs Hd]. apply String.eqb_eq in Hd.
    now exists s.
  - intros (s & Hs & Hd).
    set (groups := fold_left (fun groups s => add_to_group s groups) (user_sessions st) []).
    destruct (group_get dir groups) as [e|] eqn:G.
    + apply group_get_some in G. apply in_map_iff. exists (dir, e). split; [reflexivity|].
      unfold get_sessions_by_directory. fold groups.
      apply (Permutation_in _ (order_by_count_perm _)). exact G.
    + exfalso. subst groups. rewrite groups_get in G. cbn [group_get] in G.
      assert (Hin : In s (filter (fun s => String.eqb (session_working_dir s) dir)
                            (user_sessions st))).
      { apply filter_In. split; [exact Hs|]. now apply String.eqb_eq. }
      destruct (filter _ (user_sessions st)) as [|s' ss]; [exact Hin|].
      rewrite bump_none in G. discriminate.
Qed.

Lemma directory_sorted st : by_count_descending (get_sessions_by_directory st).
Proof.
  unfold get_sessions_by_directory.
  induction (fold_left _ (user_sessions st) []) as [|g gs IH]; cbn [fold_right].
  - constructor.
  - now apply insert_by_count_sorted.
Qed.

Lemma directory_counts st :
  sum_Z (map (fun g => count (snd g)) (get_sessions_by_directory st))
  = len (user_sessions st).
Proof.
  unfold get_sessions_by_directory.
  rewrite <- (sum_Z_perm _ _ (Permutation_map _ (order_by_count_perm _))).
  rewrite groups_counts. reflexivity.
Qed.

(** X14. The listing has one entry for each working directory of a
    user session and no other, each directory once; the entries come
    with the larger counts first and the counts add up to the number of
    user sessions. *)
Theorem directory_listing_shape (st : Store) :
  (forall dir, In dir (map fst (get_sessions_by_directory st))
               <-> exists s, In s (user_sessions st) /\ session_working_dir s = dir)
  /\ NoDup (map fst (get_sessions_by_directory st))
  /\ by_count_descending (get_sessions_by_directory st)
  /\ sum_Z (map (fun g => count (snd g)) (get_sessions_by_directory st))
     = len (user_sessions st).
Proof.
  split; [intros dir; apply directory_keys|].
  split; [apply directories_distinct|].
  split; [apply directory_sorted | apply directory_counts].
Qed.

Lemma str_le_cases a b : str_le a b <-> a = b \/ str_lt a b.
Proof.
  unfold str_le. rewrite !str_lt_compare. rewrite (String.compare_antisym b a).
  destruct (String.compare a b) eqn:C; cbn [CompOpp].
  - apply String.compare_eq_iff in C. split; [now left | discriminate].
  - split; [now right | discriminate].
  - split; [congruence|]. intros [->|H]; [|discriminate].
    pose proof (String.compare_antisym b b) as E. rewrite C in E. discriminate.
Qed.

Lemma str_le_refl a : str_le a a.
Proof. apply str_lt_irrefl. Qed.

Lemma str_le_trans a b c : str_le a b -> str_le b c -> str_le a c.
Proof.
  rewrite !str_le_cases. intros [->|H1] [->|H2]; auto.
  right. eapply str_lt_trans; eassumption.
Qed.

Lemma str_lt_le a b : str_lt a b -> str_le a b.
Proof. intros H. apply str_le_cases. now right. Qed.

Lemma sql_min_least x xs m :
  sql_min (x :: xs) = Some m ->
  In m (x :: xs) /\ forall d, In d (x :: xs) -> str_le m d.
Proof.
  unfold sql_min. intros H. injection H as <-.
  revert x. induction xs as [|b xs IH]; intros x; cbn [fold_left].
  - split; [now left|]. intros d [<-|[]]. apply str_le_refl.
  - destruct (String.ltb b x) eqn:E.
    + destruct (IH b) as [Hin Hle]. split.
      * destruct Hin as [<-|Hin]; [right; now left | right; now right].
      * intros d [<-|[<-|Hd]].
        -- eapply str_le_trans; [apply Hle; now left | apply str_lt_le; exact E].
        -- apply Hle; now left.
        -- apply Hle; now right.
    + destruct (IH x) as [Hin Hle]. split.
      * destruct Hin as [<-|Hin]; [now left | right; now right].
      * intros d [<-|[<-|Hd]].
        -- apply Hle; now left.
        -- eapply str_le_trans; [apply Hle; now left|].
           unfold str_le, str_lt. congruence.
        -- apply Hle; now right.
Qed.

Lemma sql_max_greatest x xs m :
  sql_max (x :: xs) = Some m ->
  In m (x :: xs) /\ forall d, In d (x :: xs) -> str_le d m.
Proof.
  unfold sql_max. intros H. injection H as <-.
  revert x. induction xs as [|b xs IH]; intros x; cbn [fold_left].
  - split; [now left|]. intros d [<-|[]]. apply str_le_refl.
  - destruct (String.ltb x b) eqn:E.
    + destruct (IH b) as [Hin Hle]. split.
      * destruct Hin as [<-|Hin]; [right; now left | right; now right].
      * intros d [<-|[<-|Hd]].
        -- eapply str_le_trans; [apply str_lt_le; exact E | apply Hle; now left].
        -- apply Hle; now left.
        -- apply Hle; now right.
    + destruct (IH x) as [Hin Hle]. split.
      * destruct Hin as [<-|Hin]; [now left | right; now right].
      * intros d [<-|[<-|Hd]].
        -- apply Hle; now left.
        -- eapply str_le_trans; [|apply Hle; now left].
           unfold str_le, str_lt. congruence.
        -- apply Hle; now right.
Qed.

Lemma str_le_empty m : str_le m EmptyString -> m = EmptyString.
Proof.
  intros H. destruct m as [|a t]; [reflexivity|].
  exfalso. apply H. reflexivity.
Qed.

Section RepositoryMore.
Context {rt : Runtime}.

Lemma non_null_length {A : Type} (xs : list (option A)) :
  (List.length (non_null xs) <= List.length xs)%nat.
Proof. induction xs as [|[x|] xs IH]; cbn [non_null List.length]; lia. Qed.

(** X15. [get_data_summary] reports no sessions exactly when no user
    session has a creation date or one of them has an empty one: the
    smallest date decides, and the empty text is the smallest. *)
Theorem data_summary_nothing (st : Store) :
  get_data_summary st = Ok no_sessions
  <-> session_dates st = [] \/ In EmptyString (session_dates st).
Proof.
  unfold get_data_summary. cbv zeta. fold (session_dates st).
  destruct (session_dates st) as [|x xs] eqn:Ed.
  - cbn. split; [now left | reflexivity].
  - destruct (sql_min_least x xs _ eq_refl) as [Hin Hle].
    change (sql_min (x :: xs)) with
      (Some (fold_left (fun a b => if String.ltb b a then b else a) xs x)).
    set (m := fold_left (fun a b => if String.ltb b a then b else a) xs x) in *.
    destruct m as [|a t] eqn:Em.
    + cbn [truthy negb]. split; [intros _; now right | reflexivity].
    + cbn [truthy negb]. split.
      * intros H. exfalso.
        destruct (fromisoformat (replace_Z (String a t))); cbn [bind] in H; [|discriminate].
        destruct (truthy (sql_max (x :: xs))); cbn [bind] in H.
        -- destruct (fromisoformat _); cbn [bind] in H; [|discriminate].
           destruct (sub_days _ _); cbn [bind] in H; discriminate.
        -- discriminate.
      * intros [H|H]; [discriminate|]. exfalso.
        specialize (Hle _ H). apply str_le_empty in Hle. discriminate.
Qed.

Lemma data_summary_shape (st : Store) (s : DataSummary) :
  get_data_summary st = Ok s ->
  sessions s <> 0 ->
  sessions s = len (user_sessions st)
  /\ 1 <= sessions s
  /\ exists e l de dl,
       earliest s = Some e /\ latest s = Some l
       /\ In e (session_dates st) /\ In l (session_dates st)
       /\ (forall d, In d (session_dates st) -> str_le e d /\ str_le d l)
       /\ e <> EmptyString /\ l <> EmptyString
       /\ fromisoformat (replace_Z e) = Some de
       /\ fromisoformat (replace_Z l) = Some dl
       /\ sub_days dl de = Some (days s).
Proof.
  unfold get_data_summary. cbv zeta. fold (session_dates st).
  pose proof (non_null_length (map created_at (user_sessions st))) as Hlen.
  rewrite length_map in Hlen. fold (session_dates st) in Hlen.
  destruct (session_dates st) as [|x xs] eqn:Ed.
  - cbn. intros H. injection H as <-. cbn. congruence.
  - destruct (sql_min_least x xs _ eq_refl) as [Hin Hle].
    destruct (sql_max_greatest x xs _ eq_refl) as [Hin' Hge].
    change (sql_min (x :: xs)) with
      (Some (fold_left (fun a b => if String.ltb b a then b else a) xs x)).
    change (sql_max (x :: xs)) with
      (Some (fold_left (fun a b => if String.ltb a b then b else a) xs x)).
    set (m := fold_left (fun a b => if String.ltb b a then b else a) xs x) in *.
    set (M := fold_left (fun a b => if String.ltb a b then b else a) xs x) in *.
    destruct m as [|a t] eqn:Em.
    { cbn [truthy negb]. intros H. injection H as <-. cbn. congruence. }
    assert (HM : M <> EmptyString).
    { intros E. specialize (Hge _ Hin). rewrite E in Hge.
      apply str_le_empty in Hge. discriminate. }
    destruct M as [|a' t'] eqn:EM; [congruence|].
    cbn [truthy negb text_value].
    destruct (fromisoformat (replace_Z (String a t))) as [de|] eqn:Fe;
      cbn [bind]; [|discriminate].
    destruct (fromisoformat (replace_Z (String a' t'))) as [dl|] eqn:Fl;
      cbn [bind]; [|discriminate].
    destruct (sub_days dl de) as [n|] eqn:Sd; cbn [bind]; [|discriminate].
    intros H _. injection H as <-. cbn [sessions earliest latest days].
    split; [reflexivity|]. split.
    { unfold len. cbn [List.length] in Hlen. lia. }
    exists (String a t), (String a' t'), de, dl.
    repeat split; try assumption; try discriminate.
    + now apply Hle.
    + now apply Hge.
Qed.

(** X16. When [get_data_summary] reports sessions, it reports the
    number of user sessions; [earliest] and [latest] are the smallest
    and the largest creation date of a user session in the order of
    texts, both non-empty and accepted by [fromisoformat], and [days] is
    the whole number of days between them. *)
Theorem data_summary_found (st : Store) (s : DataSummary) :
  get_data_summary st = Ok s ->
  sessions s <> 0 ->
  sessions s = len (user_sessions st)
  /\ 1 <= sessions s
  /\ exists e l de dl,
       earliest s = Some e /\ latest s = Some l
       /\ In e (session_dates st) /\ In l (session_dates st)
       /\ (forall d, In d (session_dates st) -> str_le e d /\ str_le d l)
       /\ e <> EmptyString /\ l <> EmptyString
       /\ fromisoformat (replace_Z e) = Some de
       /\ fromisoformat (replace_Z l) = Some dl
       /\ sub_days dl de = Some (days s).
Proof. apply data_summary_shape. Qed.

End RepositoryMore.

(** ** The snapshot *)

Section GenerationMore.
Context {rt : Runtime}.

Lemma tier_count_cons k p ps :
  tier_count k (p :: ps) = (if tier_of p =? k then 1 else 0) + tier_count k ps.
Proof.
  unfold tier_count. cbn [filter].
  destruct (tier_of p =? k); [rewrite len_cons|]; lia.
Qed.

Lemma classify_loop_counts prompts : forall n1 n2 n3 n4 scores,
  fst (fold_left classify_step prompts ([(1, n1); (2, n2); (3, n3); (4, n4)], scores))
  = [ (1, n1 + tier_count 1 prompts); (2, n2 + tier_count 2 prompts);
      (3, n3 + tier_count 3 prompts); (4, n4 + tier_count 4 prompts) ].
Proof.
  induction prompts as [|p ps IH]; intros n1 n2 n3 n4 scores; cbn [fold_left].
  - cbn [fst]. unfold tier_count. cbn [filter]. change (len []) with 0.
    now rewrite !Z.add_0_r.
  - rewrite !tier_count_cons.
    pose proof (classify_dok_tier (Some (text p))) as Hl.
    unfold classify_step at 2. unfold tier_of at 1 2 3 4.
    destruct (classify_dok (Some (text p))) as [[level c] e]. cbn [fst] in *.
    cbn [In] in Hl. destruct Hl as [<-|[<-|[<-|[<-|[]]]]];
      cbn [dict_incr Z.eqb Pos.eqb]; rewrite IH; rewrite ?Z.add_0_l, ?Z.add_assoc; reflexivity.
Qed.

Lemma classify_all_counts prompts :
  fst (classify_all prompts)
  = [ (1, tier_count 1 prompts); (2, tier_count 2 prompts);
      (3, tier_count 3 prompts); (4, tier_count 4 prompts) ].
Proof. unfold classify_all. now rewrite classify_loop_counts. Qed.

Lemma tier_count_total prompts :
  tier_count 1 prompts + tier_count 2 prompts + tier_count 3 prompts
  + tier_count 4 prompts = len prompts.
Proof.
  induction prompts as [|p ps IH].
  - reflexivity.
  - rewrite !tier_count_cons, len_cons.
    pose proof (classify_dok_tier (Some (text p))) as Hl. fold (tier_of p) in Hl.
    cbn [In] in Hl. destruct Hl as [<-|[<-|[<-|[<-|[]]]]]; cbn [Z.eqb Pos.eqb]; lia.
Qed.

Lemma build_baseline_tally (summary : DataSummary) (prompts : list Prompt)
  (directories : list (string * DomainEntry)) :
  let b := build_baseline summary prompts directories in
  prompts_classified b = len prompts
  /\ dok_distribution_counts b
     = [ ("dok1_count", tier_count 1 prompts); ("dok2_count", tier_count 2 prompts);
         ("dok3_count", tier_count 3 prompts); ("dok4_count", tier_count 4 prompts) ]
  /\ dok_distribution b
     = [ ("dok1", percentage (tier_count 1 prompts) (len prompts));
         ("dok2", percentage (tier_count 2 prompts) (len prompts));
         ("dok3", percentage (tier_count 3 prompts) (len prompts));
         ("dok4", percentage (tier_count 4 prompts) (len prompts)) ].
Proof.
  cbv zeta. rewrite <- (prompts_classified_len summary prompts directories).
  unfold build_baseline.
  pose proof (classify_all_counts prompts) as Hc.
  destruct (classify_all prompts) as [dok_counts dok_scores]. cbn [fst] in Hc. subst dok_counts.
  cbn [prompts_classified dok_distribution_counts dok_distribution map fst snd].
  repeat split.
Qed.


End GenerationMore.

(** ** The report *)

Lemma py_int_floor (x : Q) : (0 <= x)%Q -> py_int x = Qfloor x.
Proof.
  intros H. unfold py_int, Qfloor. destruct x as [n d]. cbn [Qnum Qden].
  apply Z.quot_div_nonneg; [|lia].
  unfold Qle in H. cbn in H. lia.
Qed.

Lemma py_int_opp (x : Q) : py_int (- x) = - py_int x.
Proof.
  unfold py_int. destruct x as [n d]. cbn [Qopp Qnum Qden].
  apply Z.quot_opp_l. lia.
Qed.

Lemma py_int_neg (x : Q) : (x <= 0)%Q -> py_int x = - Qfloor (- x).
Proof.
  intros H. assert (H' : (0 <= - x)%Q) by lra.
  rewrite <- (py_int_floor _ H'), py_int_opp. lia.
Qed.

Lemma py_int_comp (x y : Q) : (x == y)%Q -> py_int x = py_int y.
Proof.
  intros E. destruct (Qlt_le_dec x 0) as [H|H].
  - rewrite (py_int_neg x), (py_int_neg y) by lra. now rewrite E.
  - rewrite (py_int_floor x), (py_int_floor y) by lra. now rewrite E.
Qed.

Lemma py_int_nonpos (x : Q) : (x <= 0)%Q -> py_int x <= 0.
Proof.
  intros H. assert (H' : (0 <= - x)%Q) by lra.
  pose proof (py_int_floor _ H') as E. rewrite py_int_opp in E.
  assert (F : 0 <= Qfloor (- x)).
  { change 0 with (Qfloor 0). now apply Qfloor_resp_le. }
  lia.
Qed.

Lemma len_repeat {A : Type} (x : A) (n : nat) : len (repeat x n) = Z.of_nat n.
Proof. unfold len. now rewrite repeat_length. Qed.

Lemma format_bar_len (percentage : Q) (width : Z) :
  (0 <= percentage)%Q -> (percentage <= 100)%Q -> 0 <= width ->
  0 <= py_int (percentage / 100 * inject_Z width) <= width.
Proof.
  intros Hlo Hhi Hw.
  assert (HW : (0 <= inject_Z width)%Q) by (rewrite Zle_Qle in Hw; exact Hw).
  set (x := (percentage / 100 * inject_Z width)%Q).
  assert (E : (x == percentage * inject_Z width * (1 # 100))%Q)
    by (subst x; unfold Qdiv; change (/ 100)%Q with (1 # 100)%Q; ring).
  assert (Hx0 : (0 <= x)%Q) by (rewrite E; nra).
  assert (Hx1 : (x <= inject_Z width)%Q) by (rewrite E; nra).
  rewrite (py_int_floor x Hx0). split.
  - change 0 with (Qfloor 0). now apply Qfloor_resp_le.
  - rewrite <- (Qfloor_Z width). now apply Qfloor_resp_le.
Qed.

(** X18. For a percentage between 0 and 100 and a width that is not
    negative, [format_bar] gives a bar of exactly [width] cells, the
    full ones first and the light ones after them; the bar is all light
    at 0 and all full at 100. *)
Theorem format_bar_in_range (percentage : Q) (width : Z) :
  (0 <= percentage)%Q -> (percentage <= 100)%Q -> 0 <= width ->
  exists filled,
    0 <= filled <= width
    /\ format_bar percentage width
       = repeat Full (Z.to_nat filled) ++ repeat Light (Z.to_nat (width - filled))
    /\ len (format_bar percentage width) = width
    /\ ((percentage == 0)%Q -> filled = 0)
    /\ ((percentage == 100)%Q -> filled = width).
Proof.
  intros Hlo Hhi Hw.
  pose proof (format_bar_len percentage width Hlo Hhi Hw) as H.
  exists (py_int (percentage / 100 * inject_Z width)).
  split; [exact H|]. split; [reflexivity|]. split.
  - unfold format_bar, times. cbv zeta. rewrite len_app, !len_repeat. lia.
  - split; intros E.
    + rewrite (py_int_comp _ 0); [reflexivity|]. rewrite E. unfold Qdiv. ring.
    + rewrite (py_int_comp _ (inject_Z width)).
      * rewrite py_int_floor; [apply Qfloor_Z|]. rewrite Zle_Qle in Hw. exact Hw.
      * rewrite E. field.
Qed.

(** X19. Outside that range the bar is of one kind of cell and is not
    cut to [width]: above 100 it holds only full cells and below 0 only
    light ones, [width] of them or more. *)
Theorem format_bar_out_of_range (percentage : Q) (width : Z) :
  0 <= width ->
  ((100 < percentage)%Q ->
     exists n, width <= n /\ format_bar percentage width = repeat Full (Z.to_nat n))
  /\ ((percentage < 0)%Q ->
        exists n, width <= n /\ format_bar percentage width = repeat Light (Z.to_nat n)).
Proof.
  intros Hw.
  assert (HW : (0 <= inject_Z width)%Q) by (rewrite Zle_Qle in Hw; exact Hw).
  split.
  - intros Hp. set (filled := Qfloor (percentage / 100 * inject_Z width)).
    assert (E : (percentage / 100 * inject_Z width
                 == percentage * inject_Z width * (1 # 100))%Q)
      by (unfold Qdiv; change (/ 100)%Q with (1 # 100)%Q; ring).
    assert (Hx : (inject_Z width <= percentage / 100 * inject_Z width)%Q)
      by (rewrite E; nra).
    assert (Hf : width <= filled).
    { subst filled. rewrite <- (Qfloor_Z width) at 1. now apply Qfloor_resp_le. }
    exists filled. split; [exact Hf|].
    unfold format_bar, times. cbv zeta.
    rewrite py_int_floor by lra. fold filled.
    replace (Z.to_nat (width - filled)) with 0%nat by lia.
    cbn [repeat]. now rewrite app_nil_r.
  - intros Hp. set (below := Qfloor (- percentage / 100 * inject_Z width)).
    assert (E : (percentage / 100 * inject_Z width
                 == - (- percentage / 100 * inject_Z width))%Q)
      by (unfold Qdiv; ring).
    assert (Hx : (0 <= - percentage / 100 * inject_Z width)%Q).
    { assert (E' : (- percentage / 100 * inject_Z width
                    == (- percentage) * inject_Z width * (1 # 100))%Q)
        by (unfold Qdiv; change (/ 100)%Q with (1 # 100)%Q; ring).
      rewrite E'. nra. }
    assert (Hb : 0 <= below).
    { subst below. change 0 with (Qfloor 0). now apply Qfloor_resp_le. }
    exists (width + below). split; [lia|].
    assert (Ei : py_int (percentage / 100 * inject_Z width) = - below).
    { subst below. rewrite <- (py_int_floor _ Hx), <- py_int_opp.
      apply py_int_comp. exact E. }
    unfold format_bar, times. cbv zeta. rewrite Ei.
    replace (Z.to_nat (- below)) with 0%nat by lia.
    cbn [repeat app]. do 2 f_equal. lia.
Qed.

Lemma py_round_1_between (x : Q) (lo hi : Z) :
  (inject_Z lo <= x)%Q -> (x <= inject_Z hi)%Q ->
  (inject_Z lo <= py_round x 1 /\ py_round x 1 <= inject_Z hi)%Q.
Proof.
  intros Hlo Hhi. unfold py_round. change (inject_Z (10 ^ Z.of_nat 1)) with 10%Q.
  destruct (round_half_even_between (x * 10) (lo * 10) (hi * 10)) as [H1 H2].
  - rewrite inject_Z_mult. change (inject_Z 10) with 10%Q. lra.
  - rewrite inject_Z_mult. change (inject_Z 10) with 10%Q. lra.
  - set (z := round_half_even (x * 10)) in *.
    assert (E : (inject_Z z / 10 == inject_Z z * (1 # 10))%Q) by (unfold Qdiv; reflexivity).
    rewrite E.
    assert (H1' : (inject_Z (lo * 10) <= inject_Z z)%Q) by (rewrite <- Zle_Qle; exact H1).
    assert (H2' : (inject_Z z <= inject_Z (hi * 10))%Q) by (rewrite <- Zle_Qle; exact H2).
    rewrite inject_Z_mult in H1', H2'. change (inject_Z 10) with 10%Q in *.
    split; lra.
Qed.

Lemma percentage_between (v total : Z) :
  0 <= v <= total -> (0 <= percentage v total /\ percentage v total <= 100)%Q.
Proof.
  intros [Hv Ht]. unfold percentage.
  destruct (Z.ltb_spec 0 total) as [Hpos|_]; [|split; lra].
  apply (py_round_1_between _ 0 100).
  - change (inject_Z 0) with 0%Q.
    assert (H : (0 <= inject_Z v / inject_Z total)%Q).
    { apply Qle_shift_div_l; [rewrite (Zlt_Qlt 0) in Hpos; exact Hpos|].
      rewrite Zle_Qle in Hv. change (inject_Z 0) with 0%Q in Hv. lra. }
    set (r := (inject_Z v / inject_Z total)%Q) in *. lra.
  - change (inject_Z 100) with 100%Q.
    assert (H : (inject_Z v / inject_Z total <= 1)%Q).
    { apply Qle_shift_div_r; [rewrite (Zlt_Qlt 0) in Hpos; exact Hpos|].
      rewrite Zle_Qle in Ht. lra. }
    set (r := (inject_Z v / inject_Z total)%Q) in *. lra.
Qed.

Section ReportFacts.
Context {rt : Runtime}.

Lemma tier_count_range k prompts : 0 <= tier_count k prompts <= len prompts.
Proof.
  unfold tier_count. split; [apply len_nonneg | apply len_filter_le].
Qed.

Lemma bar_of_ten (pct : Q) :
  (0 <= pct)%Q -> (pct <= 100)%Q -> len (format_bar pct 10) = 10.
Proof.
  intros Hlo Hhi.
  pose proof (format_bar_len pct 10 Hlo Hhi ltac:(lia)) as H.
  unfold format_bar, times. cbv zeta. rewrite len_app, !len_repeat. lia.
Qed.

(** X20. In the report of a snapshot built by [generate_baseline],
    every bar has exactly ten cells: the four bars of the distribution,
    which are always there, and the bars of the trend, which are at
    most six. *)
Theorem report_bars_have_ten_cells (summary : DataSummary) (prompts : list Prompt)
  (directories : list (string * DomainEntry)) :
  let b := build_baseline summary prompts directories in
  (exists b1 b2 b3 b4,
     distribution_bars b = Some [b1; b2; b3; b4]
     /\ Forall (fun bar => len bar = 10) [b1; b2; b3; b4])
  /\ Forall (fun bar => len bar = 10) (trend_bars b)
  /\ (List.length (trend_bars b) <= 6)%nat.
Proof.
  intros b. split; [|split].
  - destruct (build_baseline_tally summary prompts directories) as (_ & _ & Hd).
    fold b in Hd. unfold distribution_bars. rewrite Hd.
    do 4 eexists. split; [vm_compute dok_key; cbn; reflexivity|].
    repeat constructor; apply bar_of_ten; apply percentage_between, tier_count_range.
  - unfold trend_bars. destruct (2 <=? len (weekly_scores b)); [|constructor].
    apply Forall_map, Forall_forall. intros w Hw.
    unfold last_n in Hw. apply in_skipn in Hw.
    subst b. rewrite build_baseline_weekly in Hw. unfold last_n in Hw.
    apply in_skipn in Hw.
    destruct (breakdown_rollup w prompts Hw) as (_ & _ & Ha).
    assert (Hr : (1 <= avg_dok w /\ avg_dok w <= 4)%Q).
    { rewrite Ha. apply (py_round_2_between _ 1 4);
        apply mean_tier_between, tiers_in_range. }
    assert (E : (avg_dok w / 4 * 100 == avg_dok w * 25)%Q) by field.
    apply bar_of_ten; rewrite E; lra.
  - unfold trend_bars. destruct (2 <=? len (weekly_scores b)); [|cbn; lia].
    rewrite length_map, last_n_length. lia.
Qed.

End ReportFacts.

(** ** The snapshot and the store *)

Section SnapshotMore.
Context {rt : Runtime}.

Lemma build_baseline_fields summary prompts directories :
  let b := build_baseline summary prompts directories in
  sessions_analyzed b = sessions summary
  /\ domain_count b = len directories
  /\ domains b = take 10 directories.
Proof.
  unfold build_baseline. destruct (classify_all prompts) as [dok_counts dok_scores].
  cbn. repeat split.
Qed.

Lemma counts_at_least_length (gs : list (string * DomainEntry)) :
  Forall (fun g => 1 <= count (snd g)) gs ->
  len gs <= sum_Z (map (fun g => count (snd g)) gs).
Proof.
  induction 1 as [|g gs Hg _ IH].
  - reflexivity.
  - cbn [map]. rewrite len_cons, sum_Z_cons. lia.
Qed.

(** X22. A snapshot returned by [generate_baseline] counts the user
    sessions, of which there is at least one, and their working
    directories, at least one and no more than there are sessions; it
    lists the first ten entries of [get_sessions_by_directory]. *)
Theorem snapshot_sessions_and_domains (st : Store) (b : Baseline) :
  generate_baseline st = Ok (Some (Snapshot b)) ->
  sessions_analyzed b = len (user_sessions st)
  /\ 1 <= domain_count b <= sessions_analyzed b
  /\ domain_count b = len (get_sessions_by_directory st)
  /\ domains b = firstn 10 (get_sessions_by_directory st)
  /\ List.length (domains b) = Nat.min 10 (Z.to_nat (domain_count b)).
Proof.
  intros H. destruct (generate_baseline_snapshot st b H) as (summary & Hs & Hne & ->).
  destruct (build_baseline_fields summary (get_all_user_prompts st)
              (get_sessions_by_directory st)) as (E1 & E2 & E3).
  cbv zeta in E1, E2, E3. rewrite E1, E2, E3.
  destruct (data_summary_shape st summary Hs Hne) as (Hn & Hpos & _).
  split; [exact Hn|].
  assert (Hle : len (get_sessions_by_directory st) <= len (user_sessions st)).
  { rewrite <- directory_counts. apply counts_at_least_length.
    apply Forall_forall. intros [dir e] Hin. cbn [snd].
    destruct (directory_entry st dir e Hin) as [Hn0 ->]. cbn [count].
    pose proof (len_pos _ Hn0). lia. }
  assert (Hge : 1 <= len (get_sessions_by_directory st)).
  { destruct (user_sessions st) as [|s ss] eqn:Eu.
    - rewrite Hn in Hpos. change (len []) with 0 in Hpos. lia.
    - assert (Hk : In (session_working_dir s) (map fst (get_sessions_by_directory st))).
      { apply directory_keys. exists s. split; [rewrite Eu; now left | reflexivity]. }
      destruct (get_sessions_by_directory st) as [|g gs]; [destruct Hk|].
      rewrite len_cons. pose proof (len_nonneg gs). lia. }
  split; [rewrite Hn; lia|]. split; [reflexivity|]. split; [reflexivity|].
  unfold take. rewrite length_firstn. unfold len. rewrite Nat2Z.id. reflexivity.
Qed.

(** X23. After [init] has built a snapshot and the baseline file can be
    written, the file holds the snapshot: [load_baseline] returns its
    document and [export] prints the very text of the file. *)
Theorem init_then_export (st : Store) (fs : FileSystem) (b : Baseline) :
  generate_baseline st = Ok (Some (Snapshot b)) ->
  baseline_writable fs = true ->
  exists fs' printed contents,
    main_init st fs = Ok (fs', printed)
    /\ baseline_file fs' = Some contents
    /\ fst (load_baseline fs') = Some (baseline_json b)
    /\ main_export fs' = [Dumped contents].
Proof.
  intros H Hw. pose proof (snapshot_serializable st b H) as Hs.
  unfold main_init. rewrite H. cbn [bind]. unfold save_baseline. rewrite Hw.
  do 3 eexists. split; [reflexivity|]. cbn [baseline_file].
  split; [reflexivity|].
  unfold main_export, load_baseline. cbn [baseline_file].
  rewrite (JsonFacts.loads_dumps _ Hs). cbn [fst].
  split; reflexivity.
Qed.

End SnapshotMore.

Ltac by_Qltb :=
  repeat match goal with
  | |- context [Qltb ?a ?b] =>
      let C := fresh "C" in
      destruct (Qltb a b) eqn:C; [apply Qltb_lt in C | apply Qltb_ge in C]
  end.

(** X21. The dominant level named in the insights is a level whose
    percentage is the largest of the four, and the lowest such level
    when several are equal. *)
Theorem max_dok_first_largest (dist : list (string * Q)) (m : Z) :
  max_dok dist = Some m ->
  In m [1; 2; 3; 4]
  /\ exists vm,
       dist_get (dok_key m) dist = Some vm
       /\ forall j vj,
            In j [1; 2; 3; 4] -> dist_get (dok_key j) dist = Some vj ->
            (vj <= vm)%Q /\ ((vm <= vj)%Q -> m <= j).
Proof.
  unfold max_dok.
  destruct (dist_get (dok_key 1) dist) as [k1|] eqn:E1; [|discriminate].
  destruct (dist_get (dok_key 2) dist) as [k2|] eqn:E2; [|discriminate].
  destruct (dist_get (dok_key 3) dist) as [k3|] eqn:E3; [|discriminate].
  destruct (dist_get (dok_key 4) dist) as [k4|] eqn:E4; [|discriminate].
  cbn [first_max]. intros H. injection H as <-.
  by_Qltb;
    (split; [cbn [In]; tauto|]);
    eexists; (split; [eassumption|]);
    intros j vj Hj Hg; cbn [In] in Hj;
    destruct Hj as [<-|[<-|[<-|[<-|[]]]]];
    rewrite ?E1, ?E2, ?E3, ?E4 in Hg; injection Hg as <-;
    (split; [lra | intros Hle; try lia; exfalso; lra]).
Qed.

(** * Runs on the reference runtime *)

Example classify_recall :
  classify_dok (Some "How do I use git") = (1, 1 # 1, ["how do i"]).
Proof. vm_compute. reflexivity. Qed.

Example classify_skill :
  classify_dok (Some "implement a login form") = (2, 1 # 1, ["implement"]).
Proof. vm_compute. reflexivity. Qed.

Example classify_tie :
  classify_dok (Some "what's our long-term architecture strategy")
  = (4, 1 # 2, ["strategy"; "long-term"]).
Proof. vm_compute. reflexivity. Qed.

Example classify_optional_hyphen :
  classify_dok (Some "the tradeoff and the trade-off")
  = (3, 1 # 1, ["tradeoff"]).
Proof. vm_compute. reflexivity. Qed.

Example classify_inside_a_word :
  classify_dok (Some "prefixed fixes") = (2, 3 # 10, []).
Proof. vm_compute. reflexivity. Qed.

Example week_keys_of_dates :
  map (fun d => week_of (sample_prompt d "x"))
      [ Some "2024-01-15T10:00:00Z"; Some "2023-01-01"; Some "2023-01-02 09:30:00";
        Some "yesterday"; Some ""; None ]
  = [ Some "2024-W03"; Some "2023-W00"; Some "2023-W01"; None; None; None ].
Proof. vm_compute. reflexivity. Qed.

Lemma classify_dok_winning_tier_witness :
  let t := "what's our long-term architecture strategy" in
  t <> EmptyString
  /\ (exists level p, In level [1; 2; 3; 4] /\ In p (patterns_of level)
                      /\ Re.search p (str_lower t) <> None)
  /\ In (fst (fst (classify_dok (Some t)))) [1; 2; 3; 4].
Proof.
  intros t.
  assert (H1 : t <> EmptyString) by discriminate.
  assert (H2 : exists level p, In level [1; 2; 3; 4] /\ In p (patterns_of level)
                               /\ Re.search p (str_lower t) <> None).
  { exists 3, "\bstrategy\b". split; [cbn; tauto|]. split; [cbn; tauto|].
    vm_compute. discriminate. }
  split; [exact H1|]. split; [exact H2|].
  exact (proj1 (classify_dok_winning_tier t H1 H2)).
Defined.

Lemma classify_dok_default_witness :
  let text := Some "hello world" in
  (text = None \/ text = Some EmptyString
   \/ (forall level p, In level [1; 2; 3; 4] -> In p (patterns_of level) ->
         Re.search p (str_lower (text_value text)) = None))
  /\ classify_dok text = (2, 3 # 10, []).
Proof.
  intros text.
  assert (H : text = None \/ text = Some EmptyString
              \/ (forall level p, In level [1; 2; 3; 4] -> In p (patterns_of level) ->
                    Re.search p (str_lower (text_value text)) = None)).
  { right. right. intros level p Hl Hp. cbn [In] in Hl.
    destruct Hl as [<-|[<-|[<-|[<-|[]]]]]; cbv [patterns_of find DOK_PATTERNS fst Z.eqb Pos.eqb] in Hp;
      cbn [In] in Hp;
      repeat (destruct Hp as [<-|Hp]; [vm_compute; reflexivity|]); destruct Hp. }
  split; [exact H | exact (classify_dok_default text H)].
Defined.

Example sixteen_prompts_distribution :
  let b := build_baseline sample_summary sixteen_prompts [] in
  dok_distribution_counts b
  = [("dok1_count", 1); ("dok2_count", 1); ("dok3_count", 1); ("dok4_count", 13)]
  /\ dok_distribution b
     = [("dok1", 6.2%Q); ("dok2", 6.2%Q); ("dok3", 6.2%Q); ("dok4", 81.2%Q)].
Proof. vm_compute. split; reflexivity. Qed.

(** C3, as stated, fails: with 16 prompts in tiers 1, 2, 3 and 13 times
    4, the percentages 6.25, 6.25, 6.25 and 81.25 (binary floats hold
    them exactly) all round down, ties going to the even digit, and
    6.2 + 6.2 + 6.2 + 81.2 = 99.8 is 0.2 away from 100. *)
Lemma distribution_sum_misses_one_tenth :
  let b := build_baseline sample_summary sixteen_prompts [] in
  0 < prompts_classified b
  /\ ~ (Qabs (sum_Q (map snd (dok_distribution b)) - 100) <= 0.1)%Q.
Proof.
  split; [vm_compute; reflexivity|].
  vm_compute. intros H. apply H. reflexivity.
Qed.

Lemma distribution_sum_within_two_tenths_witness :
  let b := build_baseline sample_summary sixteen_prompts [] in
  0 < prompts_classified b
  /\ (Qabs (sum_Q (map snd (dok_distribution b)) - 100) <= 0.2 + float_allowance)%Q.
Proof.
  intros b.
  assert (H : 0 < prompts_classified b) by (vm_compute; reflexivity).
  split; [exact H|].
  exact (distribution_sum_within_two_tenths sample_summary sixteen_prompts [] H).
Defined.

Lemma estimate_stage_monotone_witness :
  (2.9 <= 3.6)%Q /\ estimate_stage 2.9 5 <= estimate_stage 3.6 5.
Proof.
  assert (H : (2.9 <= 3.6)%Q) by (unfold Qle; cbn; lia).
  split; [exact H | exact (estimate_stage_monotone 5 2.9 3.6 H)].
Defined.

Example estimate_stage_samples :
  map (fun ad => estimate_stage (fst ad) (snd ad))
      [ (3.5%Q, 5); (3.5%Q, 4); (3.2%Q, 4); (2.8%Q, 3); (3.9%Q, 2); (2.0%Q, 0); (1.0%Q, 9) ]
  = [7; 6; 6; 6; 5; 5; 5].
Proof. vm_compute. reflexivity. Qed.

Example sample_store_prompts :
  map text (get_all_user_prompts sample_store)
  = [ "how do i use git"; "implement a login form";
      "what's our long-term architecture strategy" ].
Proof. vm_compute. reflexivity. Qed.

Example sample_store_baseline :
  generate_baseline sample_store = Ok (Some (Snapshot sample_baseline)).
Proof. vm_compute. reflexivity. Qed.

Example empty_store_baseline :
  generate_baseline empty_store
  = Ok (Some (NoData "no_data" "No sessions found in database")).
Proof. vm_compute. reflexivity. Qed.

Lemma snapshot_invariants_witness :
  generate_baseline sample_store = Ok (Some (Snapshot sample_baseline))
  /\ (1 <= average_dok_score sample_baseline)%Q
  /\ (average_dok_score sample_baseline <= 4)%Q
  /\ In (estimated_stage sample_baseline) [5; 6; 7]
  /\ ascending_weeks (weekly_scores sample_baseline)
  /\ (List.length (weekly_scores sample_baseline) <= 12)%nat.
Proof.
  assert (H : generate_baseline sample_store = Ok (Some (Snapshot sample_baseline)))
    by (vm_compute; reflexivity).
  split; [exact H|].
  destruct (snapshot_invariants sample_store sample_baseline H)
    as (_ & _ & H1 & H2 & H3 & H4 & H5 & _).
  repeat split; assumption.
Defined.

Lemma init_without_data_keeps_snapshot_witness :
  (generate_baseline empty_store = Ok None \/ user_sessions empty_store = [])
  /\ exists printed, main_init empty_store sample_files = Ok (sample_files, printed).
Proof.
  assert (H : generate_baseline empty_store = Ok None \/ user_sessions empty_store = [])
    by (right; reflexivity).
  split; [exact H|].
  exact (proj2 (proj2 (proj2 (init_without_data_keeps_snapshot empty_store sample_files H)))).
Defined.

Example init_on_sample_store :
  option_map (fun r => baseline_file (fst r))
    (match main_init sample_store sample_files with Ok r => Some r | Raise _ => None end)
  = Some (Some (Json.dumps (baseline_json sample_baseline))).
Proof. vm_compute. reflexivity. Qed.

Example sample_baseline_round_trip :
  Json.loads (Json.dumps (baseline_json sample_baseline))
  = Some (baseline_json sample_baseline).
Proof. vm_compute. reflexivity. Qed.

Lemma save_then_load_round_trip_witness :
  Json.serializable (baseline_json sample_baseline) = true
  /\ baseline_writable sample_files = true
  /\ fst (load_baseline
            (snd (fst (save_baseline (baseline_json sample_baseline) sample_files))))
     = Some (baseline_json sample_baseline).
Proof.
  assert (H1 : Json.serializable (baseline_json sample_baseline) = true)
    by (vm_compute; reflexivity).
  assert (H2 : baseline_writable sample_files = true) by reflexivity.
  split; [exact H1|]. split; [exact H2|].
  exact (proj2 (save_then_load_round_trip (baseline_json sample_baseline)
                  sample_files H1 H2)).
Defined.

Example unwritable_file_keeps_contents :
  let fs := {| baseline_file := Some "[1, 2]"; baseline_writable := false |} in
  save_baseline (baseline_json sample_baseline) fs = (false, fs, [SaveError])
  /\ load_baseline fs = (Some (Json.JList [Json.JInt 1; Json.JInt 2]), []).
Proof. vm_compute. split; reflexivity. Qed.

Example load_of_missing_or_malformed_file :
  load_baseline {| baseline_file := None; baseline_writable := true |} = (None, [])
  /\ load_baseline {| baseline_file := Some "{oops"; baseline_writable := true |}
     = (None, [LoadError]).
Proof. vm_compute. split; reflexivity. Qed.

(** ** Runs of the further properties *)

Lemma classify_dok_single_tier_witness :
  0 < match_count (str_lower "fix the parser") 2
  /\ fst (fst (classify_dok (Some "fix the parser"))) = 2
  /\ (snd (fst (classify_dok (Some "fix the parser"))) == 1)%Q.
Proof.
  assert (H : 0 < match_count (str_lower "fix the parser") 2)
    by (vm_compute; reflexivity).
  split; [exact H|].
  apply (classify_dok_single_tier "fix the parser" 2).
  - discriminate.
  - cbn [In]. lia.
  - exact H.
  - intros j Hj Hne. cbn [In] in Hj.
    destruct Hj as [<-|[<-|[<-|[<-|[]]]]]; try (vm_compute; reflexivity).
    contradiction Hne. reflexivity.
Defined.

Lemma estimate_stage_monotone_domains_witness :
  2 <= 5 /\ estimate_stage 3.6 2 <= estimate_stage 3.6 5.
Proof.
  assert (H : 2 <= 5) by lia.
  split; [exact H | exact (estimate_stage_monotone_domains 3.6 2 5 H)].
Defined.




Lemma weekly_breakdown_order_independent_witness :
  let p := sample_prompt (Some "2024-01-15") "what is a monad" in
  let q := sample_prompt (Some "2024-01-22") "research caching" in
  get_weekly_breakdown [p; q] = get_weekly_breakdown [q; p].
Proof.
  intros p q. apply weekly_breakdown_order_independent. apply perm_swap.
Defined.

Lemma directory_entry_of_its_sessions_witness :
  let e := {| count := 1; tokens := 1200 |} in
  In ("/work/app", e) (get_sessions_by_directory sample_store)
  /\ count e = len (sessions_in "/work/app" sample_store)
  /\ tokens e = sum_Z (map tokens_of (sessions_in "/work/app" sample_store)).
Proof.
  intros e.
  assert (H : In ("/work/app", e) (get_sessions_by_directory sample_store))
    by (vm_compute; left; reflexivity).
  split; [exact H|].
  exact (proj2 (directory_entry_of_its_sessions sample_store "/work/app" e H)).
Defined.

Lemma data_summary_found_witness :
  let s := {| sessions := 2; earliest := Some "2024-01-15 10:00:00";
              latest := Some "2024-01-23 08:30:00"; days := 7 |} in
  get_data_summary sample_store = Ok s
  /\ sessions s = len (user_sessions sample_store).
Proof.
  intros s.
  assert (H : get_data_summary sample_store = Ok s) by (vm_compute; reflexivity).
  split; [exact H|].
  apply (data_summary_found sample_store s H). cbn [sessions s]. discriminate.
Defined.

Lemma format_bar_in_range_witness :
  exists filled,
    0 <= filled <= 10
    /\ format_bar 33.3 10
       = repeat Full (Z.to_nat filled) ++ repeat Light (Z.to_nat (10 - filled))
    /\ len (format_bar 33.3 10) = 10.
Proof.
  destruct (format_bar_in_range 33.3 10) as (filled & H1 & H2 & H3 & _).
  - unfold Qle. cbn. lia.
  - unfold Qle. cbn. lia.
  - lia.
  - exists filled. repeat split; try assumption; lia.
Defined.

Lemma format_bar_out_of_range_witness :
  exists n, 10 <= n /\ format_bar 250 10 = repeat Full (Z.to_nat n).
Proof.
  apply (format_bar_out_of_range 250 10).
  - lia.
  - unfold Qlt. cbn. lia.
Defined.

Lemma max_dok_first_largest_witness :
  max_dok (dok_distribution sample_baseline) = Some 1
  /\ In 1 [1; 2; 3; 4].
Proof.
  assert (H : max_dok (dok_distribution sample_baseline) = Some 1)
    by (vm_compute; reflexivity).
  split; [exact H|].
  exact (proj1 (max_dok_first_largest (dok_distribution sample_baseline) 1 H)).
Defined.

Lemma snapshot_sessions_and_domains_witness :
  generate_baseline sample_store = Ok (Some (Snapshot sample_baseline))
  /\ sessions_analyzed sample_baseline = len (user_sessions sample_store)
  /\ 1 <= domain_count sample_baseline <= sessions_analyzed sample_baseline.
Proof.
  assert (H : generate_baseline sample_store = Ok (Some (Snapshot sample_baseline)))
    by (vm_compute; reflexivity).
  split; [exact H|].
  destruct (snapshot_sessions_and_domains sample_store sample_baseline H)
    as (H1 & H2 & _).
  split; assumption.
Defined.

Lemma init_then_export_witness :
  generate_baseline sample_store = Ok (Some (Snapshot sample_baseline))
  /\ baseline_writable sample_files = true
  /\ exists fs' printed contents,
       main_init sample_store sample_files = Ok (fs', printed)
       /\ baseline_file fs' = Some contents
       /\ fst (load_baseline fs') = Some (baseline_json sample_baseline)
       /\ main_export fs' = [Dumped contents].
Proof.
  assert (H : generate_baseline sample_store = Ok (Some (Snapshot sample_baseline)))
    by (vm_compute; reflexivity).
  assert (Hw : baseline_writable sample_files = true) by reflexivity.
  split; [exact H|]. split; [exact Hw|].
  exact (init_then_export sample_store sample_files sample_baseline H Hw).
Defined.
